(** * Skylark BI agent: normalization pipeline and analytics engine

    A shallow embedding of [data_cleaner.py] and [analytics.py].

    Modelling conventions.
    - A Python [str] is a [string]: the UTF-8 bytes of the text.  The
      character classes Python consults ([str.strip], [str.lower], the regex
      classes, the digits [float] accepts) are modelled on the ASCII range;
      bytes above 127 are carried unchanged and belong to no class.  A
      statement about trimmed or lower-cased text is therefore a statement
      about text whose whitespace and cased letters are ASCII.
    - A Python [float] is an IEEE-754 binary64 value, modelled by the
      standard library's [spec_float] with [prec = 53] and [emax = 1024];
      every operation rounds to nearest, ties to even.
    - An exception that leaves a function is a [Raise] result; an exception
      the source catches is an [option] inside the function.
    - The clock ([date.today()], [pd.Timestamp.today()]) is an explicit
      argument [now].
    - Functions of the Python and pandas libraries that the repository merely
      calls (JSON decoding, [strptime], number formatting, column sums) are
      the fields of a [PyRuntime]; the repository's own logic is written out. *)

From Stdlib Require Import ZArith List String Ascii Bool Lia DecimalString.
From Stdlib Require Import Floats.SpecFloat.
Import ListNotations.

Set Warnings "-register-all".

Open Scope string_scope.
Open Scope Z_scope.

(* ================================================================== *)
(** * Python primitives                                                *)
(* ================================================================== *)

(** ** Exceptions and results *)

Inductive exn : Type :=
| OverflowError
| TypeError
| ZeroDivisionError.

Inductive res (A : Type) : Type :=
| Ok (a : A)
| Raise (e : exn).

Arguments Ok {A} a.
Arguments Raise {A} e.

Definition bind {A B : Type} (m : res A) (k : A -> res B) : res B :=
  match m with
  | Ok a => k a
  | Raise e => Raise e
  end.

Notation "x <- m ;; k" := (bind m (fun x => k))
  (at level 61, m at next level, right associativity).

(** ** Characters and strings *)

Definition code (c : ascii) : Z := Z.of_nat (nat_of_ascii c).

(** [str.isspace] on the ASCII range: tab to carriage return, the four
    separators 0x1c-0x1f and the space. *)
Definition is_space (c : ascii) : bool :=
  let n := code c in
  ((9 <=? n) && (n <=? 13)) || ((28 <=? n) && (n <=? 32)).

Definition is_digit (c : ascii) : bool :=
  let n := code c in (48 <=? n) && (n <=? 57).

Definition lower_char (c : ascii) : ascii :=
  let n := code c in
  if (65 <=? n) && (n <=? 90) then ascii_of_nat (Z.to_nat (n + 32)) else c.

Fixpoint lower (s : string) : string :=
  match s with
  | EmptyString => EmptyString
  | String c r => String (lower_char c) (lower r)
  end.

Fixpoint lstrip (s : string) : string :=
  match s with
  | EmptyString => EmptyString
  | String c r => if is_space c then lstrip r else s
  end.

Fixpoint rstrip (s : string) : string :=
  match s with
  | EmptyString => EmptyString
  | String c r =>
      match rstrip r with
      | EmptyString => if is_space c then EmptyString else String c EmptyString
      | r' => String c r'
      end
  end.

Definition strip (s : string) : string := rstrip (lstrip s).

Definition startswith (s p : string) : bool := String.prefix p s.

Definition endswith (s p : string) : bool :=
  let n := String.length s in
  let k := String.length p in
  (Nat.leb k n) && String.eqb (String.substring (n - k) k s) p.

(** [s[:-k]] *)
Definition drop_last (k : nat) (s : string) : string :=
  String.substring 0 (String.length s - k) s.

(** [sub in s] *)
Fixpoint contains (s sub : string) : bool :=
  String.prefix sub s ||
  match s with
  | EmptyString => false
  | String _ r => contains r sub
  end.

Fixpoint str_filter (keep : ascii -> bool) (s : string) : string :=
  match s with
  | EmptyString => EmptyString
  | String c r => if keep c then String c (str_filter keep r) else str_filter keep r
  end.

Fixpoint join (sep : string) (l : list string) : string :=
  match l with
  | [] => EmptyString
  | [x] => x
  | x :: r => x ++ sep ++ join sep r
  end.

Definition in_strs (x : string) (l : list string) : bool :=
  existsb (String.eqb x) l.

(** The double quote, as a one-character string. *)
Definition dquote : string := String (ascii_of_nat 34) EmptyString.

(** ** Floats *)

Definition float : Type := spec_float.

Definition fmul : float -> float -> float := SFmul 53 1024.
Definition fdiv : float -> float -> float := SFdiv 53 1024.
Definition fsub : float -> float -> float := SFsub 53 1024.
Definition feqb : float -> float -> bool := SFeqb.
Definition fltb : float -> float -> bool := SFltb.
Definition fleb : float -> float -> bool := SFleb.

Definition is_nan (f : float) : bool :=
  match f with S754_nan => true | _ => false end.

(** The float nearest to the integer [z]; an infinity when [z] is out of
    range. *)
Definition float_of_Z (z : Z) : float := binary_normalize 53 1024 z 0 false.

(** The float nearest to [n / d], for positive integers of any size. *)
Definition float_of_ratio (s : bool) (n d : positive) : float :=
  fdiv (S754_finite s n 0) (S754_finite false d 0).

(** [float(z)] for a Python [int]. *)
Definition float_of_int (z : Z) : res float :=
  match float_of_Z z with
  | S754_infinity _ => Raise OverflowError
  | f => Ok f
  end.

(** [a / b] for Python [int]s: the correctly rounded quotient. *)
Definition int_truediv (a b : Z) : res float :=
  match a, b with
  | _, Z0 => Raise ZeroDivisionError
  | Z0, _ => Ok (S754_zero (b <? 0))
  | Zpos n, Zpos d => match float_of_ratio false n d with
                      | S754_infinity _ => Raise OverflowError
                      | f => Ok f
                      end
  | Zneg n, Zneg d => match float_of_ratio false n d with
                      | S754_infinity _ => Raise OverflowError
                      | f => Ok f
                      end
  | Zpos n, Zneg d | Zneg n, Zpos d =>
                      match float_of_ratio true n d with
                      | S754_infinity _ => Raise OverflowError
                      | f => Ok f
                      end
  end.

(** The integer nearest to [n / d], ties to even ([0 < d]). *)
Definition div_half_even (n d : Z) : Z :=
  let q := n / d in
  let r := n mod d in
  match 2 * r ?= d with
  | Lt => q
  | Gt => q + 1
  | Eq => if Z.even q then q else q + 1
  end.

(** The integer nearest to [|f| * k], ties to even, for a finite [f]. *)
Definition scaled_nearest (k : Z) (m : positive) (e : Z) : Z :=
  match e with
  | Zneg p => div_half_even (k * Zpos m) (2 ^ Zpos p)
  | _ => k * Zpos m * 2 ^ e
  end.

(** [round(f, 1)] for a Python [float]: the decimal with one fractional
    digit nearest to the exact value of [f] (ties to even), converted back
    to the nearest float. *)
Definition py_round1 (f : float) : float :=
  match f with
  | S754_finite s m e =>
      match scaled_nearest 10 m e with
      | Zpos n => float_of_ratio s n 10
      | _ => S754_zero s
      end
  | _ => f
  end.

(** [numpy.rint]: the nearest integral float, ties to even. *)
Definition rint (f : float) : float :=
  match f with
  | S754_finite s m e =>
      match scaled_nearest 1 m e with
      | Zpos n => binary_normalize 53 1024 (if s then Zneg n else Zpos n) 0 s
      | _ => S754_zero s
      end
  | _ => f
  end.

Definition f0 : float := S754_zero false.
Definition f10 : float := Eval vm_compute in float_of_Z 10.
Definition f100 : float := Eval vm_compute in float_of_Z 100.
Definition f1e3 : float := Eval vm_compute in float_of_Z 1000.
Definition f1e5 : float := Eval vm_compute in float_of_Z 100000.
Definition f1e7 : float := Eval vm_compute in float_of_Z 10000000.
Definition f1 : float := Eval vm_compute in float_of_Z 1.

(** [numpy.around(f, 1)], which pandas' [Series.round(1)] applies: scale,
    [rint], unscale. *)
Definition np_round1 (f : float) : float := fdiv (rint (fmul f f10)) f10.

(** A Python number: an [int] or a [float]. *)
Inductive number : Type :=
| NInt (z : Z)
| NFloat (f : float).

(** [x > k] for a number [x] and an [int] literal [k]. *)
Definition num_gt (x : number) (k : Z) : bool :=
  match x with
  | NInt z => k <? z
  | NFloat f => fltb (float_of_Z k) f
  end.

(** ** [float(text)] *)

Fixpoint span_digits (l : list ascii) : list ascii * list ascii :=
  match l with
  | c :: r => if is_digit c
              then let (ds, rest) := span_digits r in (c :: ds, rest)
              else ([], l)
  | [] => ([], [])
  end.

Definition digits_value (ds : list ascii) : Z :=
  fold_left (fun acc c => 10 * acc + (code c - 48)) ds 0.

Definition is_underscore (c : ascii) : bool := code c =? 95.

(** An underscore is accepted only between two digits, and is dropped. *)
Fixpoint strip_underscores (prev_digit : bool) (l : list ascii)
  : option (list ascii) :=
  match l with
  | [] => Some []
  | c :: r =>
      if is_underscore c then
        match r with
        | d :: _ => if prev_digit && is_digit d
                    then strip_underscores false r else None
        | [] => None
        end
      else option_map (cons c) (strip_underscores (is_digit c) r)
  end.

Definition parse_sign (l : list ascii) : bool * list ascii :=
  match l with
  | c :: r => if code c =? 45 then (true, r)
              else if code c =? 43 then (false, r)
              else (false, l)
  | [] => (false, [])
  end.

(** The exponent part: nothing, or [e], an optional sign and digits. *)
Definition parse_exponent (l : list ascii) : option Z :=
  match l with
  | [] => Some 0
  | c :: r =>
      if code (lower_char c) =? 101 then
        let (neg, r1) := parse_sign r in
        let (ds, rest) := span_digits r1 in
        match ds, rest with
        | _ :: _, [] => Some (if neg then - digits_value ds else digits_value ds)
        | _, _ => None
        end
      else None
  end.

(** The float nearest to [m * 10 ^ e10], with sign [s]. *)
Definition decimal_to_float (s : bool) (m e10 : Z) : float :=
  match m with
  | Zpos p =>
      match e10 with
      | Zneg k => float_of_ratio s p (Pos.pow 10 k)
      | _ => let v := Zpos p * 10 ^ e10 in
             binary_normalize 53 1024 (if s then - v else v) 0 s
      end
  | _ => S754_zero s
  end.

(** [float(text)]; [None] is [ValueError]. *)
Definition py_float (text : string) : option float :=
  let l := list_ascii_of_string (strip text) in
  match (if existsb is_underscore l then strip_underscores false l else Some l) with
  | None => None
  | Some l1 =>
      let (neg, body) := parse_sign l1 in
      let lb := lower (string_of_list_ascii body) in
      if String.eqb lb "inf" || String.eqb lb "infinity" then Some (S754_infinity neg)
      else if String.eqb lb "nan" then Some S754_nan
      else
        let (ip, r1) := span_digits body in
        let (fp, r2) := match r1 with
                        | c :: r => if code c =? 46 then span_digits r else ([], r1)
                        | [] => ([], [])
                        end in
        match List.app ip fp with
        | [] => None
        | ds =>
            match parse_exponent r2 with
            | Some e => Some (decimal_to_float neg (digits_value ds)
                                (e - Z.of_nat (List.length fp)))
            | None => None
            end
        end
  end.

(** ** Values decoded from JSON, dictionaries, timestamps *)

Inductive json : Type :=
| JNull
| JBool (b : bool)
| JInt (z : Z)
| JFloat (f : float)
| JStr (s : string)
| JList (l : list json)
| JDict (kv : list (string * json)).

(** Python truthiness of a decoded value. *)
Definition truthy (j : json) : bool :=
  match j with
  | JNull => false
  | JBool b => b
  | JInt z => negb (z =? 0)
  | JFloat f => negb (feqb f f0)
  | JStr s => negb (String.eqb s "")
  | JList l => match l with [] => false | _ => true end
  | JDict kv => match kv with [] => false | _ => true end
  end.

(** A [dict] with [str] keys, in insertion order. *)
Definition dict (A : Type) : Type := list (string * A).

Fixpoint dict_get {A : Type} (d : dict A) (k : string) : option A :=
  match d with
  | [] => None
  | (k', v) :: r => if String.eqb k' k then Some v else dict_get r k
  end.

(** [d.get(k, default)] *)
Definition get_or {A : Type} (d : dict A) (k : string) (default : A) : A :=
  match dict_get d k with
  | Some v => v
  | None => default
  end.

(** A [pd.Timestamp]: a calendar date and the nanoseconds since midnight. *)
Record Timestamp : Type := {
  ts_year : Z;
  ts_month : Z;
  ts_day : Z;
  ts_nanos : Z
}.

(** [pd.Timestamp(date(y, m, d))] *)
Definition ts_of_date (y m d : Z) : Timestamp :=
  {| ts_year := y; ts_month := m; ts_day := d; ts_nanos := 0 |}.

Definition ts_compare (a b : Timestamp) : comparison :=
  match ts_year a ?= ts_year b with
  | Eq => match ts_month a ?= ts_month b with
          | Eq => match ts_day a ?= ts_day b with
                  | Eq => ts_nanos a ?= ts_nanos b
                  | c => c
                  end
          | c => c
          end
  | c => c
  end.

Definition ts_leb (a b : Timestamp) : bool :=
  match ts_compare a b with Gt => false | _ => true end.

Definition digit_char (n : Z) : ascii := ascii_of_nat (Z.to_nat (48 + n mod 10)).

(** [dt.to_period("M").astype(str)]: the year and month as [YYYY-MM]. *)
Definition month_key (t : Timestamp) : string :=
  let y := ts_year t in
  let m := ts_month t in
  String (digit_char (y / 1000)) (String (digit_char (y / 100))
    (String (digit_char (y / 10)) (String (digit_char y)
      (String "-"%char (String (digit_char (m / 10))
        (String (digit_char m) EmptyString)))))).

(** ** The library around the repository

    What the repository calls and does not define.  No theorem below
    assumes anything about these functions. *)
Class PyRuntime : Type := {
  (** [json.loads(text)]; [None] when it raises *)
  json_loads : string -> option json;
  (** [str(v)] for a decoded value that is not a [str] *)
  json_repr : json -> string;
  (** [datetime.strptime(text, fmt).strftime("%Y-%m-%d")]; [None] is
      [ValueError] *)
  strptime_iso : string -> string -> option string;
  (** an element of [pd.to_datetime(column, errors="coerce")]; [None] is
      [NaT] *)
  to_datetime : option string -> option Timestamp;
  (** [f"{x}"] for a number *)
  str_of_number : number -> string;
  (** [f"{x:.kf}"] *)
  format_fixed : nat -> float -> string;
  (** [f"{x:,.0f}"] *)
  format_grouped : float -> string;
  (** [Series.sum()] *)
  series_sum : list float -> float;
  (** [groupby(key)[value].sum()]: one entry per key, keys ascending *)
  groupby_sum : list (string * float) -> dict float;
  (** [Series.sort_values(ascending=False)] *)
  sort_values_desc : dict float -> dict float;
  (** [Series.sort_index()] *)
  sort_index : dict float -> dict float;
  (** [str.title()] *)
  str_title : string -> string
}.

(** [str(v)] for a decoded value. *)
Definition py_str `{PyRuntime} (j : json) : string :=
  match j with
  | JStr s => s
  | _ => json_repr j
  end.

(** What the remaining rollups call of pandas and [datetime]. *)
Class FrameRuntime : Type := {
  (** [Series.value_counts().to_dict()] *)
  value_counts : list string -> dict Z;
  (** [t.strftime(fmt)] *)
  strftime : Timestamp -> string -> string
}.


(* ================================================================== *)
(** * data_cleaner.py                                                  *)
(* ================================================================== *)

(** A value [normalize_revenue] may be handed: the four kinds its first
    lines tell apart. *)
Inductive value : Type :=
| VNone
| VStr (s : string)
| VInt (z : Z)
| VFloat (f : float).

(** The alternatives of the pattern [(?i)(rs\.?|inr|usd|eur|£|€|\$|₹)], in
    the order the regex engine tries them, in lower case. *)
Definition currency_markers : list string :=
  ["rs."; "rs"; "inr"; "usd"; "eur"; "£"; "€"; "$"; "₹"].

Fixpoint first_marker (ms : list string) (s : string) : option nat :=
  match ms with
  | [] => None
  | m :: r => if String.prefix m (lower s)
              then Some (String.length m) else first_marker r s
  end.

(** [re.sub] of the currency pattern by the empty string: left to right,
    each match removed whole; [skip] counts what is left of a match. *)
Fixpoint sub_currency (skip : nat) (s : string) : string :=
  match s with
  | EmptyString => EmptyString
  | String c r =>
      match skip with
      | S k => sub_currency k r
      | O => match first_marker currency_markers s with
             | Some (S k) => sub_currency k r
             | _ => String c (sub_currency 0 r)
             end
      end
  end.

(** [re.sub(r"[,\s]", "", text)] *)
Definition sub_separators (s : string) : string :=
  str_filter (fun c => negb ((code c =? 44) || is_space c)) s.

(** ** Schemas, raw items and canonical records *)

Record ColMeta : Type := { col_title : string; col_type : string }.

(** A board schema; [columns] is absent when the key is. *)
Record Schema : Type := {
  board_name : string;
  columns : option (dict ColMeta)
}.

(** A raw item: column id (and the reserved names) to the cell's text. *)
Definition RawItem : Type := dict string.

(** A row of the deals frame; [D] is how its dates are held: ISO text in
    the dictionaries the loop collects, timestamps in the frame returned. *)
Record Deal (D : Type) : Type := {
  deal_name : string;
  owner_code : string;
  client_code : string;
  status : string;
  stage : string;
  sector : string;
  deal_value : float;
  probability : float;
  weighted_value : float;
  close_date : option D;
  created_date : option D;
  product : string
}.

Arguments deal_name {D} _.
Arguments owner_code {D} _.
Arguments client_code {D} _.
Arguments status {D} _.
Arguments stage {D} _.
Arguments sector {D} _.
Arguments deal_value {D} _.
Arguments probability {D} _.
Arguments weighted_value {D} _.
Arguments close_date {D} _.
Arguments created_date {D} _.
Arguments product {D} _.

Definition DealRecord : Type := Deal Timestamp.

(** A row of the work-orders frame. *)
Record WorkOrder (D : Type) : Type := {
  wo_name : string;
  deal_name_linked : string;
  wo_sector : string;
  exec_status : string;
  is_active : bool;
  amount_excl_gst : float;
  billed_excl_gst : float;
  unbilled_amount : float;
  wo_status : string;
  nature_of_work : string;
  wo_owner_code : string;
  start_date : option D;
  end_date : option D
}.

Arguments wo_name {D} _.
Arguments deal_name_linked {D} _.
Arguments wo_sector {D} _.
Arguments exec_status {D} _.
Arguments is_active {D} _.
Arguments amount_excl_gst {D} _.
Arguments billed_excl_gst {D} _.
Arguments unbilled_amount {D} _.
Arguments wo_status {D} _.
Arguments nature_of_work {D} _.
Arguments wo_owner_code {D} _.
Arguments start_date {D} _.
Arguments end_date {D} _.

Definition WorkOrderRecord : Type := WorkOrder Timestamp.

(** The loop both builders run, [for item in raw_items: ...]: [body] says
    [continue] ([None]) or gives the dictionary to append to [records]; an
    exception in the body ends the loop. *)
Fixpoint for_each_item {R : Type} (body : RawItem -> res (option R))
  (raw_items : list RawItem) (records : list R) : res (list R) :=
  match raw_items with
  | [] => Ok records
  | item :: rest =>
      row <- body item ;;
      match row with
      | None => for_each_item body rest records
      | Some r => for_each_item body rest (List.app records [r])
      end
  end.

Section DataCleaner.
Context {L : PyRuntime}.

Definition normalize_revenue (v : value) : res float :=
  match v with
  | VNone => Ok f0
  | VFloat f => if is_nan f then Ok f0 else Ok f
  | VInt z => float_of_int z
  | VStr s =>
      if String.eqb s "" then Ok f0 else
      let text := strip s in
      (* JSON value strings; [inr] is the text to go on with *)
      let unwrapped : float + string :=
        if startswith text "{" || startswith text dquote then
          match json_loads text with
          | Some (JDict kv) =>
              inr (py_str (get_or kv "value" (get_or kv "text" (JStr ""))))
          | Some (JInt z) =>
              match float_of_int z with Ok f => inl f | Raise _ => inr text end
          | Some (JBool b) => inl (if b then f1 else f0)
          | Some (JFloat f) => inl f
          | _ => inr text
          end
        else inr text in
      match unwrapped with
      | inl f => Ok f
      | inr text =>
          let text := sub_currency 0 text in
          let text := sub_separators text in
          let '(multiplier, text) :=
            if endswith (lower text) "cr" then (f1e7, drop_last 2 text)
            else if endswith (lower text) "l" then (f1e5, drop_last 1 text)
            else if endswith (lower text) "k" then (f1e3, drop_last 1 text)
            else (f1, text) in
          match py_float text with
          | Some f => Ok (fmul f multiplier)
          | None => Ok f0
          end
      end
  end.

Definition FORMATS : list string :=
  ["%Y-%m-%d"; "%d/%m/%Y"; "%m/%d/%Y";
   "%d-%m-%Y"; "%d %b %Y"; "%B %d, %Y";
   "%d %B %Y"; "%Y/%m/%d"].

(** The loop over [FORMATS]: the first format that parses wins. *)
Fixpoint try_formats (text : string) (fmts : list string) : option string :=
  match fmts with
  | [] => None
  | fmt :: r => match strptime_iso text fmt with
                | Some iso => Some iso
                | None => try_formats text r
                end
  end.

(** A cell of a raw item is a [str].  The text handed to [strptime] is a
    [str], or whatever the JSON object holds in its date field: anything
    else than a [str] there makes [strptime] raise [TypeError], which the
    [except ValueError] does not catch. *)
Definition normalize_date (v : string) : res (option string) :=
  if String.eqb v "" then Ok None else
  let text := strip v in
  let extracted : option json :=
    if startswith text "{" then
      match json_loads text with
      | Some (JDict kv) =>
          let t := get_or kv "date" (JStr "") in
          if truthy t then Some t else None
      | _ => Some (JStr text)
      end
    else Some (JStr text) in
  match extracted with
  | None => Ok None
  | Some (JStr text) => Ok (try_formats text FORMATS)
  | Some _ => Raise TypeError
  end.

Definition normalize_text (v : string) : string :=
  if String.eqb v "" then "" else lower (strip v).

Definition DEAD_STAGES : list string :=
  ["n. not relevant at the moment"; "o. not relevant at all";
   "l. project lost"; "m. projects on hold"].
Definition WON_STAGES : list string :=
  ["h. work order received"; "project completed"; "k. amount accrued";
   "g. project won"; "j. invoice sent"; "i. poc"].
Definition OPEN_STAGES : list string :=
  ["a. lead generated"; "b. sales qualified leads"; "c. demo done";
   "d. feasibility"; "e. proposal/commercials sent"; "f. negotiations"].

Definition f0_80 : float := Eval vm_compute in float_of_ratio false 80 100.
Definition f0_50 : float := Eval vm_compute in float_of_ratio false 50 100.
Definition f0_25 : float := Eval vm_compute in float_of_ratio false 25 100.

Definition PROBABILITY_MAP : dict float :=
  [("high", f0_80); ("medium", f0_50); ("low", f0_25); ("", f0)].

Definition map_deal_status (status stage : string) : string :=
  let s := normalize_text status in
  let st := normalize_text stage in
  if String.eqb s "won" then "Won"
  else if String.eqb s "dead" then "Dead"
  else if String.eqb s "on hold" then "On Hold"
  else if in_strs st WON_STAGES then "Won"
  else if in_strs st DEAD_STAGES then "Dead"
  else if in_strs st OPEN_STAGES then "Open"
  else "Open".

(** ** Schema-aware column resolution *)

Fixpoint find_column (item : RawItem) (schema_columns : dict ColMeta)
  (keywords : list string) : string :=
  match schema_columns with
  | [] => ""
  | (col_id, col_meta) :: rest =>
      let title := lower (col_title col_meta) in
      if existsb (fun kw => contains title kw) (map lower keywords)
      then get_or item col_id ""
      else find_column item rest keywords
  end.

(** [schema.get("columns", {})] *)
Definition schema_columns (schema : Schema) : dict ColMeta :=
  match columns schema with
  | Some cols => cols
  | None => []
  end.

(** ** Board-specific cleaning pipelines *)


(** [a or b] for two optional ISO dates, [b] computed only when needed. *)
Definition or_else (a : res (option string)) (b : res (option string))
  : res (option string) :=
  x <- a ;;
  match x with
  | Some d => Ok (Some d)
  | None => b
  end.

(** The body of the loop of [clean_deals_df] for one item: [None] is
    [continue], [Some] the dictionary appended to [records]. *)
Definition deal_row (cols : dict ColMeta) (item : RawItem)
  : res (option (Deal string)) :=
  let name := strip (get_or item "_item_name" "") in
  if String.eqb name "" || in_strs (lower name) ["deal name"; ""] then Ok None
  else
    let status_raw := find_column item cols ["status"; "deal status"] in
    let stage_raw := find_column item cols ["stage"; "deal stage"] in
    let sector_raw := find_column item cols ["sector"; "service"] in
    let value_raw := find_column item cols ["value"; "deal value"; "masked"] in
    let close_date_raw :=
      find_column item cols ["close date"; "actual close"; "close date (a)"] in
    let tentative_date_raw := find_column item cols ["tentative"; "expected close"] in
    let probability_raw := find_column item cols ["probability"; "closure"] in
    let owner_raw := find_column item cols ["owner"; "personnel"] in
    let client_raw := find_column item cols ["client"; "company"] in
    let product_raw := find_column item cols ["product"] in
    let created_raw := find_column item cols ["created"; "creation"] in
    let canonical_status := map_deal_status status_raw stage_raw in
    revenue <- normalize_revenue (VStr value_raw) ;;
    let probability := get_or PROBABILITY_MAP (normalize_text probability_raw) f0 in
    let sector := match normalize_text sector_raw with
                  | EmptyString => "unknown"
                  | s => s
                  end in
    close_date <- or_else (normalize_date close_date_raw)
                          (normalize_date tentative_date_raw) ;;
    created_date <- normalize_date created_raw ;;
    Ok (Some {|
      deal_name := name;
      owner_code := strip owner_raw;
      client_code := strip client_raw;
      status := canonical_status;
      stage := normalize_text stage_raw;
      sector := sector;
      deal_value := revenue;
      probability := probability;
      weighted_value := fmul revenue probability;
      close_date := close_date;
      created_date := created_date;
      product := strip product_raw
    |}).

(** [pd.to_datetime(df[dc], errors="coerce")] on both date columns. *)
Definition deal_dates (r : Deal string) : DealRecord :=
  {| deal_name := deal_name r;
     owner_code := owner_code r;
     client_code := client_code r;
     status := status r;
     stage := stage r;
     sector := sector r;
     deal_value := deal_value r;
     probability := probability r;
     weighted_value := weighted_value r;
     close_date := to_datetime (close_date r);
     created_date := to_datetime (created_date r);
     product := product r |}.

(** The frame is the list of its rows; the empty frame is the empty list. *)
Definition clean_deals_df (raw_items : list RawItem) (schema : Schema)
  : res (list DealRecord) :=
  match raw_items with
  | [] => Ok []
  | _ =>
      let cols := schema_columns schema in
      records <- for_each_item (deal_row cols) raw_items [] ;;
      Ok (map deal_dates records)
  end.


(** [max(0.0, x)]: the second argument only when it is greater. *)
Definition max0 (x : float) : float := if fltb f0 x then x else f0.

(** The body of the loop of [clean_workorders_df] for one item. *)
Definition workorder_row (cols : dict ColMeta) (item : RawItem)
  : res (option (WorkOrder string)) :=
  let name := strip (get_or item "_item_name" "") in
  if String.eqb name "" then Ok None
  else
    let deal_name_raw := find_column item cols ["deal name"; "deal"] in
    let exec_status_raw :=
      find_column item cols ["execution status"; "exec status"; "status"] in
    let sector_raw := find_column item cols ["sector"] in
    let amount_excl_raw :=
      find_column item cols ["amount in rupees (excl"; "excl of gst"; "excl. of gst"] in
    let amount_incl_raw :=
      find_column item cols ["amount in rupees (incl"; "incl of gst"] in
    let billed_excl_raw :=
      find_column item cols ["billed value in rupees (excl"; "billed value"] in
    let wo_status_raw :=
      find_column item cols ["wo status"; "billing status"; "collection status"] in
    let start_date_raw :=
      find_column item cols ["probable start"; "start date"; "date of po"] in
    let end_date_raw :=
      find_column item cols ["probable end"; "end date"; "delivery date"] in
    let nature_raw := find_column item cols ["nature of work"; "nature"] in
    let owner_raw := find_column item cols ["bd/kam"; "owner"; "personnel"] in
    let invoice_raw := find_column item cols ["invoice"; "billed"] in
    amount_excl <- normalize_revenue (VStr amount_excl_raw) ;;
    amount <- (if feqb amount_excl f0
               then normalize_revenue (VStr amount_incl_raw)
               else Ok amount_excl) ;;
    billed <- normalize_revenue (VStr billed_excl_raw) ;;
    let exec_status := normalize_text exec_status_raw in
    let sector := match normalize_text sector_raw with
                  | EmptyString => "unknown"
                  | s => s
                  end in
    let exec_status_clean :=
      if contains exec_status "completed" then "Completed"
      else if contains exec_status "ongoing" || contains exec_status "executed until"
      then "Ongoing"
      else if contains exec_status "not started" then "Not Started"
      else if contains exec_status "pause" || contains exec_status "struck"
      then "Paused"
      else if contains exec_status "partial" then "Partially Completed"
      else if contains exec_status "pending" || contains exec_status "details pending"
      then "Pending"
      else "Unknown" in
    let is_active :=
      in_strs exec_status_clean
        ["Ongoing"; "Not Started"; "Paused"; "Partially Completed"; "Pending"] in
    start_date <- normalize_date start_date_raw ;;
    end_date <- normalize_date end_date_raw ;;
    Ok (Some {|
      wo_name := name;
      deal_name_linked :=
        if String.eqb deal_name_raw "" then name else strip deal_name_raw;
      wo_sector := sector;
      exec_status := exec_status_clean;
      is_active := is_active;
      amount_excl_gst := amount;
      billed_excl_gst := billed;
      unbilled_amount := max0 (fsub amount billed);
      wo_status := normalize_text wo_status_raw;
      nature_of_work := strip nature_raw;
      wo_owner_code := strip owner_raw;
      start_date := start_date;
      end_date := end_date
    |}).

Definition workorder_dates (r : WorkOrder string) : WorkOrderRecord :=
  {| wo_name := wo_name r;
     deal_name_linked := deal_name_linked r;
     wo_sector := wo_sector r;
     exec_status := exec_status r;
     is_active := is_active r;
     amount_excl_gst := amount_excl_gst r;
     billed_excl_gst := billed_excl_gst r;
     unbilled_amount := unbilled_amount r;
     wo_status := wo_status r;
     nature_of_work := nature_of_work r;
     wo_owner_code := wo_owner_code r;
     start_date := to_datetime (start_date r);
     end_date := to_datetime (end_date r) |}.

Definition clean_workorders_df (raw_items : list RawItem) (schema : Schema)
  : res (list WorkOrderRecord) :=
  match raw_items with
  | [] => Ok []
  | _ =>
      let cols := schema_columns schema in
      records <- for_each_item (workorder_row cols) raw_items [] ;;
      Ok (map workorder_dates records)
  end.

(** ** Data quality caveats *)

(** The caveats dictionary: signal name to percentage or count. *)
Definition Caveats : Type := dict number.

(** [(mask).sum()] is a 64-bit integer: a product out of range wraps. *)
Definition int64 (z : Z) : Z := (z + 2 ^ 63) mod 2 ^ 64 - 2 ^ 63.

(** [round(100 * missing / n, 1)] for a NumPy count [missing] and the
    length [n]: the quotient is a NumPy float, which [round] rounds as
    [numpy.around] does. *)
Definition missing_pct (missing n : nat) : number :=
  NFloat (np_round1 (fdiv (float_of_Z (int64 (100 * Z.of_nat missing)))
                          (float_of_Z (Z.of_nat n)))).

Definition compute_caveats (deals_df : list DealRecord)
  (workorders_df : list WorkOrderRecord) : Caveats :=
  let caveats := [] in
  let caveats :=
    match deals_df with
    | [] => caveats
    | _ =>
        let n := List.length deals_df in
        List.app caveats
          [("deals_missing_revenue_pct",
            missing_pct
              (List.length (filter (fun r => feqb (deal_value r) f0) deals_df)) n);
           ("deals_missing_sector_pct",
            missing_pct
              (List.length (filter (fun r => String.eqb (sector r) "unknown") deals_df)) n);
           ("deals_missing_close_date_pct",
            missing_pct
              (List.length
                 (filter (fun r => match close_date r with
                                   | None => true
                                   | Some _ => false
                                   end) deals_df)) n);
           ("deals_total", NInt (Z.of_nat n))]
    end in
  let caveats :=
    match workorders_df with
    | [] => caveats
    | _ =>
        let n := List.length workorders_df in
        List.app caveats
          [("wo_missing_amount_pct",
            missing_pct
              (List.length
                 (filter (fun w => feqb (amount_excl_gst w) f0) workorders_df)) n);
           ("wo_missing_sector_pct",
            missing_pct
              (List.length
                 (filter (fun w => String.eqb (wo_sector w) "unknown") workorders_df)) n);
           ("wo_total", NInt (Z.of_nat n))]
    end in
  caveats.

Definition format_caveats_text (caveats : Caveats) : string :=
  let lines := [] in
  let lines :=
    if num_gt (get_or caveats "deals_missing_revenue_pct" (NInt 0)) 10
    then List.app lines
      ["⚠️ " ++ str_of_number (get_or caveats "deals_missing_revenue_pct" (NInt 0))
       ++ "% of deals have no deal value — revenue figures may be understated."]
    else lines in
  let lines :=
    if num_gt (get_or caveats "deals_missing_sector_pct" (NInt 0)) 10
    then List.app lines
      ["⚠️ " ++ str_of_number (get_or caveats "deals_missing_sector_pct" (NInt 0))
       ++ "% of deals have no sector — sector breakdowns are partial."]
    else lines in
  let lines :=
    if num_gt (get_or caveats "deals_missing_close_date_pct" (NInt 0)) 20
    then List.app lines
      ["⚠️ " ++ str_of_number (get_or caveats "deals_missing_close_date_pct" (NInt 0))
       ++ "% of deals have no close date — time-based filters may miss some deals."]
    else lines in
  let lines :=
    if num_gt (get_or caveats "wo_missing_amount_pct" (NInt 0)) 10
    then List.app lines
      ["⚠️ " ++ str_of_number (get_or caveats "wo_missing_amount_pct" (NInt 0))
       ++ "% of work orders have no amount — revenue from operations may be understated."]
    else lines in
  match lines with
  | [] => ""
  | _ => join (String (ascii_of_nat 10) "") lines
  end.

End DataCleaner.

(* ================================================================== *)
(** * analytics.py                                                     *)
(* ================================================================== *)

(** What a rollup returns: the dictionary with the single key [error], or
    a result dictionary. *)
Inductive outcome (A : Type) : Type :=
| Error (error : string)
| Result (a : A).

Arguments Error {A} error.
Arguments Result {A} a.

Section Analytics.
Context {L : PyRuntime}.

Definition _fmt_inr (v : float) : string :=
  if feqb v f0 then "₹0"
  else if fleb f1e7 v then "₹" ++ format_fixed 2 (fdiv v f1e7) ++ " Cr"
  else if fleb f1e5 v then "₹" ++ format_fixed 2 (fdiv v f1e5) ++ " L"
  else if fleb f1e3 v then "₹" ++ format_fixed 1 (fdiv v f1e3) ++ "K"
  else "₹" ++ format_grouped v.

Definition _current_quarter_bounds (now : Timestamp) : Timestamp * Timestamp :=
  let month := ts_month now in
  let year := ts_year now in
  if (month =? 4) || (month =? 5) || (month =? 6)
  then (ts_of_date year 4 1, ts_of_date year 6 30)
  else if (month =? 7) || (month =? 8) || (month =? 9)
  then (ts_of_date year 7 1, ts_of_date year 9 30)
  else if (month =? 10) || (month =? 11) || (month =? 12)
  then (ts_of_date year 10 1, ts_of_date year 12 31)
  else (ts_of_date year 1 1, ts_of_date year 3 31).

(** A frame is the list of its rows and [date_col] reads the named date
    column of a row ([None] is [NaT]); a comparison with [NaT] is false. *)
Definition _filter_by_period {A : Type} (now : Timestamp) (df : list A)
  (date_col : A -> option Timestamp) (period : option string) : list A :=
  match period, df with
  | None, _ => df
  | _, [] => df
  | Some period, _ =>
      let today := now in
      if String.eqb period "this_month" then
        filter (fun row => match date_col row with
                           | Some d => (ts_year d =? ts_year today)
                                       && (ts_month d =? ts_month today)
                           | None => false
                           end) df
      else if String.eqb period "this_quarter" then
        let '(q_start, q_end) := _current_quarter_bounds now in
        filter (fun row => match date_col row with
                           | Some d => ts_leb q_start d && ts_leb d q_end
                           | None => false
                           end) df
      else if String.eqb period "ytd" then
        let fy_start :=
          ts_of_date (if 4 <=? ts_month today
                      then ts_year today else ts_year today - 1) 4 1 in
        filter (fun row => match date_col row with
                           | Some d => ts_leb fy_start d
                           | None => false
                           end) df
      else df
  end.

(** ** Revenue analytics *)

Record Revenue : Type := {
  closed_total : number;
  closed_total_fmt : string;
  count : Z;
  by_sector : dict string;
  by_month : dict string;
  summary : option string;
  top_sector : option string;
  top_sector_pct : option number;
  period_label : option string
}.

(** [max(d, key=d.get)]: the first key whose value no later one exceeds. *)
Fixpoint max_by_value (d : dict float) (best : string * float) : string :=
  match d with
  | [] => fst best
  | (k, v) :: r => max_by_value r (if fltb (snd best) v then (k, v) else best)
  end.

Definition is_some {A : Type} (o : option A) : bool :=
  match o with Some _ => true | None => false end.

(** [deals_df[deals_df["status"] == "Won"]] *)
Definition won_rows (deals_df : list DealRecord) : list DealRecord :=
  filter (fun r => String.eqb (status r) "Won") deals_df.

Definition revenue_analytics (now : Timestamp) (deals_df : list DealRecord)
  (period : option string) : outcome Revenue :=
  match deals_df with
  | [] => Error "No deals data available."
  | _ =>
      let won := won_rows deals_df in
      let won :=
        match period with
        | None | Some EmptyString => won
        | Some _ => _filter_by_period now won close_date period
        end in
      match won with
      | [] => Result {|
          closed_total := NInt 0;
          closed_total_fmt := "₹0";
          by_sector := [];
          by_month := [];
          count := 0;
          summary := Some "No Won deals found for the selected period.";
          top_sector := None;
          top_sector_pct := None;
          period_label := None |}
      | _ =>
          let total := series_sum (map deal_value won) in
          let sectors :=
            sort_values_desc
              (groupby_sum (map (fun r => (sector r, deal_value r)) won)) in
          let by_sector_fmt := map (fun kv => (fst kv, _fmt_inr (snd kv))) sectors in
          let won_with_date := filter (fun r => is_some (close_date r)) won in
          let by_month_fmt :=
            match won_with_date with
            | [] => []
            | _ =>
                let months :=
                  sort_index
                    (groupby_sum
                       (map (fun r => (match close_date r with
                                       | Some d => month_key d
                                       | None => ""
                                       end, deal_value r)) won_with_date)) in
                map (fun kv => (fst kv, _fmt_inr (snd kv))) months
            end in
          let top :=
            match sectors with
            | [] => "N/A"
            | kv :: r => max_by_value r kv
            end in
          let pct :=
            if fltb f0 total
            then NFloat (np_round1 (fmul (fdiv (get_or sectors top f0) total) f100))
            else NInt 0 in
          Result {|
            closed_total := NFloat total;
            closed_total_fmt := _fmt_inr total;
            count := Z.of_nat (List.length won);
            by_sector := by_sector_fmt;
            by_month := by_month_fmt;
            summary := None;
            top_sector := Some top;
            top_sector_pct := Some pct;
            period_label := Some match period with
                                 | None | Some EmptyString => "all time"
                                 | Some p => p
                                 end |}
      end
  end.

Context {F : FrameRuntime}.

(** ** Pipeline health *)

(** The dictionary [pipeline_health] returns.  The keys [weighted_pipeline],
    [count], [by_sector], [closing_this_quarter], [summary] and [period] are
    the fields [weighted_pipeline_value], [open_count], [open_by_sector],
    [closing_this_quarter_zero], [pipeline_summary] and [pipeline_period]; a
    key one of the two shapes of the dictionary lacks is an [option]. *)
Record PipelineHealth : Type := {
  pipeline_total : number;
  pipeline_total_fmt : string;
  weighted_pipeline_value : number;
  weighted_pipeline_fmt : string;
  open_count : Z;
  open_by_sector : dict string;
  closing_this_quarter_zero : option Z;
  pipeline_summary : option string;
  closing_this_quarter_value : option string;
  closing_this_quarter_count : option Z;
  high_prob_pipeline : option string;
  mid_prob_pipeline : option string;
  low_prob_pipeline : option string;
  pipeline_period : option string
}.

Definition f0_75 : float := Eval vm_compute in float_of_ratio false 75 100.
Definition f0_4 : float := Eval vm_compute in float_of_ratio false 4 10.

(** [deals_df[deals_df["status"] == "Open"]] *)
Definition open_rows (deals_df : list DealRecord) : list DealRecord :=
  filter (fun r => String.eqb (status r) "Open") deals_df.

(** The three probability masks. *)
Definition high_band (r : DealRecord) : bool := fleb f0_75 (probability r).
Definition mid_band (r : DealRecord) : bool :=
  fleb f0_4 (probability r) && fltb (probability r) f0_75.
Definition low_band (r : DealRecord) : bool := fltb (probability r) f0_4.

Definition pipeline_health (now : Timestamp) (deals_df : list DealRecord)
  (period : option string) : outcome PipelineHealth :=
  match deals_df with
  | [] => Error "No deals data available."
  | _ =>
      let open_deals := open_rows deals_df in
      let open_deals :=
        match period with
        | None | Some EmptyString => open_deals
        | Some _ => _filter_by_period now open_deals close_date period
        end in
      match open_deals with
      | [] => Result {|
          pipeline_total := NInt 0;
          pipeline_total_fmt := "₹0";
          weighted_pipeline_value := NInt 0;
          weighted_pipeline_fmt := "₹0";
          open_count := 0;
          open_by_sector := [];
          closing_this_quarter_zero := Some 0;
          pipeline_summary := Some "No open deals found.";
          closing_this_quarter_value := None;
          closing_this_quarter_count := None;
          high_prob_pipeline := None;
          mid_prob_pipeline := None;
          low_prob_pipeline := None;
          pipeline_period := None |}
      | _ =>
          let total := series_sum (map deal_value open_deals) in
          let weighted := series_sum (map weighted_value open_deals) in
          let sectors :=
            sort_values_desc
              (groupby_sum (map (fun r => (sector r, deal_value r)) open_deals)) in
          let by_sector_fmt := map (fun kv => (fst kv, _fmt_inr (snd kv))) sectors in
          let '(q_start, q_end) := _current_quarter_bounds now in
          let closing_q := filter (fun r => is_some (close_date r)) open_deals in
          let closing_q :=
            filter (fun r => match close_date r with
                             | Some d => ts_leb q_start d && ts_leb d q_end
                             | None => false
                             end) closing_q in
          let closing_value := series_sum (map deal_value closing_q) in
          let high_prob := series_sum (map deal_value (filter high_band open_deals)) in
          let mid_prob := series_sum (map deal_value (filter mid_band open_deals)) in
          let low_prob := series_sum (map deal_value (filter low_band open_deals)) in
          Result {|
            pipeline_total := NFloat total;
            pipeline_total_fmt := _fmt_inr total;
            weighted_pipeline_value := NFloat weighted;
            weighted_pipeline_fmt := _fmt_inr weighted;
            open_count := Z.of_nat (List.length open_deals);
            open_by_sector := by_sector_fmt;
            closing_this_quarter_zero := None;
            pipeline_summary := None;
            closing_this_quarter_value := Some (_fmt_inr closing_value);
            closing_this_quarter_count := Some (Z.of_nat (List.length closing_q));
            high_prob_pipeline := Some (_fmt_inr high_prob);
            mid_prob_pipeline := Some (_fmt_inr mid_prob);
            low_prob_pipeline := Some (_fmt_inr low_prob);
            pipeline_period := Some match period with
                                    | None | Some EmptyString => "all time"
                                    | Some p => p
                                    end |}
      end
  end.

(** ** Operational metrics *)

(** The dictionary [operational_metrics] returns; the keys [backlog_value],
    [operational_risk] and [risk_note] are the fields [ops_backlog_value],
    [ops_operational_risk] and [ops_risk_note]. *)
Record Operations : Type := {
  total_work_orders : Z;
  active_count : Z;
  completed_count : Z;
  paused_count : Z;
  by_status : dict Z;
  active_by_sector : dict string;
  ops_backlog_value : string;
  backlog_raw : float;
  completed_revenue : string;
  ops_operational_risk : string;
  ops_risk_note : string
}.

Definition operational_metrics (workorders_df : list WorkOrderRecord)
  : outcome Operations :=
  match workorders_df with
  | [] => Error "No work orders data available."
  | _ =>
      let total := Z.of_nat (List.length workorders_df) in
      let active := filter (fun w => is_active w) workorders_df in
      let completed :=
        filter (fun w => String.eqb (exec_status w) "Completed") workorders_df in
      let statuses := value_counts (map (fun w => exec_status w) workorders_df) in
      let sectors :=
        sort_values_desc
          (groupby_sum (map (fun w => (wo_sector w, amount_excl_gst w)) active)) in
      let by_sector_fmt := map (fun kv => (fst kv, _fmt_inr (snd kv))) sectors in
      let backlog := series_sum (map (fun w => unbilled_amount w) active) in
      let revenue_done := series_sum (map (fun w => amount_excl_gst w) completed) in
      let n_active := Z.of_nat (List.length active) in
      let '(risk, note) :=
        if 30 <? n_active
        then ("High", str_of_number (NInt n_active)
                      ++ " active work orders — team may be stretched.")
        else if 15 <? n_active
        then ("Medium", str_of_number (NInt n_active)
                        ++ " active work orders — manageable load.")
        else ("Low", str_of_number (NInt n_active)
                     ++ " active work orders — comfortable capacity.") in
      let paused :=
        filter (fun w => String.eqb (exec_status w) "Paused") workorders_df in
      Result {|
        total_work_orders := total;
        active_count := n_active;
        completed_count := Z.of_nat (List.length completed);
        paused_count := Z.of_nat (List.length paused);
        by_status := statuses;
        active_by_sector := by_sector_fmt;
        ops_backlog_value := _fmt_inr backlog;
        backlog_raw := backlog;
        completed_revenue := _fmt_inr revenue_done;
        ops_operational_risk := risk;
        ops_risk_note := note |}
  end.

(** ** Cross-board analysis *)

(** A row of the [sector_perf] frame. *)
Record SectorPerf : Type := {
  won_value : float;
  wo_value : float;
  realization_rate : float
}.

Record SectorPerfFmt : Type := {
  won_pipeline : string;
  wo_value_fmt : string;
  realization_rate_pct : float
}.

Record CrossBoard : Type := {
  won_deals_count : Z;
  conversion_rate_pct : number;
  wo_coverage_rate_pct : number;
  total_pipeline : string;
  closed_revenue : string;
  total_wo_value : string;
  sector_performance : dict SectorPerfFmt
}.

(** [series.str.strip().str.lower()] on one name. *)
Definition name_norm (s : string) : string := lower (strip s).

(** [set(series.unique())]: the distinct values. *)
Definition unique (l : list string) : list string := nodup string_dec l.

(** [won_names & wo_names] *)
Definition matched (deals_df : list DealRecord)
  (workorders_df : list WorkOrderRecord) : list string :=
  let won_names := unique (map (fun r => name_norm (deal_name r)) (won_rows deals_df)) in
  let wo_names := unique (map (fun r => name_norm (deal_name_linked r)) workorders_df) in
  filter (fun n => in_strs n wo_names) won_names.

(** [fillna(0)] on one cell. *)
Definition fillna0 (f : float) : float := if is_nan f then f0 else f.

(** [pd.concat([won_by_sector, wo_by_sector], axis=1).fillna(0)] with the
    [realization_rate] column added: a sector missing from one of the two
    series has [NaN] there before [fillna]. *)
Definition sector_perf (deals_df : list DealRecord)
  (workorders_df : list WorkOrderRecord) : dict SectorPerf :=
  let won_by_sector :=
    groupby_sum (map (fun r => (sector r, deal_value r)) (won_rows deals_df)) in
  let wo_by_sector :=
    groupby_sum (map (fun r => (wo_sector r, amount_excl_gst r)) workorders_df) in
  let index :=
    List.app (map fst won_by_sector)
      (filter (fun k => negb (in_strs k (map fst won_by_sector)))
         (map fst wo_by_sector)) in
  map (fun k =>
         let won := fillna0 (get_or won_by_sector k (S754_nan)) in
         let wo := fillna0 (get_or wo_by_sector k (S754_nan)) in
         (k, {| won_value := won;
                wo_value := wo;
                realization_rate :=
                  np_round1 (if fltb f0 won
                             then fmul (fdiv wo won) f100 else f0) |}))
      index.

Definition cross_board_analysis (deals_df : list DealRecord)
  (workorders_df : list WorkOrderRecord) : res (outcome CrossBoard) :=
  match deals_df, workorders_df with
  | [], _ | _, [] =>
      Ok (Error "Both deals and work orders data are required for cross-board analysis.")
  | _, _ =>
      let won := won_rows deals_df in
      let conversion_count := Z.of_nat (List.length (matched deals_df workorders_df)) in
      let total_open_closed :=
        Z.of_nat (List.length
          (filter (fun r => in_strs (status r) ["Open"; "Won"]) deals_df)) in
      let won_count := Z.of_nat (List.length won) in
      conversion_rate <-
        (if 0 <? total_open_closed
         then q <- int_truediv (100 * won_count) total_open_closed ;;
              Ok (NFloat (py_round1 q))
         else Ok (NInt 0)) ;;
      wo_coverage_rate <-
        (if 0 <? won_count
         then q <- int_truediv (100 * conversion_count) won_count ;;
              Ok (NFloat (py_round1 q))
         else Ok (NInt 0)) ;;
      let pipeline_sum :=
        series_sum (map deal_value
          (filter (fun r => String.eqb (status r) "Open") deals_df)) in
      let total_closed := series_sum (map deal_value won) in
      let wo_sum := series_sum (map amount_excl_gst workorders_df) in
      Ok (Result {|
        won_deals_count := won_count;
        conversion_rate_pct := conversion_rate;
        wo_coverage_rate_pct := wo_coverage_rate;
        total_pipeline := _fmt_inr pipeline_sum;
        closed_revenue := _fmt_inr total_closed;
        total_wo_value := _fmt_inr wo_sum;
        sector_performance :=
          map (fun kv =>
                 (fst kv,
                  {| won_pipeline := _fmt_inr (won_value (snd kv));
                     wo_value_fmt := _fmt_inr (wo_value (snd kv));
                     realization_rate_pct := realization_rate (snd kv) |}))
              (sector_perf deals_df workorders_df)
      |})
  end.

(** ** Leadership update *)

Record PipelineSection : Type := {
  total_open_pipeline : string;
  weighted_pipeline : string;
  closing_this_quarter : string;
  pipeline_by_sector : dict string
}.

Record RevenueSection : Type := {
  closed_ytd : string;
  revenue_top_sector : string;
  top_sector_share_pct : number;
  revenue_by_sector : dict string
}.

Record OperationsSection : Type := {
  active_work_orders : number;
  completed_work_orders : number;
  backlog_value : string;
  operational_risk : string;
  risk_note : string
}.

Record ConversionSection : Type := {
  won_to_total_rate_pct : number;
  coverage_rate_pct : number
}.

(** The update dictionary; [data_quality] is absent when the key is. *)
Record Update : Type := {
  title : string;
  generated_at : string;
  pipeline : PipelineSection;
  revenue : RevenueSection;
  operations : OperationsSection;
  conversion : ConversionSection;
  data_quality : option Caveats
}.

(** [d.get(key, default)] on what a rollup returned: the error dictionary
    has none of the keys. *)
Definition result_get {A B : Type} (d : outcome A) (key : A -> option B)
  (default : B) : B :=
  match d with
  | Result a => match key a with
                | Some v => v
                | None => default
                end
  | Error _ => default
  end.

(** [pd.Timestamp.quarter]: the calendar quarter. *)
Definition ts_quarter (t : Timestamp) : Z := (ts_month t - 1) / 3 + 1.

Definition generate_leadership_update (now : Timestamp) (deals_df : list DealRecord)
  (workorders_df : list WorkOrderRecord) (caveats : Caveats) : res Update :=
  let '(q_start, q_end) := _current_quarter_bounds now in
  let q_label := "Q" ++ str_of_number (NInt (ts_quarter now))
                 ++ " FY" ++ str_of_number (NInt (ts_year now)) in
  let rev := revenue_analytics now deals_df (Some "ytd") in
  let health := pipeline_health now deals_df (Some "this_quarter") in
  let ops := operational_metrics workorders_df in
  cross <- cross_board_analysis deals_df workorders_df ;;
  Ok {|
    title := "Leadership Update — " ++ q_label;
    generated_at := strftime now "%d %b %Y, %H:%M IST";
    pipeline := {|
      total_open_pipeline :=
        result_get health (fun p => Some (pipeline_total_fmt p)) "N/A";
      weighted_pipeline :=
        result_get health (fun p => Some (weighted_pipeline_fmt p)) "N/A";
      closing_this_quarter := result_get health closing_this_quarter_value "N/A";
      pipeline_by_sector := result_get health (fun p => Some (open_by_sector p)) [] |};
    revenue := {|
      closed_ytd := result_get rev (fun r => Some (closed_total_fmt r)) "N/A";
      revenue_top_sector := result_get rev top_sector "N/A";
      top_sector_share_pct := result_get rev top_sector_pct (NInt 0);
      revenue_by_sector := result_get rev (fun r => Some (by_sector r)) [] |};
    operations := {|
      active_work_orders := result_get ops (fun o => Some (NInt (active_count o))) (NInt 0);
      completed_work_orders :=
        result_get ops (fun o => Some (NInt (completed_count o))) (NInt 0);
      backlog_value := result_get ops (fun o => Some (ops_backlog_value o)) "N/A";
      operational_risk := result_get ops (fun o => Some (ops_operational_risk o)) "N/A";
      risk_note := result_get ops (fun o => Some (ops_risk_note o)) "" |};
    conversion := {|
      won_to_total_rate_pct :=
        result_get cross (fun c => Some (conversion_rate_pct c)) (NInt 0);
      coverage_rate_pct :=
        result_get cross (fun c => Some (wo_coverage_rate_pct c)) (NInt 0) |};
    data_quality := Some caveats |}.

Definition caveats_heading : string := "### ⚠️ Data Caveats".

(** The list [notes] of [format_leadership_update]. *)
Definition caveat_notes (dq : Caveats) : list string :=
  let notes := [] in
  let notes :=
    if num_gt (get_or dq "deals_missing_revenue_pct" (NInt 0)) 10
    then List.app notes
      [str_of_number (get_or dq "deals_missing_revenue_pct" (NInt 0))
       ++ "% of deals have no value (revenue may be understated)"]
    else notes in
  let notes :=
    if num_gt (get_or dq "deals_missing_sector_pct" (NInt 0)) 10
    then List.app notes
      [str_of_number (get_or dq "deals_missing_sector_pct" (NInt 0))
       ++ "% of deals have no sector (sector breakdown is partial)"]
    else notes in
  let notes :=
    if num_gt (get_or dq "wo_missing_amount_pct" (NInt 0)) 10
    then List.app notes
      [str_of_number (get_or dq "wo_missing_amount_pct" (NInt 0))
       ++ "% of work orders have no amount"]
    else notes in
  notes.

(** The list [lines] of [format_leadership_update] as it stands before the
    final join. *)
Definition leadership_lines (update : Update) : list string :=
  let lines :=
    ["## 📊 " ++ title update;
     "*Generated: " ++ generated_at update ++ "*";
     "";
     "### 💰 Pipeline";
     "- **Total Open Pipeline:** " ++ total_open_pipeline (pipeline update);
     "- **Weighted Pipeline:** " ++ weighted_pipeline (pipeline update);
     "- **Closing This Quarter:** " ++ closing_this_quarter (pipeline update)] in
  let lines :=
    match pipeline_by_sector (pipeline update) with
    | [] => lines
    | items =>
        List.app (List.app lines ["- **By Sector:**"])
          (map (fun kv => "  - " ++ str_title (fst kv) ++ ": " ++ snd kv)
               (firstn 5 items))
    end in
  let lines := List.app lines
    ["";
     "### 📈 Revenue (YTD)";
     "- **Closed Revenue:** " ++ closed_ytd (revenue update);
     "- **Top Sector:** " ++ str_title (revenue_top_sector (revenue update))
       ++ " (" ++ str_of_number (top_sector_share_pct (revenue update))
       ++ "% of closed revenue)"] in
  let lines := List.app lines
    ["";
     "### 🔧 Operations";
     "- **Active Work Orders:** "
       ++ str_of_number (active_work_orders (operations update));
     "- **Completed Work Orders:** "
       ++ str_of_number (completed_work_orders (operations update));
     "- **Unbilled Backlog:** " ++ backlog_value (operations update);
     "- **Operational Risk:** " ++ operational_risk (operations update)
       ++ " — " ++ risk_note (operations update)] in
  let lines := List.app lines
    ["";
     "### 🔄 Conversion";
     "- **Deal Win Rate:** "
       ++ str_of_number (won_to_total_rate_pct (conversion update)) ++ "%";
     "- **Won → Work Order Coverage:** "
       ++ str_of_number (coverage_rate_pct (conversion update)) ++ "%"] in
  let dq := match data_quality update with Some d => d | None => [] end in
  match dq with
  | [] => lines
  | _ =>
      match caveat_notes dq with
      | [] => lines
      | notes =>
          List.app (List.app lines [""; caveats_heading])
            (map (fun note => "- " ++ note) notes)
      end
  end.

Definition format_leadership_update (update : Update) : string :=
  join (String (ascii_of_nat 10) "") (leadership_lines update).

End Analytics.

(* ================================================================== *)
(** * agent.py                                                         *)
(* ================================================================== *)

(** The helpers of the agent that neither call the language model nor the
    board API. *)

(** A chat message: a dictionary with the keys [role] and [content], both
    text. *)
Definition Message : Type := dict string.

(** [d[k]] on a dictionary with [int] keys; [None] is [KeyError]. *)
Fixpoint int_key_get {A : Type} (d : list (Z * A)) (k : Z) : option A :=
  match d with
  | [] => None
  | (k', v) :: r => if k' =? k then Some v else int_key_get r k
  end.

Definition q_names : list (Z * string) :=
  [(1, "Apr–Jun"); (2, "Jul–Sep"); (3, "Oct–Dec"); (4, "Jan–Mar")].

(** The pair [(fy, fq)] the if/else of [_get_current_quarter_label]
    assigns. *)
Definition fiscal_year_quarter (today : Timestamp) : Z * Z :=
  if 4 <=? ts_month today
  then (ts_year today + 1, (ts_month today - 4) / 3 + 1)
  else (ts_year today, (ts_month today + 8) / 3).

Section Agent.
Context {L : PyRuntime}.

Definition _get_current_quarter_label (today : Timestamp) : option string :=
  let q := (ts_month today - 1) / 3 + 1 in
  let '(fy, fq) := fiscal_year_quarter today in
  match int_key_get q_names fq with
  | Some name =>
      Some ("Q" ++ str_of_number (NInt fq) ++ " FY" ++ str_of_number (NInt fy)
            ++ " (" ++ name ++ " "
            ++ str_of_number (NInt (if ts_month today <? 4
                                    then ts_year today else ts_year today))
            ++ ")")
  | None => None
  end.

End Agent.

(** [msg.get("role") == role] *)
Definition has_role (msg : Message) (role : string) : bool :=
  match dict_get msg "role" with
  | Some r => String.eqb r role
  | None => false
  end.

(** [any(w in q for w in words)] *)
Definition any_in (q : string) (words : list string) : bool :=
  existsb (fun w => contains q w) words.

(** The loop of [_was_last_clarification] over [reversed(history)]. *)
Fixpoint last_assistant_clarifies (msgs : list Message) : bool :=
  match msgs with
  | [] => false
  | msg :: rest =>
      if has_role msg "assistant" || has_role msg "model" then
        let content := get_or msg "content" "" in
        contains (lower content) "do you mean:"
        || contains (lower content) "could you clarify"
        || contains (lower content) "when you say"
        || contains (lower content) "are you asking"
      else last_assistant_clarifies rest
  end.

Definition _was_last_clarification (history : list Message) : bool :=
  last_assistant_clarifies (rev history).

(** The loop of [_infer_intent_from_clarification_context] over
    [reversed(history)]. *)
Fixpoint infer_from_user_messages (msgs : list Message) : string :=
  match msgs with
  | [] => "revenue"
  | msg :: rest =>
      if has_role msg "user" then
        let q := lower (get_or msg "content" "") in
        if any_in q ["revenue"; "income"; "billed"; "closed"; "pipeline"]
        then "revenue"
        else if any_in q ["work order"; "operation"; "execution"; "active"; "backlog"]
        then "operations"
        else if any_in q ["convert"; "conversion"; "win rate"; "cross"]
        then "crossboard"
        else if any_in q ["pipeline"; "open deal"; "stage"]
        then "pipeline"
        else infer_from_user_messages rest
      else infer_from_user_messages rest
  end.

Definition _infer_intent_from_clarification_context (history : list Message) : string :=
  infer_from_user_messages (rev history).

(** [l[-n:]] *)
Definition last_n {A : Type} (n : nat) (l : list A) : list A :=
  skipn (List.length l - n) l.

(** The loop of [_format_history]: [formatted] grows by one message for
    each message with a content. *)
Fixpoint format_messages (msgs formatted : list Message) : list Message :=
  match msgs with
  | [] => formatted
  | msg :: rest =>
      let raw_role := get_or msg "role" "user" in
      let role := if String.eqb raw_role "user" then "user" else "assistant" in
      let content := get_or msg "content" "" in
      if String.eqb content "" then format_messages rest formatted
      else format_messages rest
             (List.app formatted [[("role", role); ("content", content)]])
  end.

Definition _format_history (history : list Message) : list Message :=
  format_messages (last_n 10 history) [].

(* ================================================================== *)
(** * A reference runtime                                              *)
(* ================================================================== *)

(** A concrete [PyRuntime] on which the pipeline runs on closed inputs.
    It stands for the libraries on the cases the examples below meet:
    fixed-point and [repr] printing of floats, column sums from the left,
    groups in key order, a JSON decoder without [\u] escapes, and
    [strptime] for the numeric date formats. *)

Definition fadd : float -> float -> float := SFadd 53 1024.

Definition sign_text (s : bool) : string := if s then "-" else "".

Fixpoint zeros (k : nat) : string :=
  match k with
  | O => ""
  | S n => String "0"%char (zeros n)
  end.

Definition decimal_digits (n : Z) : string :=
  NilZero.string_of_uint (N.to_uint (Z.to_N n)).

(** The digits of [n] with a point before the last [k] of them. *)
Definition with_point (k : nat) (n : Z) : string :=
  let ds := decimal_digits n in
  let ds := zeros (S k - String.length ds) ++ ds in
  let cut := (String.length ds - k)%nat in
  match k with
  | O => ds
  | _ => String.substring 0 cut ds ++ "." ++ String.substring cut k ds
  end.

Definition ref_format_fixed (k : nat) (f : float) : string :=
  match f with
  | S754_nan => "nan"
  | S754_infinity s => sign_text s ++ "inf"
  | S754_zero s => sign_text s ++ with_point k 0
  | S754_finite s m e =>
      sign_text s ++ with_point k (scaled_nearest (10 ^ Z.of_nat k) m e)
  end.

(** Commas between groups of three digits, from the right. *)
Fixpoint group3 (fuel : nat) (ds : string) : string :=
  match fuel with
  | O => ds
  | S n =>
      if Nat.leb (String.length ds) 3 then ds
      else group3 n (String.substring 0 (String.length ds - 3) ds)
           ++ "," ++ String.substring (String.length ds - 3) 3 ds
  end.

Definition ref_format_grouped (f : float) : string :=
  match f with
  | S754_nan => "nan"
  | S754_infinity s => sign_text s ++ "inf"
  | S754_zero s => sign_text s ++ "0"
  | S754_finite s m e =>
      let ds := decimal_digits (scaled_nearest 1 m e) in
      sign_text s ++ group3 (String.length ds) ds
  end.

(** The shortest fixed-point text that reads back as [f], which is what
    [repr] prints for magnitudes from 1e-4 up to 1e16. *)
Fixpoint shortest_fixed (tries k : nat) (f : float) : string :=
  match tries with
  | O => ref_format_fixed k f
  | S n =>
      match py_float (ref_format_fixed k f) with
      | Some g => if feqb g f then ref_format_fixed k f
                  else shortest_fixed n (S k) f
      | None => ref_format_fixed k f
      end
  end.

Definition ref_str_of_number (x : number) : string :=
  match x with
  | NInt z => (if z <? 0 then "-" else "") ++ decimal_digits (Z.abs z)
  | NFloat f => shortest_fixed 17 1 f
  end.

(** A column sum that skips [NaN] and adds from the left. *)
Definition ref_sum (l : list float) : float :=
  fold_left (fun acc x => if is_nan x then acc else fadd acc x) l f0.

Fixpoint insert_sorted {A : Type} (before : string * A -> string * A -> bool)
  (x : string * A) (l : dict A) : dict A :=
  match l with
  | [] => [x]
  | y :: r => if before y x then y :: insert_sorted before x r else x :: l
  end.

Definition sort_dict {A : Type} (before : string * A -> string * A -> bool)
  (d : dict A) : dict A :=
  fold_left (fun acc x => insert_sorted before x acc) d [].

Definition ref_groupby_sum (rows : list (string * float)) : dict float :=
  let keys := sort_dict (fun a b => String.leb (fst a) (fst b))
                (map (fun k => (k, tt)) (rev (nodup string_dec (map fst rows)))) in
  map (fun kt =>
         (fst kt,
          ref_sum (map snd (filter (fun kv => String.eqb (fst kv) (fst kt)) rows))))
      keys.

Definition upper_char (c : ascii) : ascii :=
  let n := code c in
  if (97 <=? n) && (n <=? 122) then ascii_of_nat (Z.to_nat (n - 32)) else c.

Definition is_letter (c : ascii) : bool :=
  negb (code (lower_char c) =? code (upper_char c)).

Fixpoint ref_title (after_letter : bool) (s : string) : string :=
  match s with
  | EmptyString => EmptyString
  | String c r =>
      String (if after_letter then lower_char c else upper_char c)
             (ref_title (is_letter c) r)
  end.

(** *** A JSON decoder

    Objects, arrays, strings with the one-letter escapes, numbers and the
    literals; a [\u] escape is not supported and makes the decoder fail,
    as malformed text does. *)

Definition json_ws (c : ascii) : bool :=
  let n := code c in (n =? 32) || (n =? 9) || (n =? 10) || (n =? 13).

Fixpoint skip_ws (l : list ascii) : list ascii :=
  match l with
  | c :: r => if json_ws c then skip_ws r else l
  | [] => []
  end.

Definition unescape (c : ascii) : option ascii :=
  let n := code c in
  if (n =? 34) || (n =? 92) || (n =? 47) then Some c
  else if n =? 98 then Some (ascii_of_nat 8)
  else if n =? 102 then Some (ascii_of_nat 12)
  else if n =? 110 then Some (ascii_of_nat 10)
  else if n =? 114 then Some (ascii_of_nat 13)
  else if n =? 116 then Some (ascii_of_nat 9)
  else None.

(** The rest of a string after its opening quote. *)
Fixpoint json_string (l : list ascii) : option (string * list ascii) :=
  match l with
  | [] => None
  | c :: r =>
      if code c =? 34 then Some (EmptyString, r)
      else if code c =? 92 then
        match r with
        | e :: r' =>
            match unescape e, json_string r' with
            | Some ch, Some (s, rest) => Some (String ch s, rest)
            | _, _ => None
            end
        | [] => None
        end
      else if code c <? 32 then None
      else match json_string r with
           | Some (s, rest) => Some (String c s, rest)
           | None => None
           end
  end.

(** A number: an optional minus, an integer part without a leading zero,
    an optional fraction and an optional exponent. *)
Definition json_number (l : list ascii) : option (json * list ascii) :=
  let (neg, r0) := match l with
                   | c :: r => if code c =? 45 then (true, r) else (false, l)
                   | [] => (false, [])
                   end in
  let (ip, r1) := span_digits r0 in
  match ip with
  | [] => None
  | d0 :: more =>
      if (code d0 =? 48) && negb (Nat.eqb (List.length more) 0) then None
      else
        let (fp, r2) :=
          match r1 with
          | c :: r => if code c =? 46 then span_digits r else ([], r1)
          | [] => ([], [])
          end in
        let dotted := match r1 with
                      | c :: _ => code c =? 46
                      | [] => false
                      end in
        if dotted && Nat.eqb (List.length fp) 0 then None
        else
          let (ex, r3) :=
            match r2 with
            | c :: r =>
                if code (lower_char c) =? 101 then
                  let (sg, r') :=
                    match r with
                    | s :: t => if (code s =? 45) || (code s =? 43)
                                then ([s], t) else ([], r)
                    | [] => ([], [])
                    end in
                  let (ds, rest) := span_digits r' in
                  match ds with
                  | [] => ([], r2)
                  | _ => (c :: List.app sg ds, rest)
                  end
                else ([], r2)
            | [] => ([], [])
            end in
          if dotted || negb (Nat.eqb (List.length ex) 0) then
            let text :=
              string_of_list_ascii
                (List.app (if neg then ["-"%char] else [])
                   (List.app ip (List.app (if dotted then "."%char :: fp else []) ex))) in
            match py_float text with
            | Some f => Some (JFloat f, r3)
            | None => None
            end
          else Some (JInt (if neg then - digits_value ip else digits_value ip), r3)
  end.

Fixpoint drop_prefix (p : string) (l : list ascii) : option (list ascii) :=
  match p, l with
  | EmptyString, _ => Some l
  | String c p', d :: r => if Ascii.eqb c d then drop_prefix p' r else None
  | String _ _, [] => None
  end.

Definition json_literal (l : list ascii) : option (json * list ascii) :=
  match drop_prefix "true" l, drop_prefix "false" l, drop_prefix "null" l with
  | Some r, _, _ => Some (JBool true, r)
  | _, Some r, _ => Some (JBool false, r)
  | _, _, Some r => Some (JNull, r)
  | _, _, _ =>
      match drop_prefix "NaN" l, drop_prefix "Infinity" l, drop_prefix "-Infinity" l with
      | Some r, _, _ => Some (JFloat S754_nan, r)
      | _, Some r, _ => Some (JFloat (S754_infinity false), r)
      | _, _, Some r => Some (JFloat (S754_infinity true), r)
      | _, _, _ => json_number l
      end
  end.

(** A key set again takes the new value. *)
Fixpoint dict_set {A : Type} (d : dict A) (k : string) (v : A) : dict A :=
  match d with
  | [] => [(k, v)]
  | (k', v') :: r => if String.eqb k' k then (k, v) :: r else (k', v') :: dict_set r k v
  end.

(** A value; then the elements of an array after [[] or a comma; then the
    members of an object after [{] or a comma.  [fuel] bounds the calls. *)
Fixpoint json_value (fuel : nat) (l : list ascii) : option (json * list ascii) :=
  match fuel with
  | O => None
  | S n =>
      match skip_ws l with
      | [] => None
      | c :: r =>
          if code c =? 34 then
            match json_string r with
            | Some (s, rest) => Some (JStr s, rest)
            | None => None
            end
          else if code c =? 91 then
            match skip_ws r with
            | d :: r' => if code d =? 93 then Some (JList [], r')
                         else json_elements n r []
            | [] => None
            end
          else if code c =? 123 then
            match skip_ws r with
            | d :: r' => if code d =? 125 then Some (JDict [], r')
                         else json_members n r []
            | [] => None
            end
          else json_literal (c :: r)
      end
  end
with json_elements (fuel : nat) (l : list ascii) (acc : list json)
  : option (json * list ascii) :=
  match fuel with
  | O => None
  | S n =>
      match json_value n l with
      | Some (v, rest) =>
          match skip_ws rest with
          | c :: r =>
              if code c =? 44 then json_elements n r (List.app acc [v])
              else if code c =? 93 then Some (JList (List.app acc [v]), r)
              else None
          | [] => None
          end
      | None => None
      end
  end
with json_members (fuel : nat) (l : list ascii) (acc : dict json)
  : option (json * list ascii) :=
  match fuel with
  | O => None
  | S n =>
      match skip_ws l with
      | q :: r =>
          if code q =? 34 then
            match json_string r with
            | Some (k, rest) =>
                match skip_ws rest with
                | c :: r1 =>
                    if code c =? 58 then
                      match json_value n r1 with
                      | Some (v, rest1) =>
                          match skip_ws rest1 with
                          | d :: r2 =>
                              if code d =? 44 then json_members n r2 (dict_set acc k v)
                              else if code d =? 125
                              then Some (JDict (dict_set acc k v), r2)
                              else None
                          | [] => None
                          end
                      | None => None
                      end
                    else None
                | [] => None
                end
            | None => None
            end
          else None
      | [] => None
      end
  end.

Definition ref_json_loads (text : string) : option json :=
  let l := list_ascii_of_string text in
  match json_value (2 * List.length l + 2) l with
  | Some (v, rest) => match skip_ws rest with
                      | [] => Some v
                      | _ => None
                      end
  | None => None
  end.

(** [str(v)] of a decoded value that is not a [str]; a container prints as
    its brackets only. *)
Definition ref_json_repr (j : json) : string :=
  match j with
  | JNull => "None"
  | JBool b => if b then "True" else "False"
  | JInt z => ref_str_of_number (NInt z)
  | JFloat f => ref_str_of_number (NFloat f)
  | JStr s => s
  | JList _ => "[...]"
  | JDict _ => "{...}"
  end.

(** *** Dates

    [strptime] for the formats made of [%Y], [%m], [%d] and separators;
    the formats with month names are not supported and fail. *)

Definition take_digits (lo hi : nat) (l : list ascii) : option (Z * list ascii) :=
  let (ds, rest) := span_digits (firstn hi l) in
  if Nat.leb lo (List.length ds)
  then Some (digits_value ds, List.app rest (skipn hi l))
  else None.

(** The fields read so far are [(year, month, day)]. *)
Fixpoint strptime_fields (fuel : nat) (fmt text : list ascii) (ymd : Z * Z * Z)
  : option (Z * Z * Z) :=
  match fuel with
  | O => None
  | S n =>
      match fmt with
      | [] => match text with [] => Some ymd | _ => None end
      | p :: f :: fmt' =>
          if code p =? 37 then
            let '(y, m, d) := ymd in
            if code f =? 89 then
              match take_digits 4 4 text with
              | Some (v, rest) => strptime_fields n fmt' rest (v, m, d)
              | None => None
              end
            else if code f =? 109 then
              match take_digits 1 2 text with
              | Some (v, rest) => strptime_fields n fmt' rest (y, v, d)
              | None => None
              end
            else if code f =? 100 then
              match take_digits 1 2 text with
              | Some (v, rest) => strptime_fields n fmt' rest (y, m, v)
              | None => None
              end
            else None
          else
            match text with
            | c :: rest => if Ascii.eqb c p
                           then strptime_fields n (f :: fmt') rest ymd else None
            | [] => None
            end
      | [p] =>
          match text with
          | [c] => if Ascii.eqb c p then Some ymd else None
          | _ => None
          end
      end
  end.

Definition is_leap (y : Z) : bool :=
  ((y mod 4 =? 0) && negb (y mod 100 =? 0)) || (y mod 400 =? 0).

Definition days_in_month (y m : Z) : Z :=
  if m =? 2 then (if is_leap y then 29 else 28)
  else if (m =? 4) || (m =? 6) || (m =? 9) || (m =? 11) then 30
  else 31.

Definition valid_date (y m d : Z) : bool :=
  (1 <=? y) && (y <=? 9999) && (1 <=? m) && (m <=? 12)
  && (1 <=? d) && (d <=? days_in_month y m).

Definition iso_date (y m d : Z) : string :=
  String (digit_char (y / 1000)) (String (digit_char (y / 100))
    (String (digit_char (y / 10)) (String (digit_char y)
      (String "-"%char (String (digit_char (m / 10)) (String (digit_char m)
        (String "-"%char (String (digit_char (d / 10))
          (String (digit_char d) EmptyString))))))))).

Definition ref_strptime_iso (text fmt : string) : option string :=
  let f := list_ascii_of_string fmt in
  let t := list_ascii_of_string text in
  match strptime_fields (List.length f + 1) f t (0, 0, 0) with
  | Some (y, m, d) => if valid_date y m d then Some (iso_date y m d) else None
  | None => None
  end.

(** [pd.to_datetime]: an ISO date within the bounds of a timestamp. *)
Definition ref_to_datetime (v : option string) : option Timestamp :=
  match v with
  | None => None
  | Some text =>
      let t := list_ascii_of_string text in
      match strptime_fields 8
              (list_ascii_of_string "%Y-%m-%d") t (0, 0, 0) with
      | Some (y, m, d) =>
          if valid_date y m d && (1678 <=? y) && (y <=? 2261)
          then Some (ts_of_date y m d) else None
      | None => None
      end
  end.

Definition ref_runtime : PyRuntime := {|
  json_loads := ref_json_loads;
  json_repr := ref_json_repr;
  strptime_iso := ref_strptime_iso;
  to_datetime := ref_to_datetime;
  str_of_number := ref_str_of_number;
  format_fixed := ref_format_fixed;
  format_grouped := ref_format_grouped;
  series_sum := ref_sum;
  groupby_sum := ref_groupby_sum;
  sort_values_desc :=
    sort_dict (fun a b => negb (fltb (snd a) (snd b)));
  sort_index := sort_dict (fun a b => String.leb (fst a) (fst b));
  str_title := ref_title false
|}.

(** *** The reference runtime, continued: counts and clock formats *)

Definition ref_value_counts (l : list string) : dict Z :=
  sort_dict (fun a b => snd b <=? snd a)
    (map (fun k => (k, Z.of_nat (count_occ string_dec l k)))
         (rev (nodup string_dec (rev l)))).

Definition two_digits (n : Z) : string :=
  String (digit_char (n / 10)) (String (digit_char n) EmptyString).

Definition MONTH_NAMES : list string :=
  ["January"; "February"; "March"; "April"; "May"; "June"; "July"; "August";
   "September"; "October"; "November"; "December"].

(** The directives [%d %m %b %B %Y %H %M]; any other character stands for
    itself. *)
Fixpoint strftime_fields (t : Timestamp) (fmt : list ascii) : string :=
  match fmt with
  | [] => ""
  | c :: rest =>
      if code c =? 37 then
        match rest with
        | d :: rest' =>
            (if code d =? 100 then two_digits (ts_day t)
             else if code d =? 109 then two_digits (ts_month t)
             else if code d =? 98
                  then String.substring 0 3 (nth (Z.to_nat (ts_month t - 1)) MONTH_NAMES "")
             else if code d =? 66 then nth (Z.to_nat (ts_month t - 1)) MONTH_NAMES ""
             else if code d =? 89 then decimal_digits (ts_year t)
             else if code d =? 72 then two_digits (ts_nanos t / 3600000000000)
             else if code d =? 77 then two_digits (ts_nanos t / 60000000000 mod 60)
             else String c (String d EmptyString))
            ++ strftime_fields t rest'
        | [] => String c EmptyString
        end
      else String c (strftime_fields t rest)
  end.

Definition ref_strftime (t : Timestamp) (fmt : string) : string :=
  strftime_fields t (list_ascii_of_string fmt).

Definition ref_frame_runtime : FrameRuntime := {|
  value_counts := ref_value_counts;
  strftime := ref_strftime
|}.

(* ================================================================== *)
(** * Definitions the statements use                                   *)
(* ================================================================== *)

(** ** Deal status: the precedence as the specification words it *)

(** The rules in order of precedence: a test on the normalized status and
    stage, and the canonical value it gives.  The first rule whose test
    holds decides. *)
Definition status_rules : list ((string -> string -> bool) * string) :=
  [ (fun s _ => String.eqb s "won", "Won");
    (fun s _ => String.eqb s "dead", "Dead");
    (fun s _ => String.eqb s "on hold", "On Hold");
    (fun _ st => in_strs st WON_STAGES, "Won");
    (fun _ st => in_strs st DEAD_STAGES, "Dead");
    (fun _ st => in_strs st OPEN_STAGES, "Open") ].

Definition status_by_precedence (s st : string) : string :=
  match find (fun rule => fst rule s st) status_rules with
  | Some rule => snd rule
  | None => "Open"
  end.

(** ** Record builders: which items are dropped *)

(** The item name as both builders read it. *)
Definition item_name (item : RawItem) : string :=
  strip (get_or item "_item_name" "").

Definition deal_item_dropped (item : RawItem) : bool :=
  String.eqb (item_name item) "" || String.eqb (lower (item_name item)) "deal name".

Definition workorder_item_dropped (item : RawItem) : bool :=
  String.eqb (item_name item) "".

(** ** Sample boards *)

Definition text_column (title : string) : ColMeta :=
  {| col_title := title; col_type := "text" |}.

Definition sample_deals_schema : Schema :=
  {| board_name := "Deals";
     columns := Some [ ("c_status", text_column "Deal Status");
                       ("c_stage", text_column "Deal Stage");
                       ("c_sector", text_column "Sector/service");
                       ("c_value", text_column "Masked Deal value");
                       ("c_prob", text_column "Closure Probability") ] |}.

Definition sample_deal_items : list RawItem :=
  [ [("_item_name", "Alpha"); ("c_status", "Won"); ("c_stage", "G. Project Won");
     ("c_sector", "Mining"); ("c_value", "5L"); ("c_prob", "High")];
    [("_item_name", "Deal Name"); ("c_status", "Deal Status")];
    [("_item_name", " Beta "); ("c_status", "Open"); ("c_stage", "C. Demo Done");
     ("c_sector", ""); ("c_value", "₹20,00,000"); ("c_prob", "Medium")];
    [("_item_name", "   ")] ].

Definition sample_workorders_schema : Schema :=
  {| board_name := "Work Orders";
     columns := Some [ ("w_deal", text_column "Deal name masked");
                       ("w_exec", text_column "Execution Status");
                       ("w_sector", text_column "Sector");
                       ("w_amount", text_column "Amount in Rupees (Excl of GST) (Masked)");
                       ("w_billed", text_column "Billed Value in Rupees (Excl of GST.) (Masked)") ] |}.

Definition sample_workorder_items : list RawItem :=
  [ [("_item_name", "ALPHA "); ("w_deal", ""); ("w_exec", "Ongoing");
     ("w_sector", "Mining"); ("w_amount", "4.5L"); ("w_billed", "1L")];
    [("_item_name", "")];
    [("_item_name", "Gamma"); ("w_deal", "Gamma Survey"); ("w_exec", "Completed");
     ("w_amount", "10k"); ("w_billed", "10k")] ].

(** A batch of one item whose name is the header text of the deals board. *)
Definition header_batch : list RawItem := [ [("_item_name", "deal name")] ].

(** The text has the character of code [k]. *)
Fixpoint has_char (k : Z) (s : string) : bool :=
  match s with
  | EmptyString => false
  | String c r => (code c =? k) || has_char k r
  end.

(** No cell of the item can be the text of a JSON object: none has a
    brace, so however a cell is trimmed it does not start with one. *)
Definition no_json_object (item : RawItem) : bool :=
  forallb (fun kv => negb (has_char 123 (snd kv))) item.

(** The frame the work-orders builder gives for the sample board. *)
Definition sample_workorders_df : list WorkOrderRecord :=
  Eval vm_compute in
    match @clean_workorders_df ref_runtime sample_workorder_items
            sample_workorders_schema with
    | Ok df => df
    | Raise _ => []
    end.

(** ** Amounts: signs *)



Fixpoint has_minus (s : string) : bool :=
  match s with
  | EmptyString => false
  | String c r => (code c =? 45) || has_minus r
  end.


(** A cell without a minus sign that cannot be JSON text: it has no brace
    and no double quote, so however it is trimmed it starts with neither. *)
Definition unsigned_plain (cell : string) : bool :=
  negb (has_minus cell) && negb (has_char 123 cell) && negb (has_char 34 cell).

(** The characters of [p] occur in [s], in the order of [p]. *)
Fixpoint subseq (p s : string) {struct s} : bool :=
  match p, s with
  | EmptyString, _ => true
  | String _ _, EmptyString => false
  | String a p', String b s' =>
      if Ascii.eqb a b then subseq p' s' else subseq p s'
  end.

(** The cell spells [nan]: the letters n, a, n occur in it in this order,
    in either case, whatever stands between them. *)
Definition spells_nan (cell : string) : bool := subseq "nan" (lower cell).


Definition amount_excl_cell (cols : dict ColMeta) (item : RawItem) : string :=
  find_column item cols ["amount in rupees (excl"; "excl of gst"; "excl. of gst"].

Definition amount_incl_cell (cols : dict ColMeta) (item : RawItem) : string :=
  find_column item cols ["amount in rupees (incl"; "incl of gst"].





(** A work-orders batch with negative amounts. *)
Definition negative_workorder_batch : list RawItem :=
  [ [("_item_name", "Credit note"); ("w_amount", "-5"); ("w_billed", "-2k")] ].

(** ** Canonical records for the analytics examples *)

Definition deal_of (name status sector : string) (value : Z)
  (closed : option Timestamp) : DealRecord :=
  {| deal_name := name;
     owner_code := "";
     client_code := "";
     status := status;
     stage := "";
     sector := sector;
     deal_value := float_of_Z value;
     probability := f0_50;
     weighted_value := fmul (float_of_Z value) f0_50;
     close_date := closed;
     created_date := None;
     product := "" |}.

Definition workorder_of (name linked sector : string) (amount : Z) : WorkOrderRecord :=
  {| wo_name := name;
     deal_name_linked := linked;
     wo_sector := sector;
     exec_status := "Ongoing";
     is_active := true;
     amount_excl_gst := float_of_Z amount;
     billed_excl_gst := f0;
     unbilled_amount := float_of_Z amount;
     wo_status := "";
     nature_of_work := "";
     wo_owner_code := "";
     start_date := None;
     end_date := None |}.

(** ** The period filter *)

(** The clock of the examples: 3 November 2026, ten in the morning. *)
Definition clock : Timestamp :=
  {| ts_year := 2026; ts_month := 11; ts_day := 3; ts_nanos := 36000000000000 |}.

(** April 1 of the financial year [now] lies in. *)
Definition fy_start (now : Timestamp) : Timestamp :=
  ts_of_date (if ts_month now <? 4 then ts_year now - 1 else ts_year now) 4 1.

(** A Won deal closing next June, after [clock]. *)
Definition future_deal : DealRecord :=
  deal_of "Forward" "Won" "mining" 500000 (Some (ts_of_date 2027 6 1)).

(** A Won deal that closed in May 2026, within the financial year. *)
Definition closed_deal : DealRecord :=
  deal_of "Alpha" "Won" "mining" 500000 (Some (ts_of_date 2026 5 20)).

Definition open_deal : DealRecord :=
  deal_of "Beta" "Open" "rail" 2000000 None.

(** ** The leadership report *)

Definition sample_update (dq : option Caveats) : Update :=
  {| title := "Leadership Update — Q4 FY2026";
     generated_at := "03 Nov 2026, 10:00 IST";
     pipeline := {| total_open_pipeline := "₹20.00 L";
                    weighted_pipeline := "₹10.00 L";
                    closing_this_quarter := "₹0";
                    pipeline_by_sector := [("rail", "₹20.00 L")] |};
     revenue := {| closed_ytd := "₹5.00 L";
                   revenue_top_sector := "mining";
                   top_sector_share_pct := NFloat f100;
                   revenue_by_sector := [("mining", "₹5.00 L")] |};
     operations := {| active_work_orders := NInt 1;
                      completed_work_orders := NInt 1;
                      backlog_value := "₹3.50 L";
                      operational_risk := "Low";
                      risk_note := "1 active work orders — comfortable capacity." |};
     conversion := {| won_to_total_rate_pct := NFloat (float_of_Z 50);
                      coverage_rate_pct := NFloat f100 |};
     data_quality := dq |}.

(** Caveats in which only the close-date signal is over its threshold:
    half of the deals have no close date. *)
Definition close_date_caveats : Caveats :=
  [ ("deals_missing_revenue_pct", NFloat (float_of_Z 5));
    ("deals_missing_sector_pct", NFloat f0);
    ("deals_missing_close_date_pct", NFloat (float_of_Z 50));
    ("deals_total", NInt 20);
    ("wo_missing_amount_pct", NFloat f0);
    ("wo_missing_sector_pct", NFloat f0);
    ("wo_total", NInt 10) ].

(** The three signals the leadership report looks at. *)
Definition report_signal_over (dq : Caveats) : bool :=
  num_gt (get_or dq "deals_missing_revenue_pct" (NInt 0)) 10
  || num_gt (get_or dq "deals_missing_sector_pct" (NInt 0)) 10
  || num_gt (get_or dq "wo_missing_amount_pct" (NInt 0)) 10.

(** ** The cross-board rates *)

Definition won_count (deals_df : list DealRecord) : Z :=
  Z.of_nat (List.length (won_rows deals_df)).

Definition open_or_won_count (deals_df : list DealRecord) : Z :=
  Z.of_nat (List.length
    (filter (fun r => String.eqb (status r) "Open" || String.eqb (status r) "Won")
            deals_df)).

(** How many Won deals have their normalized name among the work orders'
    normalized linked-deal names: the numerator as the specification words it. *)
Definition covered_won_deals (deals_df : list DealRecord)
  (workorders_df : list WorkOrderRecord) : Z :=
  Z.of_nat (List.length
    (filter (fun d => in_strs (name_norm (deal_name d))
                        (map (fun w => name_norm (deal_name_linked w)) workorders_df))
            (won_rows deals_df))).

(** How many distinct normalized names of Won deals are among the work
    orders' normalized linked-deal names: the numerator the code takes. *)
Definition covered_won_names (deals_df : list DealRecord)
  (workorders_df : list WorkOrderRecord) : Z :=
  Z.of_nat (List.length (matched deals_df workorders_df)).

(** The work-orders frame without the rows linked to the normalized name
    [n]. *)
Definition not_linked_to (n : string) (workorders_df : list WorkOrderRecord)
  : list WorkOrderRecord :=
  filter (fun w => negb (String.eqb (name_norm (deal_name_linked w)) n)) workorders_df.

(** [100 * num / den] rounded to one decimal, and the integer 0 when
    [den] is 0. *)
Definition percentage (num den : Z) : res number :=
  if 0 <? den
  then q <- int_truediv (100 * num) den ;; Ok (NFloat (py_round1 q))
  else Ok (NInt 0).

(** Two Won deals with one name up to case and spaces, one work order
    linked to that name. *)
Definition same_name_deals : list DealRecord :=
  [ deal_of "Alpha" "Won" "mining" 500000 None;
    deal_of " alpha " "Won" "mining" 300000 None ].

Definition same_name_workorders : list WorkOrderRecord :=
  [ workorder_of "WO-1" "ALPHA" "mining" 450000 ].

(** Two Won deals, [Alpha] and [alpha], as items of the deals board, and
    one work-order item named [ALPHA] with an empty link cell. *)
Definition twin_deal_items : list RawItem :=
  [ [("_item_name", "Alpha"); ("c_status", "Won"); ("c_sector", "Mining");
     ("c_value", "5L")];
    [("_item_name", "alpha"); ("c_status", "Won"); ("c_sector", "Mining");
     ("c_value", "3L")] ].

Definition twin_workorder_items : list RawItem :=
  [ [("_item_name", "ALPHA"); ("w_deal", ""); ("w_exec", "Ongoing");
     ("w_sector", "Mining"); ("w_amount", "4.5L")] ].

(** Caveats with two of the report's signals over the threshold. *)
Definition value_and_amount_caveats : Caveats :=
  [ ("deals_missing_revenue_pct", NFloat (float_of_Z 15));
    ("deals_missing_sector_pct", NFloat (float_of_Z 5));
    ("deals_missing_close_date_pct", NFloat f0);
    ("deals_total", NInt 20);
    ("wo_missing_amount_pct", NInt 30);
    ("wo_total", NInt 10) ].

Definition signal_count (b : bool) : nat := if b then 1%nat else 0%nat.

(** The update with its caveats dictionary taken away. *)
Definition without_caveats (update : Update) : Update :=
  {| title := title update;
     generated_at := generated_at update;
     pipeline := pipeline update;
     revenue := revenue update;
     operations := operations update;
     conversion := conversion update;
     data_quality := None |}.

(** ** The scenario of the specification: three deals *)

Definition scenario_schema : Schema :=
  {| board_name := "Deals";
     columns := Some [ ("c_status", text_column "Deal Status");
                       ("c_sector", text_column "Sector/service");
                       ("c_value", text_column "Masked Deal value");
                       ("c_close", text_column "Close Date (A)");
                       ("c_prob", text_column "Closure Probability") ] |}.

Definition scenario_items : list RawItem :=
  [ [("_item_name", "A"); ("c_status", "Won"); ("c_sector", "Mining");
     ("c_value", "500000"); ("c_close", "20/05/2026"); ("c_prob", "High")];
    [("_item_name", "B"); ("c_status", "Open"); ("c_sector", "Rail");
     ("c_value", "20L"); ("c_close", ""); ("c_prob", "Medium")];
    [("_item_name", "C"); ("c_status", "Dead"); ("c_sector", "Rail");
     ("c_value", "1,00,000"); ("c_close", ""); ("c_prob", "Low")] ].

Definition scenario_df : list DealRecord :=
  Eval vm_compute in
    match @clean_deals_df ref_runtime scenario_items scenario_schema with
    | Ok df => df
    | Raise _ => []
    end.

(** A close-date cell holding a JSON object whose date is a number. *)
Definition numeric_date_cell : string :=
  "{" ++ dquote ++ "date" ++ dquote ++ ": 20260520}".

Definition numeric_date_items : list RawItem :=
  [ [("_item_name", "A"); ("c_status", "Won"); ("c_value", "500000");
     ("c_close", numeric_date_cell)] ].

(** An amount cell holding a JSON object, and one holding a JSON string. *)
Definition json_amount_cell : string :=
  "{" ++ dquote ++ "value" ++ dquote ++ ": " ++ dquote ++ "1,200" ++ dquote ++ "}".

Definition quoted_amount_cell : string := dquote ++ "1200" ++ dquote.

(** ** Keyword hints and status categories *)

(** Whether a column title matches a keyword list, as [find_column] tests
    it: some keyword, in lower case, occurs in the title in lower case. *)
Definition title_matches (keywords : list string) (col_meta : ColMeta) : bool :=
  existsb (fun kw => contains (lower (col_title col_meta)) kw) (map lower keywords).

(** The canonical deal statuses. *)
Definition DEAL_STATUSES : list string := ["Won"; "Dead"; "On Hold"; "Open"].

(** The execution categories of a work order, and those that count as
    active. *)
Definition EXEC_CATEGORIES : list string :=
  ["Completed"; "Ongoing"; "Not Started"; "Paused"; "Partially Completed";
   "Pending"; "Unknown"].

Definition ACTIVE_CATEGORIES : list string :=
  ["Ongoing"; "Not Started"; "Paused"; "Partially Completed"; "Pending"].

(** The cells the builders read the status, the link and the dates from. *)
Definition exec_status_cell (cols : dict ColMeta) (item : RawItem) : string :=
  find_column item cols ["execution status"; "exec status"; "status"].

Definition linked_deal_cell (cols : dict ColMeta) (item : RawItem) : string :=
  find_column item cols ["deal name"; "deal"].

Definition close_date_cell (cols : dict ColMeta) (item : RawItem) : string :=
  find_column item cols ["close date"; "actual close"; "close date (a)"].

Definition tentative_date_cell (cols : dict ColMeta) (item : RawItem) : string :=
  find_column item cols ["tentative"; "expected close"].

Definition created_date_cell (cols : dict ColMeta) (item : RawItem) : string :=
  find_column item cols ["created"; "creation"].

(** A work-orders batch whose execution status names the partial category,
    and one whose link cell holds only blanks. *)
Definition partial_workorder_batch : list RawItem :=
  [ [("_item_name", "Survey"); ("w_exec", "Partially Completed");
     ("w_amount", "4L"); ("w_billed", "1L")] ].

Definition blank_link_batch : list RawItem :=
  [ [("_item_name", "Survey"); ("w_deal", "   "); ("w_exec", "Ongoing")] ].

(** The if/elif chain of [clean_workorders_df] on the normalized execution
    status. *)
Definition exec_category (exec_status : string) : string :=
  if contains exec_status "completed" then "Completed"
  else if contains exec_status "ongoing" || contains exec_status "executed until"
  then "Ongoing"
  else if contains exec_status "not started" then "Not Started"
  else if contains exec_status "pause" || contains exec_status "struck"
  then "Paused"
  else if contains exec_status "partial" then "Partially Completed"
  else if contains exec_status "pending" || contains exec_status "details pending"
  then "Pending"
  else "Unknown".

(** The values of [PROBABILITY_MAP]. *)
Definition PROBABILITIES : list float := [f0_80; f0_50; f0_25; f0].

(** A deals batch whose second item holds a JSON date that is a number. *)
Definition bad_date_batch : list RawItem :=
  [ [("_item_name", "A"); ("c_status", "Won"); ("c_value", "500000");
     ("c_close", "20/05/2026")];
    [("_item_name", "B"); ("c_status", "Open"); ("c_value", "20L");
     ("c_close", numeric_date_cell)] ].

(** A text that does not begin with a blank. *)
Definition starts_clean (s : string) : Prop :=
  match s with
  | EmptyString => True
  | String c _ => is_space c = false
  end.


(** ** Periods *)

(** The tokens [_filter_by_period] knows. *)
Definition PERIODS : list string := ["this_month"; "this_quarter"; "ytd"].

(** A calendar date at midnight, as [pd.to_datetime] gives for an ISO date:
    a month from 1 to 12 and a day that month has. *)
Definition is_date (t : Timestamp) : bool :=
  (1 <=? ts_month t) && (ts_month t <=? 12)
  && (1 <=? ts_day t) && (ts_day t <=? days_in_month (ts_year t) (ts_month t))
  && (ts_nanos t =? 0).

(** [pd.Timestamp(date.today())]: the clock's date at midnight. *)
Definition today_of (now : Timestamp) : Timestamp :=
  ts_of_date (ts_year now) (ts_month now) (ts_day now).

(** The frame with the period label of a result replaced. *)
Definition with_period_label (r : Revenue) (label : option string) : Revenue :=
  {| closed_total := closed_total r;
     closed_total_fmt := closed_total_fmt r;
     count := count r;
     by_sector := by_sector r;
     by_month := by_month r;
     summary := summary r;
     top_sector := top_sector r;
     top_sector_pct := top_sector_pct r;
     period_label := label |}.

(** The Won rows a revenue rollup looks at, and their totals by sector in
    the order of [by_sector]. *)
Definition revenue_rows (now : Timestamp) (deals_df : list DealRecord)
  (period : option string) : list DealRecord :=
  _filter_by_period now (won_rows deals_df) close_date period.

Definition sector_totals `{PyRuntime} (rows : list DealRecord) : dict float :=
  sort_values_desc (groupby_sum (map (fun r => (sector r, deal_value r)) rows)).

(** The mask of each branch of [_filter_by_period], row by row. *)
Definition period_mask (now : Timestamp) (period : string) (d : option Timestamp) : bool :=
  if String.eqb period "this_month" then
    match d with
    | Some d => (ts_year d =? ts_year now) && (ts_month d =? ts_month now)
    | None => false
    end
  else if String.eqb period "this_quarter" then
    match d with
    | Some d => ts_leb (fst (_current_quarter_bounds now)) d
                && ts_leb d (snd (_current_quarter_bounds now))
    | None => false
    end
  else if String.eqb period "ytd" then
    match d with
    | Some d => ts_leb (fy_start now) d
    | None => false
    end
  else true.


(** ** Pipeline and operations *)

(** The Open rows a pipeline rollup looks at. *)
Definition pipeline_rows (now : Timestamp) (deals_df : list DealRecord)
  (period : option string) : list DealRecord :=
  _filter_by_period now (open_rows deals_df) close_date period.

(** How many of the three probability bands hold a row. *)
Definition bands_holding (r : DealRecord) : nat :=
  (signal_count (high_band r) + signal_count (mid_band r)
   + signal_count (low_band r))%nat.

(** A frame of [n] active work orders. *)
Definition active_workorders (n : nat) : list WorkOrderRecord :=
  repeat (workorder_of "WO" "Alpha" "mining" 100000) n.

(** ** Caveats *)

(** A positive float or the positive infinity: neither a zero nor [NaN]. *)
Definition positive_float (f : float) : bool :=
  match f with
  | S754_finite false _ _ | S754_infinity false => true
  | _ => false
  end.

(** The keys [compute_caveats] writes, and the four a formatter reads. *)
Definition CAVEAT_KEYS : list string :=
  ["deals_missing_revenue_pct"; "deals_missing_sector_pct";
   "deals_missing_close_date_pct"; "deals_total";
   "wo_missing_amount_pct"; "wo_missing_sector_pct"; "wo_total"].

Definition SIGNAL_KEYS : list string :=
  ["deals_missing_revenue_pct"; "deals_missing_sector_pct";
   "deals_missing_close_date_pct"; "wo_missing_amount_pct"].

(** A deals frame and a work-orders frame in which nothing is missing. *)
Definition complete_deals : list DealRecord :=
  [ closed_deal; deal_of "Metro" "Open" "rail" 2000000 (Some (ts_of_date 2026 12 15)) ].

Definition complete_workorders : list WorkOrderRecord :=
  [ workorder_of "WO-1" "Alpha" "mining" 450000 ].

(** ** The agent's helpers *)

(** The months the quarter names of [q_names] stand for. *)
Definition quarter_months : list (Z * (Z * Z)) :=
  [(1, (4, 6)); (2, (7, 9)); (3, (10, 12)); (4, (1, 3))].

Definition INFERRED_INTENTS : list string :=
  ["revenue"; "operations"; "crossboard"; "pipeline"].

Definition chat (role content : string) : Message :=
  [("role", role); ("content", content)].

(** A message as [_format_history] emits it. *)
Definition is_formatted (msg : Message) : bool :=
  match msg with
  | [(k1, role); (k2, content)] =>
      String.eqb k1 "role" && String.eqb k2 "content"
      && (String.eqb role "user" || String.eqb role "assistant")
      && negb (String.eqb content "")
  | _ => false
  end.

(** ** Cells of the work-orders builder, and a day-first date *)

(** A work-orders batch whose amount without GST is blank. *)
Definition incl_only_schema : Schema :=
  {| board_name := "Work Orders";
     columns := Some [ ("w_excl", text_column "Amount in Rupees (Excl of GST) (Masked)");
                       ("w_incl", text_column "Amount in Rupees (Incl of GST) (Masked)") ] |}.

Definition incl_only_batch : list RawItem :=
  [ [("_item_name", "Survey"); ("w_excl", ""); ("w_incl", "1,18,000")] ].

(** A deals batch with a tentative date and no close date. *)
Definition tentative_schema : Schema :=
  {| board_name := "Deals";
     columns := Some [ ("c_close", text_column "Close Date (A)");
                       ("c_tent", text_column "Tentative Close Date") ] |}.

Definition tentative_batch : list RawItem :=
  [ [("_item_name", "A"); ("c_close", "soon"); ("c_tent", "2026-12-15")] ].

(** ** Amounts in shorthand *)

(** A digit or a comma. *)
Definition is_grouping (c : ascii) : bool := is_digit c || (code c =? 44).

(** A text of digits and commas with at least one digit. *)
Definition grouped_digits (body : string) : bool :=
  forallb is_grouping (list_ascii_of_string body)
  && existsb is_digit (list_ascii_of_string body).

(** Its digits, and the integer they spell. *)
Definition digits_of (body : string) : list ascii :=
  filter is_digit (list_ascii_of_string body).

Definition grouped_value (body : string) : Z := digits_value (digits_of body).

(** The suffixes [normalize_revenue] knows, in any case of their letters,
    with their multipliers; and currency signs its pattern removes. *)
Definition SHORTHANDS : list (string * float) :=
  [("", f1); ("k", f1e3); ("K", f1e3); ("l", f1e5); ("L", f1e5);
   ("cr", f1e7); ("Cr", f1e7); ("CR", f1e7); ("cR", f1e7)].

Definition CURRENCY_SIGNS : list string :=
  [""; "₹"; "$"; "€"; "£"; "Rs."; "INR"; "USD"; "EUR"].

(* ================================================================== *)
(** * Theorems                                                         *)
(* ================================================================== *)

Arguments normalize_revenue {L} v : simpl never.
Arguments normalize_date {L} v : simpl never.

(** ** The builders' loop *)

Section Loop.
Context {R : Type} (body : RawItem -> res (option R)).

(** The loop returns the records it was given followed by one row for each
    item the body does not skip, in order. *)
Lemma for_each_item_rows (raw_items : list RawItem) :
  forall records out,
    for_each_item body raw_items records = Ok out ->
    exists rows,
      out = List.app records rows /\
      Forall2 (fun item row => body item = Ok (Some row))
              (filter (fun item => match body item with
                                   | Ok None => false
                                   | _ => true
                                   end) raw_items)
              rows.
Proof.
  induction raw_items as [|item rest IH]; intros records out H; simpl in H.
  - inversion H; subst. exists []. split; [now rewrite app_nil_r | constructor].
  - simpl. destruct (body item) as [[r|]|e] eqn:E; simpl in H; try discriminate.
    + destruct (IH _ _ H) as (rows & -> & F).
      exists (r :: rows). split.
      * now rewrite <- app_assoc.
      * constructor; assumption.
    + apply IH. assumption.
Qed.

(** The loop completes when the body raises on no item. *)
Lemma for_each_item_completes (raw_items : list RawItem) :
  (forall item, In item raw_items -> exists row, body item = Ok row) ->
  forall records, exists out, for_each_item body raw_items records = Ok out.
Proof.
  induction raw_items as [|item rest IH]; intros H records; simpl.
  - eauto.
  - destruct (H item (or_introl eq_refl)) as [row ->]. simpl.
    destruct row; apply IH; intros; apply H; now right.
Qed.

End Loop.

(** ** Strings *)

Lemma lower_empty (s : string) : lower s = "" -> s = "".
Proof. destruct s; simpl; [reflexivity | discriminate]. Qed.

Lemma eqb_lower_empty (s : string) : String.eqb (lower s) "" = String.eqb s "".
Proof. destruct s; reflexivity. Qed.

(** ** The amount normalizer *)

Section Revenue.
Context {L : PyRuntime}.

(** On text the normalizer always returns a float: every failure inside is
    caught. *)
Lemma normalize_revenue_text_returns (s : string) :
  exists f, normalize_revenue (VStr s) = Ok f.
Proof.
  unfold normalize_revenue.
  destruct (String.eqb s ""); [eauto|].
  destruct (startswith (strip s) "{" || startswith (strip s) dquote).
  - destruct (json_loads (strip s)) as [[| b | z | f | t | l | kv]|];
      try destruct (float_of_int z);
      repeat match goal with
             | |- context [if ?c then _ else _] => destruct c
             | |- context [match py_float ?t with _ => _ end] => destruct (py_float t)
             end; eauto.
  - repeat match goal with
           | |- context [if ?c then _ else _] => destruct c
           | |- context [match py_float ?t with _ => _ end] => destruct (py_float t)
           end; eauto.
Qed.

End Revenue.

(** ** Rows of the deals builder *)

Section DealRows.
Context {L : PyRuntime}.

Lemma deal_row_skips (cols : dict ColMeta) (item : RawItem) :
  deal_item_dropped item = true -> deal_row cols item = Ok None.
Proof.
  unfold deal_item_dropped, deal_row, item_name. intros H.
  set (name := strip (get_or item "_item_name" "")) in *.
  simpl in_strs. rewrite eqb_lower_empty.
  destruct (String.eqb name ""); [reflexivity|].
  simpl in H. rewrite H. reflexivity.
Qed.

(** What a row holds when the body appends one. *)
Lemma deal_row_appends (cols : dict ColMeta) (item : RawItem) (row : Deal string) :
  deal_row cols item = Ok (Some row) ->
  deal_item_dropped item = false /\
  deal_name row = item_name item /\
  normalize_revenue (VStr (find_column item cols ["value"; "deal value"; "masked"]))
    = Ok (deal_value row) /\
  weighted_value row = fmul (deal_value row) (probability row).
Proof.
  unfold deal_item_dropped, deal_row, item_name.
  set (name := strip (get_or item "_item_name" "")).
  simpl in_strs. rewrite eqb_lower_empty.
  destruct (String.eqb name "") eqn:E1; [discriminate|].
  destruct (String.eqb (lower name) "deal name") eqn:E2; [discriminate|].
  simpl orb.
  destruct (normalize_revenue (VStr (find_column item cols ["value"; "deal value"; "masked"])))
    as [revenue|] eqn:ER; [|discriminate].
  simpl bind.
  destruct (or_else _ _) as [cd|]; [|discriminate]. simpl bind.
  destruct (normalize_date _) as [cr|]; [|discriminate]. simpl bind.
  intros H. inversion H; subst; clear H. simpl. auto.
Qed.

Lemma deal_row_skip_iff (cols : dict ColMeta) (item : RawItem) :
  (match deal_row cols item with Ok None => false | _ => true end)
  = negb (deal_item_dropped item).
Proof.
  destruct (deal_item_dropped item) eqn:D.
  - now rewrite (deal_row_skips cols item D).
  - destruct (deal_row cols item) as [[row|]|e] eqn:E; try reflexivity.
    exfalso. revert E D. unfold deal_item_dropped, deal_row, item_name.
    set (name := strip (get_or item "_item_name" "")).
    simpl in_strs. rewrite eqb_lower_empty.
    destruct (String.eqb name ""); [discriminate|].
    destruct (String.eqb (lower name) "deal name"); [discriminate|].
    simpl orb.
    destruct (normalize_revenue _); simpl bind; [|discriminate].
    destruct (or_else _ _); simpl bind; [|discriminate].
    destruct (normalize_date _); simpl bind; discriminate.
Qed.

(** The frame the deals builder returns: one record per item kept, each
    the date-converted row of its item, in the order of the items. *)
Lemma clean_deals_df_rows (raw_items : list RawItem) (schema : Schema)
  (df : list DealRecord) :
  clean_deals_df raw_items schema = Ok df ->
  exists rows,
    df = map deal_dates rows /\
    Forall2 (fun item row => deal_row (schema_columns schema) item = Ok (Some row))
            (filter (fun item => negb (deal_item_dropped item)) raw_items) rows.
Proof.
  unfold clean_deals_df. destruct raw_items as [|item rest].
  - intros H; inversion H. exists []. split; [reflexivity | constructor].
  - set (items := item :: rest).
    destruct (for_each_item _ items []) as [rows|] eqn:E; unfold bind; [|discriminate].
    intros H; inversion H; subst; clear H.
    destruct (for_each_item_rows _ _ _ _ E) as (rows' & -> & F).
    exists rows'. split; [reflexivity|].
    rewrite (filter_ext (fun item => negb (deal_item_dropped item))
               (fun item => match deal_row (schema_columns schema) item with
                            | Ok None => false
                            | _ => true
                            end)); [exact F|].
    intros a. symmetry. apply deal_row_skip_iff.
Qed.

End DealRows.

(** ** The normalizers and the deal status *)

(** C1.  The amount normalizer is meant never to raise, but the branch for
    numbers converts with a bare [float(value)]: on an [int] beyond the
    range of a float it raises [OverflowError] instead of returning 0. *)
Theorem normalize_revenue_int_overflow `{L : PyRuntime} :
  normalize_revenue (VInt (10 ^ 400)) = Raise OverflowError.
Proof. vm_compute. reflexivity. Qed.

(** The examples the specification documents for the amount normalizer:
    ["10k"] is 10000, ["₹1,20,000"] is 120000, ["2.5Cr"] is 25000000, and
    the empty text and [None] are 0. *)
Theorem normalize_revenue_examples `{L : PyRuntime} :
  normalize_revenue (VStr "10k") = Ok (float_of_Z 10000) /\
  normalize_revenue (VStr "₹1,20,000") = Ok (float_of_Z 120000) /\
  normalize_revenue (VStr "2.5Cr") = Ok (float_of_Z 25000000) /\
  normalize_revenue (VStr "") = Ok (float_of_Z 0) /\
  normalize_revenue VNone = Ok (float_of_Z 0).
Proof. repeat split; vm_compute; reflexivity. Qed.

(** X1.  On [None], on text and on a float the amount normalizer returns a
    number and raises nothing; text that does not parse gives 0. *)
Theorem normalize_revenue_total_off_int `{L : PyRuntime} :
  (exists f, normalize_revenue VNone = Ok f) /\
  (forall s, exists f, normalize_revenue (VStr s) = Ok f) /\
  (forall x, exists f, normalize_revenue (VFloat x) = Ok f) /\
  normalize_revenue (VStr "not a number") = Ok f0.
Proof.
  split; [|split; [|split]].
  - exists f0. reflexivity.
  - apply normalize_revenue_text_returns.
  - intros x. unfold normalize_revenue. destruct (is_nan x); eauto.
  - vm_compute. reflexivity.
Qed.

(** C4.  Deal status canonicalization follows the stated precedence: the
    code's cascade computes what the ordered rule table gives on the
    normalized status and stage (default ["Open"]); an explicit status
    [won], [dead] or [on hold] decides whatever the stage; and status
    ["won"] with any dead-stage keyword as stage gives ["Won"]. *)
Theorem map_deal_status_precedence (status stage : string) :
  map_deal_status status stage
    = status_by_precedence (normalize_text status) (normalize_text stage) /\
  (normalize_text status = "won" -> map_deal_status status stage = "Won") /\
  (normalize_text status = "dead" -> map_deal_status status stage = "Dead") /\
  (normalize_text status = "on hold" -> map_deal_status status stage = "On Hold") /\
  Forall (fun dead_stage => map_deal_status "won" dead_stage = "Won") DEAD_STAGES.
Proof.
  unfold map_deal_status, status_by_precedence, status_rules.
  set (s := normalize_text status). set (st := normalize_text stage).
  repeat split.
  - cbn [find fst snd].
    destruct (String.eqb s "won"); [reflexivity|].
    destruct (String.eqb s "dead"); [reflexivity|].
    destruct (String.eqb s "on hold"); [reflexivity|].
    destruct (in_strs st WON_STAGES); [reflexivity|].
    destruct (in_strs st DEAD_STAGES); [reflexivity|].
    destruct (in_strs st OPEN_STAGES); reflexivity.
  - intros ->. reflexivity.
  - intros ->. reflexivity.
  - intros ->. reflexivity.
  - repeat constructor.
Qed.

Lemma map_deal_status_precedence_witness :
  normalize_text " Won " = "won" /\ map_deal_status " Won " "L. Project Lost" = "Won".
Proof.
  split; [reflexivity|].
  apply (map_deal_status_precedence " Won " "L. Project Lost"). reflexivity.
Defined.

(** ** The deal records *)

(** C7.  In every record the deals builder emits, [weighted_value] is the
    float product of that record's [deal_value] and [probability]: the one
    place that writes the field computes it from the two. *)
Theorem weighted_value_is_product `{L : PyRuntime}
  (raw_items : list RawItem) (schema : Schema) (df : list DealRecord) :
  clean_deals_df raw_items schema = Ok df ->
  Forall (fun r => weighted_value r = fmul (deal_value r) (probability r)) df.
Proof.
  intros H. destruct (clean_deals_df_rows _ _ _ H) as (rows & -> & F).
  clear H. induction F as [|item row items rows Hrow F IH]; simpl.
  - constructor.
  - constructor; [|assumption].
    destruct (deal_row_appends _ _ _ Hrow) as (_ & _ & _ & W). exact W.
Qed.

Lemma weighted_value_is_product_witness :
  exists df,
    @clean_deals_df ref_runtime sample_deal_items sample_deals_schema = Ok df /\
    List.length df = 2%nat /\
    Forall (fun r => weighted_value r = fmul (deal_value r) (probability r)) df.
Proof.
  eexists. split; [vm_compute; reflexivity|]. split; [reflexivity|].
  apply (@weighted_value_is_product ref_runtime sample_deal_items sample_deals_schema).
  vm_compute. reflexivity.
Defined.

(** ** Rows of the work-orders builder *)

Section WorkOrderRows.
Context {L : PyRuntime}.

Lemma workorder_row_skips (cols : dict ColMeta) (item : RawItem) :
  workorder_item_dropped item = true -> workorder_row cols item = Ok None.
Proof.
  unfold workorder_item_dropped, workorder_row, item_name. intros ->. reflexivity.
Qed.

(** What a row holds when the body appends one. *)
Lemma workorder_row_appends (cols : dict ColMeta) (item : RawItem)
  (row : WorkOrder string) :
  workorder_row cols item = Ok (Some row) ->
  workorder_item_dropped item = false /\
  wo_name row = item_name item /\
  deal_name_linked row
    = (if String.eqb (find_column item cols ["deal name"; "deal"]) ""
       then item_name item
       else strip (find_column item cols ["deal name"; "deal"])) /\
  (exists excl,
      normalize_revenue
        (VStr (find_column item cols
                 ["amount in rupees (excl"; "excl of gst"; "excl. of gst"])) = Ok excl /\
      if feqb excl f0
      then normalize_revenue
             (VStr (find_column item cols ["amount in rupees (incl"; "incl of gst"]))
           = Ok (amount_excl_gst row)
      else amount_excl_gst row = excl) /\
  normalize_revenue
    (VStr (find_column item cols ["billed value in rupees (excl"; "billed value"]))
    = Ok (billed_excl_gst row).
Proof.
  unfold workorder_item_dropped, workorder_row, item_name.
  set (name := strip (get_or item "_item_name" "")).
  destruct (String.eqb name "") eqn:E1; [discriminate|].
  destruct (normalize_revenue
              (VStr (find_column item cols
                       ["amount in rupees (excl"; "excl of gst"; "excl. of gst"])))
    as [excl|] eqn:EX; [|discriminate].
  simpl bind.
  destruct (feqb excl f0) eqn:EZ.
  - destruct (normalize_revenue
                (VStr (find_column item cols ["amount in rupees (incl"; "incl of gst"])))
      as [incl|] eqn:EI; [|discriminate].
    simpl bind.
    destruct (normalize_revenue
                (VStr (find_column item cols
                         ["billed value in rupees (excl"; "billed value"])))
      as [billed|] eqn:EB; [|discriminate].
    simpl bind.
    destruct (normalize_date _) as [sd|]; [|discriminate]. simpl bind.
    destruct (normalize_date _) as [ed|]; [|discriminate]. simpl bind.
    intros H. inversion H; subst; clear H. simpl.
    repeat split; try reflexivity.
    exists excl. rewrite EZ. auto.
  - simpl bind.
    destruct (normalize_revenue
                (VStr (find_column item cols
                         ["billed value in rupees (excl"; "billed value"])))
      as [billed|] eqn:EB; [|discriminate].
    simpl bind.
    destruct (normalize_date _) as [sd|]; [|discriminate]. simpl bind.
    destruct (normalize_date _) as [ed|]; [|discriminate]. simpl bind.
    intros H. inversion H; subst; clear H. simpl.
    repeat split; try reflexivity.
    exists excl. rewrite EZ. auto.
Qed.

Lemma workorder_row_skip_iff (cols : dict ColMeta) (item : RawItem) :
  (match workorder_row cols item with Ok None => false | _ => true end)
  = negb (workorder_item_dropped item).
Proof.
  destruct (workorder_item_dropped item) eqn:D.
  - now rewrite (workorder_row_skips cols item D).
  - destruct (workorder_row cols item) as [[row|]|e] eqn:E; try reflexivity.
    exfalso. revert E D. unfold workorder_item_dropped, workorder_row, item_name.
    set (name := strip (get_or item "_item_name" "")).
    destruct (String.eqb name ""); [discriminate|].
    destruct (normalize_revenue _); simpl bind; [|discriminate].
    destruct (if feqb _ _ then _ else _); simpl bind; [|discriminate].
    destruct (normalize_revenue _); simpl bind; [|discriminate].
    destruct (normalize_date _); simpl bind; [|discriminate].
    destruct (normalize_date _); simpl bind; discriminate.
Qed.

Lemma clean_workorders_df_rows (raw_items : list RawItem) (schema : Schema)
  (df : list WorkOrderRecord) :
  clean_workorders_df raw_items schema = Ok df ->
  exists rows,
    df = map workorder_dates rows /\
    Forall2 (fun item row => workorder_row (schema_columns schema) item = Ok (Some row))
            (filter (fun item => negb (workorder_item_dropped item)) raw_items) rows.
Proof.
  unfold clean_workorders_df. destruct raw_items as [|item rest].
  - intros H; inversion H. exists []. split; [reflexivity | constructor].
  - set (items := item :: rest).
    destruct (for_each_item _ items []) as [rows|] eqn:E; unfold bind; [|discriminate].
    intros H; inversion H; subst; clear H.
    destruct (for_each_item_rows _ _ _ _ E) as (rows' & -> & F).
    exists rows'. split; [reflexivity|].
    rewrite (filter_ext (fun item => negb (workorder_item_dropped item))
               (fun item => match workorder_row (schema_columns schema) item with
                            | Ok None => false
                            | _ => true
                            end)); [exact F|].
    intros a. symmetry. apply workorder_row_skip_iff.
Qed.

End WorkOrderRows.

(** ** Braces and quotes *)

Lemma has_char_lstrip (k : Z) (s : string) :
  has_char k s = false -> has_char k (lstrip s) = false.
Proof.
  induction s as [|c r IH]; simpl; [reflexivity|].
  intros H. apply orb_false_iff in H. destruct H as [Hc Hr].
  destruct (is_space c); [now apply IH|]. simpl. now rewrite Hc, Hr.
Qed.

Lemma has_char_rstrip (k : Z) (s : string) :
  has_char k s = false -> has_char k (rstrip s) = false.
Proof.
  induction s as [|c r IH]; simpl; [reflexivity|].
  intros H. apply orb_false_iff in H. destruct H as [Hc Hr].
  specialize (IH Hr). destruct (rstrip r) as [|c' r'].
  - destruct (is_space c); simpl; [reflexivity | now rewrite Hc].
  - change (has_char k (String c (String c' r')) = false).
    simpl. simpl in IH. now rewrite Hc, IH.
Qed.

Lemma has_char_strip (k : Z) (s : string) :
  has_char k s = false -> has_char k (strip s) = false.
Proof. intros H. unfold strip. now apply has_char_rstrip, has_char_lstrip. Qed.

(** A text without a character does not start with it. *)
Lemma startswith_has_char (c : ascii) (s : string) :
  has_char (code c) s = false -> startswith s (String c "") = false.
Proof.
  unfold startswith. destruct s as [|d r]; [reflexivity|].
  simpl. intros H. apply orb_false_iff in H. destruct H as [Hc _].
  destruct (Ascii.ascii_dec c d) as [->|N]; [|reflexivity].
  rewrite Z.eqb_refl in Hc. discriminate Hc.
Qed.

(** ** Cells and dates *)

Lemma dict_get_In {A : Type} (d : dict A) (k : string) (v : A) :
  dict_get d k = Some v -> In (k, v) d.
Proof.
  induction d as [|[k' v'] r IH]; simpl; [discriminate|].
  destruct (String.eqb k' k) eqn:E.
  - apply String.eqb_eq in E. intros H; inversion H; subst. now left.
  - intros H. right. now apply IH.
Qed.

(** A resolved cell is the empty text or a cell of the item. *)
Lemma find_column_cell (item : RawItem) (cols : dict ColMeta) (keywords : list string) :
  find_column item cols keywords = "" \/
  exists k, In (k, find_column item cols keywords) item.
Proof.
  induction cols as [|[col_id meta] rest IH]; simpl; [now left|].
  destruct (existsb _ _); [|exact IH].
  unfold get_or. destruct (dict_get item col_id) as [v|] eqn:E; [|now left].
  right. exists col_id. now apply dict_get_In.
Qed.

Section Dates.
Context {L : PyRuntime}.

(** A cell that is not the text of a JSON object never makes the date
    normalizer raise. *)
Lemma normalize_date_plain (v : string) :
  startswith (strip v) "{" = false -> exists d, normalize_date v = Ok d.
Proof.
  unfold normalize_date. intros ->. destruct (String.eqb v ""); eauto.
Qed.

Lemma normalize_date_cell (item : RawItem) (cols : dict ColMeta)
  (keywords : list string) :
  no_json_object item = true ->
  exists d, normalize_date (find_column item cols keywords) = Ok d.
Proof.
  intros H. destruct (find_column_cell item cols keywords) as [-> | [k Hin]].
  - exists None. reflexivity.
  - apply normalize_date_plain.
    unfold no_json_object in H. rewrite forallb_forall in H.
    specialize (H _ Hin). simpl in H. apply negb_true_iff in H.
    apply (startswith_has_char "{"). now apply has_char_strip.
Qed.

Lemma deal_row_completes (cols : dict ColMeta) (item : RawItem) :
  no_json_object item = true -> exists row, deal_row cols item = Ok row.
Proof.
  intros H. unfold deal_row.
  destruct (_ || _); [eauto|].
  destruct (normalize_revenue_text_returns
              (find_column item cols ["value"; "deal value"; "masked"])) as [f ->].
  simpl bind. unfold or_else.
  destruct (normalize_date_cell item cols
              ["close date"; "actual close"; "close date (a)"] H) as [d1 ->].
  destruct (normalize_date_cell item cols ["tentative"; "expected close"] H) as [d2 E2].
  destruct (normalize_date_cell item cols ["created"; "creation"] H) as [d3 E3].
  simpl bind. destruct d1; simpl bind; rewrite ?E2, ?E3; simpl bind; eauto.
Qed.

Lemma workorder_row_completes (cols : dict ColMeta) (item : RawItem) :
  no_json_object item = true -> exists row, workorder_row cols item = Ok row.
Proof.
  intros H. unfold workorder_row.
  destruct (String.eqb _ _); [eauto|].
  destruct (normalize_revenue_text_returns
              (find_column item cols
                 ["amount in rupees (excl"; "excl of gst"; "excl. of gst"])) as [a ->].
  destruct (normalize_revenue_text_returns
              (find_column item cols ["amount in rupees (incl"; "incl of gst"]))
    as [b Eb].
  destruct (normalize_revenue_text_returns
              (find_column item cols ["billed value in rupees (excl"; "billed value"]))
    as [c Ec].
  destruct (normalize_date_cell item cols
              ["probable start"; "start date"; "date of po"] H) as [d1 E1].
  destruct (normalize_date_cell item cols
              ["probable end"; "end date"; "delivery date"] H) as [d2 E2].
  simpl bind. destruct (feqb a f0); rewrite ?Eb; simpl bind;
    rewrite Ec; simpl bind; rewrite E1; simpl bind; rewrite E2; simpl bind; eauto.
Qed.

End Dates.

(** ** Lists *)

Lemma Forall2_In_left {A B : Type} (R : A -> B -> Prop) (l1 : list A) (l2 : list B) :
  Forall2 R l1 l2 -> forall x, In x l1 -> exists y, In y l2 /\ R x y.
Proof.
  induction 1 as [|a b l1 l2 Hab F IH]; intros x Hx; simpl in Hx; [contradiction|].
  destruct Hx as [<- | Hx].
  - exists b. split; [now left | assumption].
  - destruct (IH x Hx) as (y & Hy & Rxy). exists y. split; [now right | assumption].
Qed.

Lemma Forall2_map_eq {A B C : Type} (f : A -> C) (g : B -> C)
  (l1 : list A) (l2 : list B) :
  Forall2 (fun a b => g b = f a) l1 l2 -> map g l2 = map f l1.
Proof.
  induction 1 as [|a b l1 l2 Hab F IH]; simpl; [reflexivity|].
  now rewrite Hab, IH.
Qed.

Lemma in_strs_In (x : string) (l : list string) : in_strs x l = true <-> In x l.
Proof.
  unfold in_strs. rewrite existsb_exists. split.
  - intros (y & Hy & E). apply String.eqb_eq in E. now subst.
  - intros H. exists x. split; [assumption | apply String.eqb_refl].
Qed.

(** ** The record builders *)

(** What each builder does keep.  The deals builder drops an item exactly
    when its name, trimmed of surrounding whitespace, is empty or is
    [deal name] whatever the case of its letters; the work-orders builder
    drops an item exactly when its trimmed name is empty.  Every other
    item gives exactly one record, named by the trimmed item name, in the
    order of the items; and a build completes whenever no cell has a
    brace, so that none is the text of a JSON object. *)
Theorem builders_drop_by_item_name `{L : PyRuntime}
  (raw_items : list RawItem) (schema : Schema) :
  (forall df, clean_deals_df raw_items schema = Ok df ->
     map deal_name df
       = map item_name (filter (fun item => negb (deal_item_dropped item)) raw_items)) /\
  (forall df, clean_workorders_df raw_items schema = Ok df ->
     map wo_name df
       = map item_name
           (filter (fun item => negb (workorder_item_dropped item)) raw_items)) /\
  (forallb no_json_object raw_items = true ->
     (exists df, clean_deals_df raw_items schema = Ok df) /\
     (exists df, clean_workorders_df raw_items schema = Ok df)).
Proof.
  split; [|split].
  - intros df H. destruct (clean_deals_df_rows _ _ _ H) as (rows & -> & F).
    rewrite map_map. change (fun x => deal_name (deal_dates x)) with (@deal_name string).
    apply Forall2_map_eq. eapply Forall2_impl; [|exact F].
    intros item row Hrow. now destruct (deal_row_appends _ _ _ Hrow) as (_ & N & _).
  - intros df H. destruct (clean_workorders_df_rows _ _ _ H) as (rows & -> & F).
    rewrite map_map. change (fun x => wo_name (workorder_dates x)) with (@wo_name string).
    apply Forall2_map_eq. eapply Forall2_impl; [|exact F].
    intros item row Hrow. now destruct (workorder_row_appends _ _ _ Hrow) as (_ & N & _).
  - intros H. rewrite forallb_forall in H. split.
    + unfold clean_deals_df. destruct raw_items as [|item rest]; [eauto|].
      destruct (for_each_item_completes (deal_row (schema_columns schema)) (item :: rest))
        with (records := @nil (Deal string)) as [out E].
      * intros it Hit. apply deal_row_completes. now apply H.
      * rewrite E. unfold bind. eauto.
    + unfold clean_workorders_df. destruct raw_items as [|item rest]; [eauto|].
      destruct (for_each_item_completes (workorder_row (schema_columns schema))
                  (item :: rest))
        with (records := @nil (WorkOrder string)) as [out E].
      * intros it Hit. apply workorder_row_completes. now apply H.
      * rewrite E. unfold bind. eauto.
Qed.

Lemma builders_drop_by_item_name_witness :
  forallb no_json_object sample_deal_items = true /\
  (exists df,
     @clean_deals_df ref_runtime sample_deal_items sample_deals_schema = Ok df /\
     map deal_name df = ["Alpha"; "Beta"]).
Proof.
  split; [reflexivity|].
  destruct (@builders_drop_by_item_name ref_runtime sample_deal_items sample_deals_schema)
    as (Hnames & _ & Hdone).
  destruct Hdone as [[df Hdf] _]; [reflexivity|].
  exists df. split; [exact Hdf|].
  rewrite (Hnames df Hdf). reflexivity.
Defined.

(** C9.  The deals builder skips header-like rows; the work-orders
    builder misses that test.  An item named with the header text
    [deal name] is dropped by the deals builder and kept by the
    work-orders builder, which makes a record of it, on the reference
    runtime and on any other. *)
Lemma workorders_keep_header_named_item :
  @clean_deals_df ref_runtime header_batch sample_deals_schema = Ok [] /\
  (exists w,
     @clean_workorders_df ref_runtime header_batch sample_workorders_schema = Ok [w] /\
     wo_name w = "deal name") /\
  ~ (exists L : PyRuntime,
       @clean_workorders_df L header_batch sample_workorders_schema = Ok []).
Proof.
  split; [vm_compute; reflexivity|]. split.
  - eexists. split; [vm_compute; reflexivity | reflexivity].
  - intros [L H]. vm_compute in H. discriminate H.
Qed.

(** ** Integer division never overflows on a bounded ratio *)

Lemma digits2_pos_size (p : positive) : digits2_pos p = Pos.size p.
Proof. induction p; simpl; congruence. Qed.

Lemma Zdigits2_log2 (p : positive) : Zdigits2 (Zpos p) = Z.log2 (Zpos p) + 1.
Proof.
  destruct p as [q|q|]; simpl; rewrite ?digits2_pos_size; lia.
Qed.

Lemma Zdigits2_nonneg (m : Z) : 0 <= Zdigits2 m.
Proof. destruct m; simpl; lia. Qed.

(** [m < 2 ^ k] bounds the number of binary digits of [m] by [k]. *)
Lemma Zdigits2_le (m k : Z) : 0 <= m -> 0 <= k -> m < 2 ^ k -> Zdigits2 m <= k.
Proof.
  intros Hm Hk H. destruct m as [|p|p]; [simpl; lia | | lia].
  rewrite Zdigits2_log2.
  assert (Z.log2 (Zpos p) < k) by (apply Z.log2_lt_pow2; lia). lia.
Qed.

Lemma Zdigits2_gt (m : Z) : 0 <= m -> m < 2 ^ Zdigits2 m.
Proof.
  intros Hm. destruct m as [|p|p]; [simpl; lia | | lia].
  rewrite Zdigits2_log2. apply Z.log2_spec. lia.
Qed.

Lemma shr_1_m (mrs : shr_record) : 0 <= shr_m mrs -> shr_m (shr_1 mrs) = shr_m mrs / 2.
Proof.
  destruct mrs as [m r s]. simpl. intros Hm.
  destruct m as [|[p|p|]|p]; cbn [shr_m]; try lia.
  - reflexivity.
  - apply Z.div_unique with (r := 1); lia.
  - apply Z.div_unique with (r := 0); lia.
  - reflexivity.
Qed.

Lemma iter_pos_shr_m (n : positive) :
  forall mrs, 0 <= shr_m mrs ->
    shr_m (iter_pos shr_1 n mrs) = shr_m mrs / 2 ^ Zpos n.
Proof.
  induction n as [n IH|n IH|]; intros mrs Hm; simpl iter_pos.
  - assert (E : 2 ^ Zpos n~1 = 2 * 2 ^ Zpos n * 2 ^ Zpos n).
    { rewrite <- Z.mul_assoc, <- Z.pow_add_r, <- Z.pow_succ_r by lia. f_equal. lia. }
    assert (H1 : 0 <= shr_m (shr_1 mrs)).
    { rewrite shr_1_m by assumption. apply Z.div_pos; lia. }
    assert (H2 : 0 <= shr_m (iter_pos shr_1 n (shr_1 mrs))).
    { rewrite IH by assumption.
      apply Z.div_pos; [assumption | apply Z.pow_pos_nonneg; lia]. }
    rewrite IH by assumption. rewrite IH by assumption. rewrite shr_1_m by assumption.
    rewrite !Z.div_div by (try apply Z.pow_pos_nonneg; lia).
    rewrite E. f_equal; ring.
  - assert (E : 2 ^ Zpos n~0 = 2 ^ Zpos n * 2 ^ Zpos n).
    { rewrite <- Z.pow_add_r by lia. f_equal. lia. }
    assert (H2 : 0 <= shr_m (iter_pos shr_1 n mrs)).
    { rewrite IH by assumption.
      apply Z.div_pos; [assumption | apply Z.pow_pos_nonneg; lia]. }
    rewrite IH by assumption. rewrite IH by assumption.
    rewrite !Z.div_div by (try apply Z.pow_pos_nonneg; lia).
    rewrite E. f_equal; ring.
  - rewrite shr_1_m by assumption. reflexivity.
Qed.

(** After the first shift of [binary_round_aux]: the mantissa is not
    negative, the exponent did not drop, and the value did not grow. *)
Lemma shr_fexp_bounds (m e : Z) (l : location) :
  0 <= m ->
  let '(mrs, e') := shr_fexp 53 1024 m e l in
  0 <= shr_m mrs /\
  e <= e' /\
  e' <= Z.max e (Z.max (Zdigits2 m + e - 53) (-1074)) /\
  shr_m mrs = m / 2 ^ (e' - e).
Proof.
  intros Hm. unfold shr_fexp, shr, fexp, emin.
  set (n := Z.max (Zdigits2 m + e - 53) (3 - 1024 - 53) - e).
  assert (R : shr_m (shr_record_of_loc m l) = m) by (destruct l as [|[]]; reflexivity).
  destruct n as [|p|p] eqn:En.
  - rewrite R. replace (e - e) with 0 by lia. rewrite Z.div_1_r. lia.
  - rewrite iter_pos_shr_m by (rewrite R; assumption). rewrite R.
    replace (e + Zpos p - e) with (Zpos p) by lia.
    split; [apply Z.div_pos; [assumption | apply Z.pow_pos_nonneg; lia]|]. lia.
  - rewrite R. replace (e - e) with 0 by lia. rewrite Z.div_1_r. lia.
Qed.

Lemma round_nearest_even_bounds (m : Z) (l : location) :
  0 <= m -> m <= round_nearest_even m l <= m + 1.
Proof. intros Hm. destruct l as [|[]]; simpl; try destruct (Z.even m); lia. Qed.

(** Rounding a mantissa that is not negative and whose value is below
    2 ^ 1023 never gives an infinity. *)
Lemma binary_round_aux_finite (s : bool) (m e : Z) (l : location) :
  0 <= m -> e <= 971 -> Zdigits2 m + e <= 1023 ->
  forall s', binary_round_aux 53 1024 s m e l <> S754_infinity s'.
Proof.
  intros Hm He Hd s'. unfold binary_round_aux.
  pose proof (shr_fexp_bounds m e l Hm) as B1.
  destruct (shr_fexp 53 1024 m e l) as [mrs1 e1].
  destruct B1 as (M1 & E1lo & E1hi & V1).
  set (m1 := round_nearest_even (shr_m mrs1) (loc_of_shr_record mrs1)).
  pose proof (round_nearest_even_bounds (shr_m mrs1) (loc_of_shr_record mrs1) M1) as R1.
  fold m1 in R1.
  assert (Hm1 : 0 <= m1) by lia.
  pose proof (shr_fexp_bounds m1 e1 loc_Exact Hm1) as B2.
  destruct (shr_fexp 53 1024 m1 e1 loc_Exact) as [mrs2 e2].
  destruct B2 as (M2 & E2lo & E2hi & V2).
  destruct (shr_m mrs2); try discriminate.
  assert (D1 : Zdigits2 m1 + e1 <= Z.max (Zdigits2 m + e + 1) (e1 + 1)).
  { destruct (Z.le_gt_cases (e1 - e) (Zdigits2 m)) as [Hle|Hgt].
    - (* the shifted mantissa keeps [Zdigits2 m - (e1 - e)] digits *)
      assert (shr_m mrs1 < 2 ^ (Zdigits2 m - (e1 - e))).
      { rewrite V1. apply Z.div_lt_upper_bound; [apply Z.pow_pos_nonneg; lia|].
        rewrite <- Z.pow_add_r by lia.
        replace (e1 - e + (Zdigits2 m - (e1 - e))) with (Zdigits2 m) by lia.
        now apply Zdigits2_gt. }
      assert (m1 < 2 ^ (Zdigits2 m - (e1 - e) + 1)).
      { rewrite Z.pow_add_r by lia. change (2 ^ 1) with 2.
        assert (0 < 2 ^ (Zdigits2 m - (e1 - e))) by (apply Z.pow_pos_nonneg; lia).
        lia. }
      assert (Zdigits2 m1 <= Zdigits2 m - (e1 - e) + 1) by (apply Zdigits2_le; lia).
      lia.
    - (* everything was shifted out *)
      assert (shr_m mrs1 = 0).
      { rewrite V1. apply Z.div_small. split; [assumption|].
        apply Z.lt_le_trans with (2 ^ Zdigits2 m); [now apply Zdigits2_gt|].
        apply Z.pow_le_mono_r; lia. }
      assert (Zdigits2 m1 <= 1) by (apply Zdigits2_le; simpl; lia).
      lia. }
  destruct (Z.leb_spec e2 (1024 - 53)); [discriminate | lia].
Qed.

(** The quotient of two positive integers whose ratio is below 2 ^ 1022
    rounds to a finite float. *)
Lemma float_of_ratio_finite (s : bool) (n d : positive) (k : Z) :
  0 <= k -> k <= 1022 -> Zpos n <= 2 ^ k * Zpos d ->
  forall s', float_of_ratio s n d <> S754_infinity s'.
Proof.
  intros Hk Hk' Hnd s'. unfold float_of_ratio, fdiv, SFdiv, SFdiv_core_binary.
  set (e' := Z.min (fexp 53 1024 (Zdigits2 (Zpos n) + 0 - (Zdigits2 (Zpos d) + 0))) (0 - 0)).
  assert (He' : e' <= 0) by (unfold e'; lia).
  set (m' := match 0 - 0 - e' with
             | Zpos _ => Z.shiftl (Zpos n) (0 - 0 - e')
             | Z0 => Zpos n
             | Zneg _ => 0
             end).
  assert (Hm' : m' = Zpos n * 2 ^ (- e')).
  { unfold m'. replace (0 - 0 - e') with (- e') by lia.
    destruct (- e') as [|p|p] eqn:E; [simpl; lia | | lia].
    rewrite Z.shiftl_mul_pow2 by lia. reflexivity. }
  pose proof (Z.div_eucl_eq m' (Zpos d)) as Hdiv.
  pose proof (Z.mod_pos_bound m' (Zpos d)) as Hmod.
  unfold Z.modulo in Hmod.
  destruct (Z.div_eucl m' (Zpos d)) as [q r].
  assert (P : 0 < 2 ^ (- e')) by (apply Z.pow_pos_nonneg; lia).
  assert (Hr : 0 <= r < Zpos d) by (apply Hmod; lia).
  assert (Hq : Zpos d * q + r = m') by (symmetry; apply Hdiv; lia).
  assert (Hq0 : 0 <= q) by nia.
  assert (Hqk : q < 2 ^ (k - e' + 1)).
  { replace (k - e' + 1) with (k + (- e') + 1) by lia.
    rewrite !Z.pow_add_r by lia. change (2 ^ 1) with 2.
    assert (0 < 2 ^ k) by (apply Z.pow_pos_nonneg; lia).
    assert (Zpos d * q <= 2 ^ k * Zpos d * 2 ^ (- e')) by nia.
    nia. }
  apply binary_round_aux_finite; [assumption | lia |].
  assert (Zdigits2 q <= k - e' + 1) by (apply Zdigits2_le; lia).
  lia.
Qed.

(** Integer true division does not overflow when the quotient is at most
    2 ^ 1022 in magnitude; here for operands that are not negative. *)
Lemma int_truediv_returns (a b k : Z) :
  0 <= a -> 0 < b -> 0 <= k -> k <= 1022 -> a <= 2 ^ k * b ->
  exists q, int_truediv a b = Ok q.
Proof.
  intros Ha Hb Hk Hk' Hab. destruct a as [|n|n], b as [|d|d]; try lia; simpl.
  - eauto.
  - pose proof (float_of_ratio_finite false n d k Hk Hk' Hab) as F.
    destruct (float_of_ratio false n d) as [s|s| |s m e]; eauto.
    now contradiction (F s).
Qed.

Lemma percentage_returns (num den : Z) :
  0 <= num <= den -> exists x, percentage num den = Ok x.
Proof.
  intros H. unfold percentage. destruct (Z.ltb_spec 0 den) as [Hd|Hd]; [|eauto].
  destruct (int_truediv_returns (100 * num) den 7) as [q ->]; try lia.
  simpl. eauto.
Qed.

(** ** Signs of floats *)







(** ** Minus signs in text *)












(** ** Subsequences *)



Lemma subseq_of_nil (p : string) : subseq p "" = true -> p = "".
Proof. destruct p; [reflexivity | discriminate]. Qed.

Lemma subseq_tail_skip (s : string) :
  (forall x p, subseq (String x p) s = true -> subseq p s = true) /\
  (forall z p, subseq p s = true -> subseq p (String z s) = true).
Proof.
  induction s as [|y s [IHt IHs]]; split.
  - intros x p H. discriminate H.
  - intros z p H. apply subseq_of_nil in H. subst p. reflexivity.
  - intros x p H. simpl in H. destruct (Ascii.eqb x y).
    + now apply IHs.
    + apply IHs. now apply (IHt x).
  - intros z p H. destruct p as [|x p]; [reflexivity|].
    change (subseq (String x p) (String z (String y s)))
      with (if Ascii.eqb x z then subseq p (String y s)
            else subseq (String x p) (String y s)).
    destruct (Ascii.eqb x z); [|exact H].
    simpl in H. destruct (Ascii.eqb x y).
    + now apply IHs.
    + apply IHs. now apply (IHt x).
Qed.

Lemma subseq_tail (x : ascii) (p s : string) :
  subseq (String x p) s = true -> subseq p s = true.
Proof. apply subseq_tail_skip. Qed.















(** ** Where [NaN] can come from *)










Section UnsignedRevenue.
Context {L : PyRuntime}.


End UnsignedRevenue.


(** ** The amounts *)



(** The cell [NaN] has no minus sign, brace or quote and gives [NaN],
    which is not at least 0. *)
Example nan_cell_gives_nan_amount `{L : PyRuntime} :
  unsigned_plain "NaN" = true /\
  spells_nan "NaN" = true /\
  normalize_revenue (VStr "NaN") = Ok S754_nan /\
  fleb f0 S754_nan = false.
Proof. repeat split; vm_compute; reflexivity. Qed.


(** ** The period filter and the revenue rollup *)

(** C2.  The [ytd] filter has a lower bound only: at the clock 3 November
    2026 a row dated 1 June 2027 lies after now, and the filter retains
    it next to a row of May 2026, though a year to date ends now. *)
Theorem ytd_filter_keeps_future_rows :
  ts_leb (ts_of_date 2027 6 1) clock = false /\
  close_date future_deal = Some (ts_of_date 2027 6 1) /\
  _filter_by_period clock [closed_deal; future_deal; open_deal] close_date (Some "ytd")
    = [closed_deal; future_deal].
Proof. repeat split. Qed.

(** X2.  What the [ytd] filter does retain: exactly the rows whose date is not
    null and is on or after April 1 of the current financial year. *)
Theorem ytd_filter_from_fy_start {A : Type} (now : Timestamp) (df : list A)
  (date_col : A -> option Timestamp) (row : A) :
  In row (_filter_by_period now df date_col (Some "ytd")) <->
  In row df /\ exists d, date_col row = Some d /\ ts_leb (fy_start now) d = true.
Proof.
  assert (E : fy_start now
              = ts_of_date (if 4 <=? ts_month now
                            then ts_year now else ts_year now - 1) 4 1).
  { unfold fy_start. destruct (Z.ltb_spec (ts_month now) 4), (Z.leb_spec 4 (ts_month now));
      try reflexivity; lia. }
  rewrite E. unfold _filter_by_period. destruct df as [|a df'].
  - simpl. tauto.
  - cbn [String.eqb Ascii.eqb Bool.eqb]. simpl String.eqb.
    rewrite filter_In. split.
    + intros [Hin Hd]. split; [assumption|].
      destruct (date_col row) as [d|]; [|discriminate]. eauto.
    + intros [Hin (d & Hd & Hle)]. split; [assumption|]. now rewrite Hd.
Qed.

Section RevenueRollup.
Context {L : PyRuntime}.

(** The Won subset the rollup works on is the period filter applied to the
    Won rows, also when the period is absent or empty. *)
Lemma revenue_won_subset (now : Timestamp) (deals_df : list DealRecord)
  (period : option string) :
  match period with
  | None | Some EmptyString => won_rows deals_df
  | Some _ => _filter_by_period now (won_rows deals_df) close_date period
  end = _filter_by_period now (won_rows deals_df) close_date period.
Proof.
  destruct period as [[|c p]|]; try reflexivity.
  unfold _filter_by_period. destruct (won_rows deals_df); reflexivity.
Qed.

(** C6.  The revenue rollup returns the error dictionary exactly when the
    deals frame it is given is empty; on a frame that is not empty but
    whose Won rows, after the period filter, are none, it returns a result
    with [closed_total = 0], [count = 0] and empty breakdowns.  It raises
    in neither case: it is a total function. *)
Theorem revenue_error_iff_empty (now : Timestamp) (deals_df : list DealRecord)
  (period : option string) :
  ((exists msg, revenue_analytics now deals_df period = Error msg) <-> deals_df = []) /\
  (deals_df <> [] ->
   _filter_by_period now (won_rows deals_df) close_date period = [] ->
   exists r,
     revenue_analytics now deals_df period = Result r /\
     closed_total r = NInt 0 /\ count r = 0 /\ by_sector r = [] /\ by_month r = []).
Proof.
  unfold revenue_analytics. destruct deals_df as [|d rest].
  - split.
    + split; [reflexivity | intros _; eauto].
    + intros H. now contradiction H.
  - set (df := d :: rest). cbv zeta.
    rewrite (revenue_won_subset now df period).
    destruct (_filter_by_period now (won_rows df) close_date period) as [|w ws].
    + split.
      * split; [intros [msg H]; discriminate H | discriminate].
      * intros _ _. eexists. split; [reflexivity|]. repeat split.
    + split.
      * split; [intros [msg H]; discriminate H | discriminate].
      * intros _ H. discriminate H.
Qed.

End RevenueRollup.

Lemma revenue_error_iff_empty_witness :
  [open_deal; future_deal] <> [] /\
  _filter_by_period clock (won_rows [open_deal]) close_date (Some "ytd") = [] /\
  exists r,
    @revenue_analytics ref_runtime clock [open_deal] (Some "ytd") = Result r /\
    count r = 0.
Proof.
  split; [discriminate|]. split; [reflexivity|].
  destruct (@revenue_error_iff_empty ref_runtime clock [open_deal] (Some "ytd"))
    as [_ H].
  destruct H as (r & Hr & _ & Hc & _); [discriminate | reflexivity |].
  exists r. split; assumption.
Defined.

(** ** The leadership report *)

(** C5.  The leadership report misses the close-date signal that
    [format_caveats_text] prints: with half of the deals missing a close
    date (50 > 20) and no other signal over its threshold, the rendered
    report has no caveats section on any runtime, while
    [format_caveats_text] gives the close-date caveat for the same
    dictionary. *)
Lemma leadership_report_ignores_close_date :
  num_gt (get_or close_date_caveats "deals_missing_close_date_pct" (NInt 0)) 20 = true /\
  ~ (exists L : PyRuntime,
       In caveats_heading
          (@leadership_lines L (sample_update (Some close_date_caveats)))) /\
  @format_caveats_text ref_runtime close_date_caveats
    = "⚠️ 50.0% of deals have no close date — time-based filters may miss some deals.".
Proof.
  split; [reflexivity|]. split.
  - intros [L H]. vm_compute in H.
    repeat (destruct H as [H|H]; [discriminate H|]). exact H.
  - vm_compute. reflexivity.
Qed.

Section Report.
Context {L : PyRuntime}.

Lemma caveat_notes_empty_iff (dq : Caveats) :
  caveat_notes dq = [] <-> report_signal_over dq = false.
Proof.
  unfold caveat_notes, report_signal_over.
  destruct (num_gt (get_or dq "deals_missing_revenue_pct" (NInt 0)) 10);
    destruct (num_gt (get_or dq "deals_missing_sector_pct" (NInt 0)) 10);
    destruct (num_gt (get_or dq "wo_missing_amount_pct" (NInt 0)) 10);
    simpl; split; intros H; try reflexivity; discriminate H.
Qed.

(** The heading of the caveats section is a line of the leadership report
    exactly when the caveats dictionary is there and one of the three
    signals the report reads is over 10. *)
Lemma leadership_heading_iff (update : Update) :
  In caveats_heading (leadership_lines update) <->
  exists dq, data_quality update = Some dq /\ report_signal_over dq = true.
Proof.
  unfold leadership_lines. cbv zeta.
  assert (Base : forall tail,
    In caveats_heading
      (List.app
        (List.app
          (List.app
            (List.app
              match pipeline_by_sector (pipeline update) with
              | [] =>
                  ["## 📊 " ++ title update;
                   "*Generated: " ++ generated_at update ++ "*";
                   "";
                   "### 💰 Pipeline";
                   "- **Total Open Pipeline:** " ++ total_open_pipeline (pipeline update);
                   "- **Weighted Pipeline:** " ++ weighted_pipeline (pipeline update);
                   "- **Closing This Quarter:** "
                     ++ closing_this_quarter (pipeline update)]
              | p :: items =>
                  List.app
                    (List.app
                      ["## 📊 " ++ title update;
                       "*Generated: " ++ generated_at update ++ "*";
                       "";
                       "### 💰 Pipeline";
                       "- **Total Open Pipeline:** "
                         ++ total_open_pipeline (pipeline update);
                       "- **Weighted Pipeline:** " ++ weighted_pipeline (pipeline update);
                       "- **Closing This Quarter:** "
                         ++ closing_this_quarter (pipeline update)]
                      ["- **By Sector:**"])
                    (map (fun kv => "  - " ++ str_title (fst kv) ++ ": " ++ snd kv)
                         (firstn 5 (p :: items)))
              end
              ["";
               "### 📈 Revenue (YTD)";
               "- **Closed Revenue:** " ++ closed_ytd (revenue update);
               "- **Top Sector:** " ++ str_title (revenue_top_sector (revenue update))
                 ++ " (" ++ str_of_number (top_sector_share_pct (revenue update))
                 ++ "% of closed revenue)"])
            ["";
             "### 🔧 Operations";
             "- **Active Work Orders:** "
               ++ str_of_number (active_work_orders (operations update));
             "- **Completed Work Orders:** "
               ++ str_of_number (completed_work_orders (operations update));
             "- **Unbilled Backlog:** " ++ backlog_value (operations update);
             "- **Operational Risk:** " ++ operational_risk (operations update)
               ++ " — " ++ risk_note (operations update)])
          ["";
           "### 🔄 Conversion";
           "- **Deal Win Rate:** "
             ++ str_of_number (won_to_total_rate_pct (conversion update)) ++ "%";
           "- **Won → Work Order Coverage:** "
             ++ str_of_number (coverage_rate_pct (conversion update)) ++ "%"])
        tail) <-> In caveats_heading tail).
  { intros tail. rewrite !in_app_iff. unfold caveats_heading.
    split; [|tauto].
    destruct (pipeline_by_sector (pipeline update)) as [|p items];
      rewrite ?in_app_iff; simpl In; intros H;
      repeat match goal with
             | H : _ \/ _ |- _ => destruct H as [H|H]
             | H : False |- _ => contradiction H
             | H : _ = String _ _ |- _ => discriminate H
             | H : In _ (map _ _) |- _ =>
                 apply in_map_iff in H; destruct H as (? & H & _)
             end; assumption. }
  destruct (data_quality update) as [dq|].
  - destruct dq as [|kv dq'].
    + rewrite <- (app_nil_r (List.app _ _)), Base. simpl. split; [tauto|].
      intros (dq & Hdq & Hs). inversion Hdq; subst. discriminate Hs.
    + set (dq := kv :: dq').
      destruct (caveat_notes dq) as [|note notes] eqn:N.
      * rewrite <- (app_nil_r (List.app _ _)), Base. simpl. split; [tauto|].
        intros (dq0 & Hdq & Hs). inversion Hdq; subst dq0.
        apply caveat_notes_empty_iff in N. rewrite N in Hs. discriminate Hs.
      * rewrite <- app_assoc, Base. split.
        -- intros _. exists dq. split; [reflexivity|].
           destruct (report_signal_over dq) eqn:S; [reflexivity|].
           apply caveat_notes_empty_iff in S. rewrite S in N. discriminate N.
        -- intros _. simpl. tauto.
  - rewrite <- (app_nil_r (List.app _ _)), Base. simpl. split; [tauto|].
    intros (dq & Hdq & _). discriminate Hdq.
Qed.

Lemma caveat_notes_length (dq : Caveats) :
  List.length (caveat_notes dq)
  = (signal_count (num_gt (get_or dq "deals_missing_revenue_pct" (NInt 0)) 10)
     + signal_count (num_gt (get_or dq "deals_missing_sector_pct" (NInt 0)) 10)
     + signal_count (num_gt (get_or dq "wo_missing_amount_pct" (NInt 0)) 10))%nat.
Proof.
  unfold caveat_notes.
  destruct (num_gt (get_or dq "deals_missing_revenue_pct" (NInt 0)) 10);
    destruct (num_gt (get_or dq "deals_missing_sector_pct" (NInt 0)) 10);
    destruct (num_gt (get_or dq "wo_missing_amount_pct" (NInt 0)) 10);
    reflexivity.
Qed.

(** The report with caveats is the report without them, followed by the
    section when a signal is over its threshold. *)
Lemma leadership_lines_split (update : Update) (dq : Caveats) :
  data_quality update = Some dq ->
  leadership_lines update
  = if report_signal_over dq
    then List.app (leadership_lines (without_caveats update))
           (EmptyString :: caveats_heading
              :: map (fun note => "- " ++ note) (caveat_notes dq))
    else leadership_lines (without_caveats update).
Proof.
  intros H. unfold leadership_lines.
  cbn [without_caveats title generated_at pipeline revenue operations conversion
       data_quality].
  rewrite H. cbv zeta.
  destruct dq as [|kv dq']; [reflexivity|].
  set (dq := kv :: dq').
  destruct (caveat_notes dq) as [|note notes] eqn:N.
  - apply caveat_notes_empty_iff in N. rewrite N. reflexivity.
  - destruct (report_signal_over dq) eqn:S.
    + rewrite <- app_assoc. reflexivity.
    + apply caveat_notes_empty_iff in S. rewrite S in N. discriminate N.
Qed.

(** What the leadership report does render.  It has a caveats section
    exactly when the caveats dictionary is present and at least one of
    three signals is over 10: deals without a value, deals without a
    sector, work orders without an amount.  The section then ends the
    report and holds one line per such signal.  When none of the three is
    over 10 the report is the one without caveats: the section is left
    out whole. *)
Theorem leadership_caveats_section (update : Update) :
  (In caveats_heading (leadership_lines update) <->
   exists dq, data_quality update = Some dq /\ report_signal_over dq = true) /\
  (forall dq,
     data_quality update = Some dq ->
     leadership_lines update
     = if report_signal_over dq
       then List.app (leadership_lines (without_caveats update))
              (EmptyString :: caveats_heading
                 :: map (fun note => "- " ++ note) (caveat_notes dq))
       else leadership_lines (without_caveats update)) /\
  ~ In caveats_heading (leadership_lines (without_caveats update)) /\
  (forall dq,
     List.length (caveat_notes dq)
     = (signal_count (num_gt (get_or dq "deals_missing_revenue_pct" (NInt 0)) 10)
        + signal_count (num_gt (get_or dq "deals_missing_sector_pct" (NInt 0)) 10)
        + signal_count (num_gt (get_or dq "wo_missing_amount_pct" (NInt 0)) 10))%nat).
Proof.
  split; [apply leadership_heading_iff|].
  split; [apply leadership_lines_split|].
  split; [|apply caveat_notes_length].
  rewrite leadership_heading_iff. intros (dq & H & _). discriminate H.
Qed.

End Report.

(** ** The cross-board rollup *)

Lemma int_truediv_zero_division (a b : Z) :
  int_truediv a b = Raise ZeroDivisionError -> b = 0.
Proof.
  destruct a as [|n|n], b as [|d|d]; simpl; try reflexivity; try discriminate;
    destruct (float_of_ratio _ n d); discriminate.
Qed.

Lemma percentage_zero_division (num den : Z) :
  percentage num den <> Raise ZeroDivisionError.
Proof.
  unfold percentage. destruct (Z.ltb_spec 0 den) as [Hd|Hd]; [|discriminate].
  destruct (int_truediv (100 * num) den) as [q|e] eqn:E; simpl; [discriminate|].
  intros H. inversion H; subst.
  apply int_truediv_zero_division in E. lia.
Qed.

Lemma percentage_zero_denominator (num : Z) : percentage num 0 = Ok (NInt 0).
Proof. reflexivity. Qed.

Lemma open_or_won_count_code (deals_df : list DealRecord) :
  Z.of_nat (List.length (filter (fun r => in_strs (status r) ["Open"; "Won"]) deals_df))
  = open_or_won_count deals_df.
Proof.
  unfold open_or_won_count. f_equal. f_equal. apply filter_ext.
  intros r. unfold in_strs. simpl. now rewrite orb_false_r.
Qed.

(** The matched names are the distinct normalized names that a Won deal
    and a work order's linked-deal name share. *)
Lemma matched_spec (deals_df : list DealRecord) (workorders_df : list WorkOrderRecord) :
  NoDup (matched deals_df workorders_df) /\
  forall n,
    In n (matched deals_df workorders_df) <->
    (exists d, In d deals_df /\ status d = "Won" /\ name_norm (deal_name d) = n) /\
    (exists w, In w workorders_df /\ name_norm (deal_name_linked w) = n).
Proof.
  unfold matched, unique. split.
  - apply NoDup_filter, NoDup_nodup.
  - intros n. rewrite filter_In, in_strs_In, !nodup_In, !in_map_iff.
    unfold won_rows. split.
    + intros [(d & Hn & Hd) (w & Hw & Hin)].
      apply filter_In in Hd. destruct Hd as [Hd Hs]. apply String.eqb_eq in Hs.
      split; [exists d | exists w]; auto.
    + intros [(d & Hd & Hs & Hn) (w & Hin & Hw)].
      split; [exists d | exists w]; split; auto.
      apply filter_In. split; [assumption|]. rewrite Hs. reflexivity.
Qed.

Lemma filter_length_mono {A : Type} (f g : A -> bool) (l : list A) :
  (forall x, f x = true -> g x = true) ->
  (List.length (filter f l) <= List.length (filter g l))%nat.
Proof.
  intros H. induction l as [|a l IH]; simpl; [lia|].
  destruct (f a) eqn:F.
  - rewrite (H a F). simpl. lia.
  - destruct (g a); simpl; lia.
Qed.

Lemma filter_length_bound {A : Type} (f : A -> bool) (l : list A) :
  (List.length (filter f l) <= List.length l)%nat.
Proof. induction l as [|a l IH]; simpl; [lia|]. destruct (f a); simpl; lia. Qed.

Lemma nodup_length_bound (l : list string) :
  (List.length (nodup string_dec l) <= List.length l)%nat.
Proof.
  induction l as [|a l IH]; simpl; [lia|].
  destruct (in_dec string_dec a l); simpl; lia.
Qed.

Lemma won_count_bound (deals_df : list DealRecord) :
  0 <= won_count deals_df <= open_or_won_count deals_df.
Proof.
  unfold won_count, open_or_won_count, won_rows. split; [lia|].
  apply Nat2Z.inj_le, filter_length_mono. intros r ->. apply orb_true_r.
Qed.

Lemma covered_won_names_bound (deals_df : list DealRecord)
  (workorders_df : list WorkOrderRecord) :
  0 <= covered_won_names deals_df workorders_df <= won_count deals_df.
Proof.
  unfold covered_won_names, won_count, matched, unique. split; [lia|].
  apply Nat2Z.inj_le.
  eapply Nat.le_trans; [apply filter_length_bound|].
  eapply Nat.le_trans; [apply nodup_length_bound|].
  rewrite length_map. apply Nat.le_refl.
Qed.

Lemma list_is_empty {A : Type} (l : list A) : l = [] \/ l <> [].
Proof. destruct l; [now left | right; discriminate]. Qed.

Lemma feqb_zero_not_above (w : float) : feqb w f0 = true -> fltb f0 w = false.
Proof. destruct w as [s|s| |s m e]; try destruct s; simpl; intros H; try reflexivity; discriminate H. Qed.

Section CrossBoard.
Context {L : PyRuntime}.

Lemma cross_board_unfold (deals_df : list DealRecord)
  (workorders_df : list WorkOrderRecord) :
  deals_df <> [] -> workorders_df <> [] ->
  cross_board_analysis deals_df workorders_df =
  (conversion_rate <- percentage (won_count deals_df) (open_or_won_count deals_df) ;;
   wo_coverage_rate <-
     percentage (covered_won_names deals_df workorders_df) (won_count deals_df) ;;
   Ok (Result {|
     won_deals_count := won_count deals_df;
     conversion_rate_pct := conversion_rate;
     wo_coverage_rate_pct := wo_coverage_rate;
     total_pipeline :=
       _fmt_inr (series_sum (map deal_value
         (filter (fun r => String.eqb (status r) "Open") deals_df)));
     closed_revenue := _fmt_inr (series_sum (map deal_value (won_rows deals_df)));
     total_wo_value := _fmt_inr (series_sum (map amount_excl_gst workorders_df));
     sector_performance :=
       map (fun kv =>
              (fst kv,
               {| won_pipeline := _fmt_inr (won_value (snd kv));
                  wo_value_fmt := _fmt_inr (wo_value (snd kv));
                  realization_rate_pct := realization_rate (snd kv) |}))
           (sector_perf deals_df workorders_df) |})).
Proof.
  intros Hd Hw. unfold cross_board_analysis.
  destruct deals_df as [|d ds]; [contradiction|].
  destruct workorders_df as [|w ws]; [contradiction|].
  cbv zeta. rewrite open_or_won_count_code. reflexivity.
Qed.

(** The realization rate of a sector whose won-pipeline value is 0 is 0. *)
Lemma realization_rate_guard (deals_df : list DealRecord)
  (workorders_df : list WorkOrderRecord) :
  Forall (fun kv => feqb (won_value (snd kv)) f0 = true ->
                    realization_rate (snd kv) = f0)
         (sector_perf deals_df workorders_df).
Proof.
  unfold sector_perf. cbv zeta. apply Forall_map, Forall_forall.
  intros k _. simpl. intros H. rewrite (feqb_zero_not_above _ H). reflexivity.
Qed.

(** What the cross-board rollup does compute.  On deal and work-order
    frames that are not empty it gives: as win rate, 100 x Won deals / (Open + Won
    deals) rounded to one decimal, and 0 when there is no Open or Won
    deal; as coverage rate, 100 x (the number of distinct normalized names
    of Won deals that also are the normalized linked-deal name of a work
    order) / Won deals, rounded to one decimal, and 0 when no deal is Won;
    a realization rate of 0 for every sector whose won-pipeline value is
    0.  It always returns: no division error, nor any other exception, is
    raised; on an empty frame it returns the error dictionary. *)
Theorem cross_board_rates (deals_df : list DealRecord)
  (workorders_df : list WorkOrderRecord) :
  (exists out, cross_board_analysis deals_df workorders_df = Ok out) /\
  ((deals_df = [] \/ workorders_df = []) <->
   exists msg, cross_board_analysis deals_df workorders_df = Ok (Error msg)) /\
  (forall r,
     cross_board_analysis deals_df workorders_df = Ok (Result r) ->
     Ok (conversion_rate_pct r)
       = percentage (won_count deals_df) (open_or_won_count deals_df) /\
     Ok (wo_coverage_rate_pct r)
       = percentage (covered_won_names deals_df workorders_df) (won_count deals_df) /\
     (open_or_won_count deals_df = 0 -> conversion_rate_pct r = NInt 0) /\
     (won_count deals_df = 0 -> wo_coverage_rate_pct r = NInt 0) /\
     map (fun kv => (fst kv, realization_rate_pct (snd kv))) (sector_performance r)
       = map (fun kv => (fst kv, realization_rate (snd kv)))
             (sector_perf deals_df workorders_df)) /\
  (NoDup (matched deals_df workorders_df) /\
   forall n,
     In n (matched deals_df workorders_df) <->
     (exists d, In d deals_df /\ status d = "Won" /\ name_norm (deal_name d) = n) /\
     (exists w, In w workorders_df /\ name_norm (deal_name_linked w) = n)) /\
  Forall (fun kv => feqb (won_value (snd kv)) f0 = true ->
                    realization_rate (snd kv) = f0)
         (sector_perf deals_df workorders_df).
Proof.
  pose proof (matched_spec deals_df workorders_df) as M.
  pose proof (realization_rate_guard deals_df workorders_df) as G.
  destruct (list_is_empty deals_df) as [Hd|Hd];
    [|destruct (list_is_empty workorders_df) as [Hw|Hw]].
  - subst deals_df. split; [simpl; eauto|]. split; [|split; [|split; assumption]].
    + split; [intros _; simpl; eauto | intros _; now left].
    + intros r H. discriminate H.
  - subst workorders_df.
    assert (E : cross_board_analysis deals_df []
                = Ok (Error "Both deals and work orders data are required for cross-board analysis."))
      by (destruct deals_df; reflexivity).
    rewrite E. split; [eauto|]. split; [|split; [|split; assumption]].
    + split; [intros _; eauto | intros _; now right].
    + intros r H. discriminate H.
  - rewrite (cross_board_unfold deals_df workorders_df Hd Hw).
    destruct (percentage_returns _ _ (won_count_bound deals_df)) as [c E1].
    destruct (percentage_returns _ _ (covered_won_names_bound deals_df workorders_df))
      as [v E2].
    rewrite E1, E2. unfold bind.
    split; [eauto|]. split; [|split; [|split; assumption]].
    + split; [intros [H|H]; contradiction | intros [msg H]; discriminate H].
    + intros r H. injection H as H. subst r. cbn [conversion_rate_pct
        wo_coverage_rate_pct sector_performance].
      split; [reflexivity|]. split; [reflexivity|]. split; [|split].
      * intros Z0. rewrite Z0, percentage_zero_denominator in E1.
        now inversion E1.
      * intros Z0. rewrite Z0, percentage_zero_denominator in E2.
        now inversion E2.
      * rewrite map_map. reflexivity.
Qed.

End CrossBoard.

Lemma cross_board_rates_witness :
  exists r,
    @cross_board_analysis ref_runtime [closed_deal; open_deal] sample_workorders_df
      = Ok (Result r) /\
    conversion_rate_pct r = NFloat (float_of_Z 50) /\
    wo_coverage_rate_pct r = NFloat (float_of_Z 100).
Proof.
  destruct (@cross_board_analysis ref_runtime [closed_deal; open_deal]
              sample_workorders_df) as [[msg|r]|e] eqn:E;
    try (vm_compute in E; discriminate E).
  exists r. split; [reflexivity|].
  destruct (@cross_board_rates ref_runtime [closed_deal; open_deal] sample_workorders_df)
    as (_ & _ & H & _).
  destruct (H r E) as (Hc & Hv & _).
  assert (P1 : percentage (won_count [closed_deal; open_deal])
                 (open_or_won_count [closed_deal; open_deal])
               = Ok (NFloat (float_of_Z 50))) by (vm_compute; reflexivity).
  assert (P2 : percentage
                 (covered_won_names [closed_deal; open_deal] sample_workorders_df)
                 (won_count [closed_deal; open_deal])
               = Ok (NFloat (float_of_Z 100))) by (vm_compute; reflexivity).
  rewrite P1 in Hc. rewrite P2 in Hv.
  injection Hc as Hc. injection Hv as Hv. split; [exact Hc | exact Hv].
Defined.

(** C8.  The coverage rate is meant as the share of Won deals that have a
    matching work order, but its numerator counts distinct names while its
    denominator counts rows: with two Won deals of one normalized name and
    one work order linked to it, the Won deals whose name appears among
    the work orders are 2 of 2, a coverage of 100; the code counts the one
    distinct name and gives 50, on every runtime. *)
Lemma coverage_counts_names_not_deals :
  covered_won_deals same_name_deals same_name_workorders = 2 /\
  won_count same_name_deals = 2 /\
  percentage 2 2 = Ok (NFloat (float_of_Z 100)) /\
  (exists r,
     @cross_board_analysis ref_runtime same_name_deals same_name_workorders
       = Ok (Result r) /\
     wo_coverage_rate_pct r = NFloat (float_of_Z 50)) /\
  ~ (exists (L : PyRuntime) r,
       @cross_board_analysis L same_name_deals same_name_workorders = Ok (Result r) /\
       wo_coverage_rate_pct r = NFloat (float_of_Z 100)).
Proof.
  split; [reflexivity|]. split; [reflexivity|]. split; [vm_compute; reflexivity|].
  split.
  - eexists. split; [vm_compute; reflexivity | vm_compute; reflexivity].
  - intros (L & r & H & Hr).
    rewrite cross_board_unfold in H by discriminate.
    assert (P1 : percentage (won_count same_name_deals)
                   (open_or_won_count same_name_deals)
                 = Ok (NFloat (float_of_Z 100))) by (vm_compute; reflexivity).
    assert (P2 : percentage (covered_won_names same_name_deals same_name_workorders)
                   (won_count same_name_deals)
                 = Ok (NFloat (float_of_Z 50))) by (vm_compute; reflexivity).
    rewrite P1, P2 in H. unfold bind in H.
    injection H as H. subst r. cbn [wo_coverage_rate_pct] in Hr.
    vm_compute in Hr. discriminate Hr.
Qed.

(** The same through the builders: two Won items named [Alpha] and
    [alpha] and a work-order item named [ALPHA] give frames in which both
    Won deals have a work order, and a coverage of 50. *)
Example built_twins_coverage :
  exists deals_df workorders_df r,
    @clean_deals_df ref_runtime twin_deal_items sample_deals_schema = Ok deals_df /\
    @clean_workorders_df ref_runtime twin_workorder_items sample_workorders_schema
      = Ok workorders_df /\
    won_count deals_df = 2 /\
    covered_won_deals deals_df workorders_df = 2 /\
    @cross_board_analysis ref_runtime deals_df workorders_df = Ok (Result r) /\
    wo_coverage_rate_pct r = NFloat (float_of_Z 50).
Proof.
  do 3 eexists.
  split; [vm_compute; reflexivity|]. split; [vm_compute; reflexivity|].
  split; [vm_compute; reflexivity|]. split; [vm_compute; reflexivity|].
  split; vm_compute; reflexivity.
Qed.

(** ** Work orders linked by their own name *)

Lemma filter_all {A : Type} (f : A -> bool) (l : list A) :
  (forall x, In x l -> f x = true) -> filter f l = l.
Proof.
  induction l as [|a l IH]; intros H; [reflexivity|].
  simpl. rewrite (H a (or_introl eq_refl)). f_equal. apply IH.
  intros x Hx. apply H. now right.
Qed.

Lemma filter_twice {A : Type} (f g : A -> bool) (l : list A) :
  filter f (filter g l) = filter (fun x => g x && f x) l.
Proof.
  induction l as [|a l IH]; [reflexivity|].
  simpl. destruct (g a); simpl; [destruct (f a)|]; now rewrite IH.
Qed.

(** A list without duplicates has one element more than what is left of
    it when a member is taken away. *)
Lemma nodup_length_without (n : string) (l : list string) :
  NoDup l -> In n l ->
  List.length l = S (List.length (filter (fun x => negb (String.eqb x n)) l)).
Proof.
  induction 1 as [|a l Ha ND IH]; intros Hin; [contradiction|].
  simpl. destruct (String.eqb a n) eqn:E.
  - apply String.eqb_eq in E. subst a. simpl. f_equal.
    rewrite filter_all; [reflexivity|].
    intros x Hx. apply negb_true_iff, String.eqb_neq. intros ->. contradiction.
  - simpl. f_equal. apply IH. destruct Hin as [->|Hin]; [|assumption].
    rewrite String.eqb_refl in E. discriminate E.
Qed.

(** Taking away the work orders linked to a name takes that name, and no
    other, away from the matched names. *)
Lemma matched_not_linked (deals_df : list DealRecord)
  (workorders_df : list WorkOrderRecord) (n : string) :
  matched deals_df (not_linked_to n workorders_df)
  = filter (fun x => negb (String.eqb x n)) (matched deals_df workorders_df).
Proof.
  unfold matched. cbv zeta. rewrite filter_twice. apply filter_ext. intros x.
  apply eq_true_iff_eq.
  rewrite andb_true_iff, negb_true_iff, String.eqb_neq, !in_strs_In.
  unfold unique, not_linked_to. rewrite !nodup_In, !in_map_iff. split.
  - intros (w & Hw & Hin). apply filter_In in Hin. destruct Hin as [Hin Hn].
    apply negb_true_iff, String.eqb_neq in Hn. split; [now exists w | congruence].
  - intros [(w & Hw & Hin) Hn]. exists w. split; [assumption|].
    apply filter_In. split; [assumption|].
    apply negb_true_iff, String.eqb_neq. congruence.
Qed.

(** C10.  A work-order item whose resolved linked-deal-name cell is empty
    or missing gets its own (trimmed) item name as [deal_name_linked],
    which is not empty.  So whenever a Won deal has that name up to case
    and surrounding whitespace, the cross-board rollup counts it: the name
    is among the matched names, the work orders linked to it account for
    exactly one in the numerator of the coverage rate, and the rate the
    rollup returns is 100 x that numerator / Won deals, rounded to one
    decimal. *)
Theorem unlinked_workorder_links_by_own_name `{L : PyRuntime}
  (raw_items : list RawItem) (schema : Schema) (workorders_df : list WorkOrderRecord)
  (item : RawItem) :
  clean_workorders_df raw_items schema = Ok workorders_df ->
  In item raw_items ->
  workorder_item_dropped item = false ->
  find_column item (schema_columns schema) ["deal name"; "deal"] = "" ->
  exists w,
    In w workorders_df /\
    wo_name w = item_name item /\
    deal_name_linked w = item_name item /\
    deal_name_linked w <> "" /\
    forall (deals_df : list DealRecord) (d : DealRecord),
      In d deals_df -> status d = "Won" ->
      name_norm (deal_name d) = name_norm (item_name item) ->
      In (name_norm (item_name item)) (matched deals_df workorders_df) /\
      covered_won_names deals_df workorders_df
        = 1 + covered_won_names deals_df
                (not_linked_to (name_norm (item_name item)) workorders_df) /\
      1 <= covered_won_names deals_df workorders_df <= won_count deals_df /\
      exists r q,
        cross_board_analysis deals_df workorders_df = Ok (Result r) /\
        int_truediv (100 * covered_won_names deals_df workorders_df)
          (won_count deals_df) = Ok q /\
        wo_coverage_rate_pct r = NFloat (py_round1 q).
Proof.
  intros H Hin Hkeep Hcell.
  destruct (clean_workorders_df_rows _ _ _ H) as (rows & -> & F).
  assert (Hf : In item (filter (fun i => negb (workorder_item_dropped i)) raw_items)).
  { apply filter_In. split; [assumption | now rewrite Hkeep]. }
  destruct (Forall2_In_left _ _ _ F item Hf) as (row & Hrow & Hbody).
  destruct (workorder_row_appends _ _ _ Hbody) as (_ & N & Lk & _).
  rewrite Hcell in Lk. simpl in Lk.
  assert (Hne : item_name item <> "").
  { unfold workorder_item_dropped in Hkeep. now apply String.eqb_neq in Hkeep. }
  set (wos := map workorder_dates rows).
  assert (Hw : In (workorder_dates row) wos) by now apply in_map.
  exists (workorder_dates row). split; [exact Hw|].
  split; [exact N|]. split; [exact Lk|].
  split; [cbn [workorder_dates deal_name_linked]; now rewrite Lk|].
  intros deals_df d Hd Hwon Hname.
  assert (M : In (name_norm (item_name item)) (matched deals_df wos)).
  { apply matched_spec. split.
    - exists d. auto.
    - exists (workorder_dates row). split; [exact Hw|].
      cbn [workorder_dates deal_name_linked]. now rewrite Lk. }
  split; [exact M|].
  assert (C : covered_won_names deals_df wos
              = 1 + covered_won_names deals_df
                      (not_linked_to (name_norm (item_name item)) wos)).
  { unfold covered_won_names. rewrite matched_not_linked.
    rewrite (nodup_length_without (name_norm (item_name item))
               (matched deals_df wos)); [lia | apply matched_spec | exact M]. }
  split; [exact C|].
  pose proof (covered_won_names_bound deals_df wos) as B.
  pose proof (covered_won_names_bound deals_df
                (not_linked_to (name_norm (item_name item)) wos)) as B'.
  assert (B1 : 1 <= covered_won_names deals_df wos <= won_count deals_df) by lia.
  split; [exact B1|].
  assert (Hd0 : deals_df <> []) by (intros ->; contradiction).
  assert (Hw0 : wos <> []) by (intros E; rewrite E in Hw; contradiction).
  rewrite (cross_board_unfold deals_df wos Hd0 Hw0).
  destruct (percentage_returns _ _ (won_count_bound deals_df)) as [c ->].
  unfold percentage at 1.
  assert (P : (0 <? won_count deals_df) = true) by (apply Z.ltb_lt; lia).
  rewrite P.
  destruct (int_truediv_returns (100 * covered_won_names deals_df wos)
              (won_count deals_df) 7) as [q Eq]; try lia.
  rewrite Eq. unfold bind.
  eexists. exists q. split; [reflexivity|]. split; reflexivity.
Qed.

Lemma unlinked_workorder_links_by_own_name_witness :
  exists w r,
    In w sample_workorders_df /\ wo_name w = "ALPHA" /\ deal_name_linked w = "ALPHA" /\
    @cross_board_analysis ref_runtime [closed_deal; open_deal] sample_workorders_df
      = Ok (Result r) /\
    wo_coverage_rate_pct r = NFloat (float_of_Z 100) /\
    covered_won_names [closed_deal; open_deal] sample_workorders_df = 1 /\
    covered_won_names [closed_deal; open_deal] (not_linked_to "alpha" sample_workorders_df)
      = 0.
Proof.
  destruct (@unlinked_workorder_links_by_own_name ref_runtime
              sample_workorder_items sample_workorders_schema sample_workorders_df
              (hd [] sample_workorder_items))
    as (w & Hw & Hn & Hl & _ & Hcov).
  - vm_compute. reflexivity.
  - simpl. auto.
  - reflexivity.
  - reflexivity.
  - destruct (Hcov [closed_deal; open_deal] closed_deal)
      as (_ & Hc & _ & r & q & Hr & Hq & Hrate).
    + simpl. auto.
    + reflexivity.
    + reflexivity.
    + exists w, r. split; [exact Hw|]. split; [exact Hn|]. split; [exact Hl|].
      split; [exact Hr|].
      vm_compute in Hq. injection Hq as <-.
      split; [rewrite Hrate; vm_compute; reflexivity|].
      split; vm_compute; reflexivity.
Defined.

Lemma leadership_caveats_section_witness :
  report_signal_over value_and_amount_caveats = true /\
  In caveats_heading
     (@leadership_lines ref_runtime (sample_update (Some value_and_amount_caveats))) /\
  List.length (@caveat_notes ref_runtime value_and_amount_caveats) = 2%nat.
Proof.
  split; [reflexivity|]. split.
  - apply (@leadership_caveats_section ref_runtime
             (sample_update (Some value_and_amount_caveats))).
    exists value_and_amount_caveats. split; reflexivity.
  - destruct (@leadership_caveats_section ref_runtime
                (sample_update (Some value_and_amount_caveats))) as (_ & _ & _ & H).
    rewrite H. reflexivity.
Defined.

(** ** The pipeline on the reference runtime *)

(** JSON-shaped amount cells: the value of an object is unwrapped and
    normalized; a bare JSON string keeps its quotes and so gives 0. *)
Example normalize_revenue_json_cells :
  @normalize_revenue ref_runtime (VStr json_amount_cell) = Ok (float_of_Z 1200) /\
  @normalize_revenue ref_runtime (VStr quoted_amount_cell) = Ok f0.
Proof. split; vm_compute; reflexivity. Qed.

(** The two spellings of one date normalize alike, and text that is no
    date gives [None]. *)
Example normalize_date_examples :
  @normalize_date ref_runtime "31/12/2025" = Ok (Some "2025-12-31") /\
  @normalize_date ref_runtime "2025-12-31" = Ok (Some "2025-12-31") /\
  @normalize_date ref_runtime "not a date" = Ok None.
Proof. repeat split; vm_compute; reflexivity. Qed.

(** A JSON object whose date is not text makes [strptime] raise
    [TypeError], which nothing catches: the whole build fails.  This is
    why the builders complete only on a condition. *)
Example numeric_json_date_aborts_build :
  @normalize_date ref_runtime numeric_date_cell = Raise TypeError /\
  @clean_deals_df ref_runtime numeric_date_items scenario_schema = Raise TypeError.
Proof. split; vm_compute; reflexivity. Qed.

(** The scenario of the specification, from raw items to rollups: deal A
    (Won, 500000, closed 20 May 2026), deal B (Open, 2000000), deal C
    (Dead).  Over the year to date the revenue rollup closes 500000 on one
    deal, and the win rate is 50 (1 Won of 2 Open or Won). *)
Example three_deal_scenario :
  map deal_name scenario_df = ["A"; "B"; "C"] /\
  map status scenario_df = ["Won"; "Open"; "Dead"] /\
  (exists r,
     @revenue_analytics ref_runtime clock scenario_df (Some "ytd") = Result r /\
     closed_total r = NFloat (float_of_Z 500000) /\ count r = 1 /\
     closed_total_fmt r = "₹5.00 L" /\ top_sector r = Some "mining") /\
  (exists x,
     @cross_board_analysis ref_runtime scenario_df sample_workorders_df
       = Ok (Result x) /\
     conversion_rate_pct x = NFloat (float_of_Z 50)).
Proof.
  split; [reflexivity|]. split; [reflexivity|]. split.
  - eexists. split; [vm_compute; reflexivity|]. repeat split.
  - eexists. split; [vm_compute; reflexivity|]. reflexivity.
Qed.

(* ================================================================== *)
(** * Further properties of the code                                  *)
(* ================================================================== *)

(** ** Text normalization *)

Lemma lower_char_idem (c : ascii) : lower_char (lower_char c) = lower_char c.
Proof. destruct c as [[] [] [] [] [] [] [] []]; reflexivity. Qed.

Lemma is_space_lower_char (c : ascii) : is_space (lower_char c) = is_space c.
Proof. destruct c as [[] [] [] [] [] [] [] []]; reflexivity. Qed.

Lemma lower_idem (s : string) : lower (lower s) = lower s.
Proof.
  induction s as [|c r IH]; simpl; [reflexivity|].
  now rewrite lower_char_idem, IH.
Qed.

Lemma lower_app (a b : string) : lower (a ++ b) = lower a ++ lower b.
Proof. induction a as [|c r IH]; simpl; [reflexivity | now rewrite IH]. Qed.

Lemma lstrip_lower (s : string) : lstrip (lower s) = lower (lstrip s).
Proof.
  induction s as [|c r IH]; simpl; [reflexivity|].
  rewrite is_space_lower_char. destruct (is_space c); [exact IH | reflexivity].
Qed.

Lemma rstrip_lower (s : string) : rstrip (lower s) = lower (rstrip s).
Proof.
  induction s as [|c r IH]; simpl; [reflexivity|].
  rewrite IH, is_space_lower_char.
  destruct (rstrip r); simpl; [destruct (is_space c); reflexivity | reflexivity].
Qed.

Lemma strip_lower (s : string) : strip (lower s) = lower (strip s).
Proof. unfold strip. now rewrite lstrip_lower, rstrip_lower. Qed.

Lemma lstrip_clean (s : string) : starts_clean (lstrip s).
Proof.
  induction s as [|c r IH]; simpl; [exact I|].
  destruct (is_space c) eqn:E; [exact IH | exact E].
Qed.

Lemma lstrip_of_clean (s : string) : starts_clean s -> lstrip s = s.
Proof. destruct s as [|c r]; simpl; [reflexivity | now intros ->]. Qed.

Lemma rstrip_clean (s : string) : starts_clean s -> starts_clean (rstrip s).
Proof.
  destruct s as [|c r]; simpl; [auto|]. intros E.
  destruct (rstrip r); [rewrite E|]; exact E.
Qed.

Lemma rstrip_idem (s : string) : rstrip (rstrip s) = rstrip s.
Proof.
  induction s as [|c r IH]; simpl; [reflexivity|].
  destruct (rstrip r) as [|c' r'] eqn:E.
  - destruct (is_space c) eqn:S; simpl; [reflexivity | now rewrite S].
  - simpl in *. now rewrite IH.
Qed.

Lemma strip_idem (s : string) : strip (strip s) = strip s.
Proof.
  unfold strip.
  rewrite (lstrip_of_clean (rstrip (lstrip s))).
  - apply rstrip_idem.
  - apply rstrip_clean, lstrip_clean.
Qed.

Lemma normalize_text_idem (v : string) : normalize_text (normalize_text v) = normalize_text v.
Proof.
  unfold normalize_text. destruct (String.eqb v "") eqn:E; [reflexivity|].
  destruct (String.eqb (lower (strip v)) "") eqn:E2.
  - apply String.eqb_eq in E2. now rewrite E2.
  - now rewrite strip_lower, strip_idem, lower_idem.
Qed.

Lemma normalize_text_lower_strip (v : string) : normalize_text v = lower (strip v).
Proof.
  unfold normalize_text. destruct (String.eqb v "") eqn:E; [|reflexivity].
  apply String.eqb_eq in E. now subst.
Qed.

(** X3.  [normalize_text] gives a canonical text: normalizing it again, trimming
    it or lowering it changes nothing; and it sees its argument only up to
    ASCII case and surrounding blanks. *)
Theorem normalize_text_canonical (v : string) :
  normalize_text (normalize_text v) = normalize_text v /\
  strip (normalize_text v) = normalize_text v /\
  lower (normalize_text v) = normalize_text v /\
  normalize_text (strip v) = normalize_text v /\
  normalize_text (lower v) = normalize_text v.
Proof.
  rewrite !normalize_text_lower_strip.
  repeat split.
  - now rewrite strip_lower, strip_idem, lower_idem.
  - now rewrite strip_lower, strip_idem.
  - apply lower_idem.
  - now rewrite strip_idem.
  - now rewrite strip_lower, lower_idem.
Qed.

(** ** Deal status *)

Lemma map_deal_status_values (status stage : string) :
  In (map_deal_status status stage) DEAL_STATUSES.
Proof.
  unfold map_deal_status, DEAL_STATUSES.
  repeat match goal with |- context [if ?b then _ else _] => destruct b end;
    simpl; auto.
Qed.

(** X4.  The canonical status is one of four values, is unchanged when the
    status and stage are normalized first, and is ["On Hold"] only for an
    explicit on-hold status: the stage [m. projects on hold] alone gives
    ["Dead"]. *)
Theorem map_deal_status_range (status stage : string) :
  In (map_deal_status status stage) DEAL_STATUSES /\
  map_deal_status (normalize_text status) (normalize_text stage)
    = map_deal_status status stage /\
  (map_deal_status status stage = "On Hold" <-> normalize_text status = "on hold") /\
  (normalize_text status = "" -> normalize_text stage = "m. projects on hold" ->
   map_deal_status status stage = "Dead").
Proof.
  split; [|split; [|split]].
  - apply map_deal_status_values.
  - unfold map_deal_status. now rewrite !normalize_text_idem.
  - unfold map_deal_status.
    destruct (String.eqb (normalize_text status) "won") eqn:E1.
    { apply String.eqb_eq in E1. rewrite E1. split; discriminate. }
    destruct (String.eqb (normalize_text status) "dead") eqn:E2.
    { apply String.eqb_eq in E2. rewrite E2. split; discriminate. }
    destruct (String.eqb (normalize_text status) "on hold") eqn:E3.
    { apply String.eqb_eq in E3. split; auto. }
    apply String.eqb_neq in E3.
    split; [|contradiction].
    repeat match goal with |- context [if ?b then _ else _] => destruct b end;
      discriminate.
  - intros Hs Hst. unfold map_deal_status. rewrite Hs, Hst. reflexivity.
Qed.

Lemma map_deal_status_range_witness :
  normalize_text "" = "" /\ normalize_text " M. Projects On Hold " = "m. projects on hold" /\
  map_deal_status "" " M. Projects On Hold " = "Dead".
Proof.
  split; [reflexivity|]. split; [reflexivity|].
  apply (map_deal_status_range "" " M. Projects On Hold "); reflexivity.
Defined.

(** ** Column resolution *)

Lemma prefix_app (p s : string) :
  String.prefix p s = true <-> exists b, s = p ++ b.
Proof.
  revert s. induction p as [|c p IH]; intros s.
  - split; [intros _; now exists s | intros _; destruct s; reflexivity].
  - destruct s as [|d s]; simpl.
    + split; [discriminate | intros [b H]; discriminate].
    + destruct (ascii_dec c d) as [->|N].
      * rewrite IH. split; intros [b H]; exists b.
        -- now rewrite H.
        -- now inversion H.
      * split; [discriminate|]. intros [b H]. inversion H. subst. now elim N.
Qed.

Lemma contains_spec (s sub : string) :
  contains s sub = true <-> exists a b, s = a ++ sub ++ b.
Proof.
  induction s as [|c r IH].
  - unfold contains. rewrite orb_false_r, prefix_app. split.
    + intros [b H]. now exists "", b.
    + intros (a & b & H). destruct a; simpl in H; [now exists b | discriminate].
  - change (contains (String c r) sub)
      with (String.prefix sub (String c r) || contains r sub).
    rewrite orb_true_iff, prefix_app, IH. split.
    + intros [[b H] | (a & b & H)].
      * now exists "", b.
      * exists (String c a), b. simpl. now rewrite H.
    + intros (a & b & H). destruct a as [|c' a]; simpl in H.
      * left. now exists b.
      * right. inversion H. now exists a, b.
Qed.

Lemma append_assoc (a b c : string) : (a ++ b) ++ c = a ++ (b ++ c).
Proof. induction a as [|x a IH]; simpl; [reflexivity | now rewrite IH]. Qed.

Lemma contains_trans (s mid sub : string) :
  contains s mid = true -> contains mid sub = true -> contains s sub = true.
Proof.
  rewrite !contains_spec. intros (a & b & ->) (c & d & ->).
  exists (a ++ c), (d ++ b). now rewrite !append_assoc.
Qed.

(** [find_column] sees its keywords only through the titles they match. *)
Lemma find_column_ext (item : RawItem) (cols : dict ColMeta) (kws1 kws2 : list string) :
  (forall col_meta, title_matches kws1 col_meta = title_matches kws2 col_meta) ->
  find_column item cols kws1 = find_column item cols kws2.
Proof.
  intros H. induction cols as [|[col_id col_meta] rest IH]; simpl; [reflexivity|].
  pose proof (H col_meta) as E.
  unfold title_matches in E. rewrite E.
  destruct (existsb _ (map lower kws2)); [reflexivity | exact IH].
Qed.

Lemma title_matches_In (kws : list string) (col_meta : ColMeta) :
  title_matches kws col_meta = true <->
  exists kw, In kw kws /\ contains (lower (col_title col_meta)) (lower kw) = true.
Proof.
  unfold title_matches. rewrite existsb_exists. split.
  - intros (x & Hx & C). apply in_map_iff in Hx. destruct Hx as (kw & <- & Hk).
    now exists kw.
  - intros (kw & Hk & C). exists (lower kw). split; [now apply in_map | exact C].
Qed.

Lemma bool_eq_iff (a b : bool) : (a = true <-> b = true) -> a = b.
Proof. destruct a, b; intros [H1 H2]; auto; symmetry; auto. Qed.

(** X5.  [find_column] takes the first column of the schema whose title
    contains any keyword, whatever the case of titles and keywords and
    whatever the order of the keywords; a keyword that contains another
    keyword of the list never decides; and when the item has no cell for
    that first column the result is empty, whatever later columns hold. *)
Theorem find_column_first_match (item : RawItem) (cols : dict ColMeta)
  (keywords : list string) :
  (forall other,
     (forall kw, In kw keywords <-> In kw other) ->
     find_column item cols other = find_column item cols keywords) /\
  (forall longer,
     (forall kw2, In kw2 longer ->
        exists kw1, In kw1 keywords /\ contains (lower kw2) (lower kw1) = true) ->
     find_column item cols (List.app keywords longer) = find_column item cols keywords) /\
  find_column item cols (map lower keywords) = find_column item cols keywords /\
  (forall before col_id col_meta after,
     cols = List.app before ((col_id, col_meta) :: after) ->
     forallb (fun kv => negb (title_matches keywords (snd kv))) before = true ->
     title_matches keywords col_meta = true ->
     find_column item cols keywords = get_or item col_id "") /\
  (forallb (fun kv => negb (title_matches keywords (snd kv))) cols = true ->
   find_column item cols keywords = "").
Proof.
  split; [|split; [|split; [|split]]].
  - intros other H. apply find_column_ext. intros m.
    apply bool_eq_iff. rewrite !title_matches_In.
    split; intros (kw & Hk & C); exists kw; split; auto; now apply H.
  - intros longer H. apply find_column_ext. intros m.
    apply bool_eq_iff. rewrite !title_matches_In.
    split; intros (kw & Hk & C).
    + apply in_app_or in Hk. destruct Hk as [Hk|Hk]; [now exists kw|].
      destruct (H kw Hk) as (kw1 & Hk1 & C1). exists kw1. split; [assumption|].
      exact (contains_trans _ _ _ C C1).
    + exists kw. split; [apply in_or_app; now left | exact C].
  - apply find_column_ext. intros m. unfold title_matches.
    rewrite map_map. f_equal. apply map_ext. intros kw. apply lower_idem.
  - intros before col_id col_meta after -> Hb Hm.
    induction before as [|[c m] before IH]; simpl in *.
    + unfold title_matches in Hm. now rewrite Hm.
    + apply andb_true_iff in Hb. destruct Hb as [Hc Hb].
      unfold title_matches in Hc. apply negb_true_iff in Hc. rewrite Hc.
      now apply IH.
  - induction cols as [|[c m] rest IH]; simpl; [reflexivity|]. intros Hb.
    apply andb_true_iff in Hb. destruct Hb as [Hc Hb].
    unfold title_matches in Hc. apply negb_true_iff in Hc. rewrite Hc.
    now apply IH.
Qed.

Lemma find_column_first_match_witness :
  find_column [("c_status", "Won")]
    [("c_stage", text_column "Deal Stage"); ("c_status", text_column "Deal Status")]
    ["status"; "deal status"]
  = find_column [("c_status", "Won")]
      [("c_stage", text_column "Deal Stage"); ("c_status", text_column "Deal Status")]
      ["status"] /\
  find_column [("c_other", "x")]
    [("c_status", text_column "WO Status"); ("c_other", text_column "Execution Status")]
    ["execution status"; "exec status"; "status"] = "".
Proof.
  split.
  - apply (proj1 (proj2 (find_column_first_match [("c_status", "Won")]
        [("c_stage", text_column "Deal Stage"); ("c_status", text_column "Deal Status")]
        ["status"])) ["deal status"]).
    intros kw2 [<-|[]]. exists "status". split; [now left | reflexivity].
  - apply (proj1 (proj2 (proj2 (proj2 (find_column_first_match [("c_other", "x")]
        [("c_status", text_column "WO Status"); ("c_other", text_column "Execution Status")]
        ["execution status"; "exec status"; "status"]))))
        [] "c_status" (text_column "WO Status")
        [("c_other", text_column "Execution Status")]); reflexivity.
Defined.

(** ** Amounts in shorthand *)

Lemma grouping_class (c : ascii) :
  is_grouping c = true ->
  is_space c = false /\ lower_char c = c /\ is_underscore c = false /\
  (is_digit c = false -> code c = 44) /\
  c <> "{"%char /\ c <> ascii_of_nat 34 /\
  (forall r, first_marker currency_markers (String c r) = None).
Proof.
  destruct c as [[] [] [] [] [] [] [] []]; intros H; try discriminate H;
    repeat split; try reflexivity; try discriminate.
Qed.

Lemma digit_class (c : ascii) :
  is_digit c = true ->
  is_grouping c = true /\ 0 <= code c - 48 <= 9 /\
  (code c =? 45) = false /\ (code c =? 43) = false /\ (code c =? 44) = false /\
  (c =? "i")%char = false /\ (c =? "n")%char = false /\
  c <> "r"%char /\ c <> "l"%char /\ c <> "k"%char.
Proof.
  destruct c as [[] [] [] [] [] [] [] []]; intros H; try discriminate H;
    repeat split; try reflexivity; try discriminate; vm_compute; discriminate.
Qed.

(** *** Texts without blanks *)

Lemma strip_no_space (s : string) :
  forallb (fun c => negb (is_space c)) (list_ascii_of_string s) = true -> strip s = s.
Proof.
  intros H. unfold strip.
  assert (Hl : lstrip s = s).
  { destruct s as [|c r]; [reflexivity|]. simpl in *.
    apply andb_true_iff in H. destruct H as [H _].
    apply negb_true_iff in H. now rewrite H. }
  rewrite Hl. clear Hl.
  induction s as [|c r IH]; [reflexivity|]. simpl in *.
  apply andb_true_iff in H. destruct H as [Hc Hr]. apply negb_true_iff in Hc.
  rewrite (IH Hr). destruct r; [now rewrite Hc | reflexivity].
Qed.

Lemma list_ascii_app (a b : string) :
  list_ascii_of_string (a ++ b)
  = List.app (list_ascii_of_string a) (list_ascii_of_string b).
Proof. induction a as [|c r IH]; simpl; [reflexivity | now rewrite IH]. Qed.

Lemma str_filter_app (keep : ascii -> bool) (a b : string) :
  str_filter keep (a ++ b) = str_filter keep a ++ str_filter keep b.
Proof.
  induction a as [|c r IH]; simpl; [reflexivity|].
  destruct (keep c); simpl; now rewrite IH.
Qed.

Lemma str_filter_list (keep : ascii -> bool) (s : string) :
  str_filter keep s = string_of_list_ascii (filter keep (list_ascii_of_string s)).
Proof.
  induction s as [|c r IH]; simpl; [reflexivity|].
  destruct (keep c); simpl; now rewrite IH.
Qed.

(** *** Suffixes *)

Lemma string_length_app (a b : string) :
  String.length (a ++ b) = (String.length a + String.length b)%nat.
Proof. induction a as [|c r IH]; simpl; [reflexivity | now rewrite IH]. Qed.

Lemma substring_head (a b : string) : String.substring 0 (String.length a) (a ++ b) = a.
Proof.
  induction a as [|c r IH]; simpl.
  - destruct b; reflexivity.
  - now rewrite IH.
Qed.

Lemma substring_tail (a b : string) :
  String.substring (String.length a) (String.length b) (a ++ b) = b.
Proof.
  induction a as [|c r IH]; simpl; [|exact IH].
  pose proof (substring_head b "") as H.
  assert (E : b ++ "" = b) by (clear; induction b as [|x b IH]; simpl; [|rewrite IH]; reflexivity).
  now rewrite E in H.
Qed.

Lemma substring_split (s : string) :
  forall n, (n <= String.length s)%nat ->
  s = String.substring 0 n s ++ String.substring n (String.length s - n) s.
Proof.
  induction s as [|c r IH]; intros n Hn.
  - simpl in Hn. assert (n = 0%nat) by lia. subst. reflexivity.
  - destruct n as [|n].
    + simpl. f_equal. pose proof (substring_head r "") as H.
      assert (E : r ++ "" = r)
        by (clear; induction r as [|x b IH]; simpl; [|rewrite IH]; reflexivity).
      rewrite E in H. now rewrite H.
    + simpl in *. f_equal. apply IH. lia.
Qed.

Lemma endswith_app (a p : string) : endswith (a ++ p) p = true.
Proof.
  unfold endswith. rewrite string_length_app.
  replace (String.length a + String.length p - String.length p)%nat
    with (String.length a) by lia.
  rewrite substring_tail, String.eqb_refl.
  apply andb_true_iff. split; [apply Nat.leb_le; lia | reflexivity].
Qed.

Lemma endswith_spec (s p : string) :
  endswith s p = true -> exists a, s = a ++ p.
Proof.
  unfold endswith. intros H. apply andb_true_iff in H. destruct H as [Hl He].
  apply Nat.leb_le in Hl. apply String.eqb_eq in He.
  exists (String.substring 0 (String.length s - String.length p) s).
  pose proof (substring_split s (String.length s - String.length p) ltac:(lia)) as Hs.
  replace (String.length s - (String.length s - String.length p))%nat
    with (String.length p) in Hs by lia.
  now rewrite He in Hs.
Qed.

Lemma app_last_char (a b : string) (c d : ascii) :
  a ++ String c "" = b ++ String d "" -> c = d.
Proof.
  revert b. induction a as [|x a IH]; intros b H.
  - destruct b as [|y b]; simpl in H; [now inversion H|].
    inversion H. destruct b; discriminate.
  - destruct b as [|y b]; simpl in H.
    + inversion H. destruct a; discriminate.
    + inversion H. eauto.
Qed.

Lemma endswith_other_last (a p : string) (c d : ascii) :
  c <> d -> endswith (a ++ String c "") (p ++ String d "") = false.
Proof.
  intros N. destruct (endswith _ _) eqn:E; [|reflexivity].
  destruct (endswith_spec _ _ E) as [b H].
  rewrite <- append_assoc in H. now apply app_last_char in H.
Qed.

Lemma drop_last_app (a p : string) : drop_last (String.length p) (a ++ p) = a.
Proof.
  unfold drop_last. rewrite string_length_app.
  replace (String.length a + String.length p - String.length p)%nat
    with (String.length a) by lia.
  apply substring_head.
Qed.

(** *** Digits *)

Lemma span_digits_all (l : list ascii) :
  forallb is_digit l = true -> span_digits l = (l, []).
Proof.
  induction l as [|c r IH]; simpl; [reflexivity|]. intros H.
  apply andb_true_iff in H. destruct H as [Hc Hr]. rewrite Hc, (IH Hr). reflexivity.
Qed.

Lemma digits_value_nonneg (l : list ascii) :
  forallb is_digit l = true -> 0 <= digits_value l.
Proof.
  unfold digits_value.
  assert (G : forall acc, 0 <= acc -> forallb is_digit l = true ->
              0 <= fold_left (fun a c => 10 * a + (code c - 48)) l acc).
  { induction l as [|c r IH]; intros acc Ha H; cbn [fold_left]; [assumption|].
    cbn [forallb] in H. apply andb_true_iff in H. destruct H as [Hc Hr].
    destruct (digit_class c Hc) as (_ & B & _).
    apply IH; [lia | assumption]. }
  apply G. lia.
Qed.

Lemma no_space_digits (l : list ascii) :
  forallb is_digit l = true -> forallb (fun c => negb (is_space c)) l = true.
Proof.
  induction l as [|c r IH]; simpl; [reflexivity|]. intros H.
  apply andb_true_iff in H. destruct H as [Hc Hr].
  destruct (digit_class c Hc) as (G & _).
  destruct (grouping_class c G) as (S & _). rewrite S. simpl. now apply IH.
Qed.

Lemma no_underscore_digits (l : list ascii) :
  forallb is_digit l = true -> existsb is_underscore l = false.
Proof.
  induction l as [|c r IH]; simpl; [reflexivity|]. intros H.
  apply andb_true_iff in H. destruct H as [Hc Hr].
  destruct (digit_class c Hc) as (G & _).
  destruct (grouping_class c G) as (_ & _ & U & _). rewrite U. simpl. now apply IH.
Qed.

Lemma float_of_digits (m : Z) : 0 <= m -> decimal_to_float false m 0 = float_of_Z m.
Proof.
  intros Hm. destruct m as [|p|p]; [reflexivity | | lia].
  unfold decimal_to_float, float_of_Z. change (10 ^ 0) with 1.
  now rewrite Z.mul_1_r.
Qed.

(** [float] of a text of digits is the float of the integer they spell. *)
Lemma py_float_digits (l : list ascii) :
  l <> [] -> forallb is_digit l = true ->
  py_float (string_of_list_ascii l) = Some (float_of_Z (digits_value l)).
Proof.
  intros Hl Hd. unfold py_float.
  rewrite strip_no_space
    by (rewrite list_ascii_of_string_of_list_ascii; now apply no_space_digits).
  rewrite list_ascii_of_string_of_list_ascii.
  rewrite (no_underscore_digits l Hd).
  destruct l as [|c r]; [contradiction|].
  pose proof Hd as Hd'. simpl in Hd'. apply andb_true_iff in Hd'. destruct Hd' as [Hc Hr].
  destruct (digit_class c Hc) as (G & _ & M & P & _ & I & N & _).
  destruct (grouping_class c G) as (_ & Lc & _).
  unfold parse_sign. rewrite M, P.
  cbn [string_of_list_ascii lower String.eqb]. rewrite Lc, I, N. cbn [andb orb].
  rewrite (span_digits_all (c :: r) Hd). rewrite app_nil_r.
  cbn [parse_exponent List.length Z.of_nat]. change (0 - 0) with 0.
  now rewrite (float_of_digits _ (digits_value_nonneg _ Hd)).
Qed.

(** *** Currency signs and separators *)

Lemma sub_currency_grouped (body suffix : string) :
  forallb is_grouping (list_ascii_of_string body) = true ->
  sub_currency 0 suffix = suffix ->
  sub_currency 0 (body ++ suffix) = body ++ suffix.
Proof.
  intros H Hs. induction body as [|c r IH]; [exact Hs|].
  simpl in H. apply andb_true_iff in H. destruct H as [Hc Hr].
  destruct (grouping_class c Hc) as (_ & _ & _ & _ & _ & _ & F).
  change (String c r ++ suffix) with (String c (r ++ suffix)).
  cbn [sub_currency]. rewrite F. now rewrite (IH Hr).
Qed.

Lemma sub_currency_sign (sign rest : string) :
  In sign CURRENCY_SIGNS -> sub_currency 0 (sign ++ rest) = sub_currency 0 rest.
Proof.
  intros H. simpl in H.
  repeat destruct H as [<-|H]; try contradiction; destruct rest; reflexivity.
Qed.

Lemma sub_separators_grouped (body suffix : string) :
  forallb is_grouping (list_ascii_of_string body) = true ->
  sub_separators suffix = suffix ->
  sub_separators (body ++ suffix) = string_of_list_ascii (digits_of body) ++ suffix.
Proof.
  intros H Hs. unfold sub_separators in *. rewrite str_filter_app, Hs. f_equal.
  rewrite str_filter_list. f_equal. unfold digits_of.
  induction (list_ascii_of_string body) as [|c r IH]; [reflexivity|].
  simpl in H. apply andb_true_iff in H. destruct H as [Hc Hr].
  destruct (grouping_class c Hc) as (S & _ & _ & C & _).
  cbn [filter]. rewrite S, orb_false_r.
  destruct (is_digit c) eqn:D.
  - destruct (digit_class c D) as (_ & _ & _ & _ & K & _). rewrite K. cbn [negb].
    now rewrite (IH Hr).
  - rewrite (C eq_refl). cbn. now apply IH.
Qed.

Lemma lower_digits (l : list ascii) :
  forallb is_digit l = true -> lower (string_of_list_ascii l) = string_of_list_ascii l.
Proof.
  induction l as [|c r IH]; simpl; [reflexivity|]. intros H.
  apply andb_true_iff in H. destruct H as [Hc Hr].
  destruct (digit_class c Hc) as (G & _).
  destruct (grouping_class c G) as (_ & Lc & _). now rewrite Lc, (IH Hr).
Qed.

Lemma digits_last (l : list ascii) :
  l <> [] -> forallb is_digit l = true ->
  exists a d, string_of_list_ascii l = a ++ String d "" /\ is_digit d = true.
Proof.
  induction l as [|c r IH]; [contradiction|]. intros _ H.
  simpl in H. apply andb_true_iff in H. destruct H as [Hc Hr].
  destruct r as [|c' r'].
  - exists "", c. split; [reflexivity | assumption].
  - destruct (IH ltac:(discriminate) Hr) as (a & d & E & Hd).
    exists (String c a), d. split; [|assumption].
    change (string_of_list_ascii (c :: c' :: r'))
      with (String c (string_of_list_ascii (c' :: r'))).
    now rewrite E.
Qed.

Lemma append_nil_r (s : string) : s ++ "" = s.
Proof. induction s as [|c r IH]; simpl; [|rewrite IH]; reflexivity. Qed.

(** The suffix test of [normalize_revenue] on digits followed by a known
    suffix. *)
Lemma shorthand_suffix (l : list ascii) (suffix : string) (mult : float) :
  l <> [] -> forallb is_digit l = true -> In (suffix, mult) SHORTHANDS ->
  (let text := string_of_list_ascii l ++ suffix in
   if endswith (lower text) "cr" then (f1e7, drop_last 2 text)
   else if endswith (lower text) "l" then (f1e5, drop_last 1 text)
   else if endswith (lower text) "k" then (f1e3, drop_last 1 text)
   else (f1, text))
  = (mult, string_of_list_ascii l).
Proof.
  intros Hl Hd Hin. cbv zeta. rewrite lower_app, (lower_digits l Hd).
  set (D := string_of_list_ascii l).
  assert (K : forall c : ascii,
            c <> "r"%char -> endswith (D ++ String c "") "cr" = false).
  { intros c N. apply (endswith_other_last D "c" c "r" N). }
  assert (K1 : forall (c d : ascii),
            c <> d -> endswith (D ++ String c "") (String d "") = false).
  { intros c d N. apply (endswith_other_last D "" c d N). }
  simpl in Hin.
  destruct Hin as [E|[E|[E|[E|[E|[E|[E|[E|[E|[]]]]]]]]]]; inversion E; subst; clear E.
  - change (lower "") with "". rewrite append_nil_r.
    destruct (digits_last l Hl Hd) as (a & d & Ea & Dd). fold D in Ea.
    destruct (digit_class d Dd) as (_ & _ & _ & _ & _ & _ & _ & Nr & Nl & Nk).
    assert (Q1 : endswith D "cr" = false)
      by (rewrite Ea; apply (endswith_other_last a "c" d "r" Nr)).
    assert (Q2 : endswith D "l" = false)
      by (rewrite Ea; apply (endswith_other_last a "" d "l" Nl)).
    assert (Q3 : endswith D "k" = false)
      by (rewrite Ea; apply (endswith_other_last a "" d "k" Nk)).
    now rewrite Q1, Q2, Q3.
  - change (lower "k") with "k".
    rewrite (K "k"%char ltac:(discriminate)), (K1 "k"%char "l"%char ltac:(discriminate)).
    rewrite (endswith_app D "k"). f_equal; apply (drop_last_app D "k").
  - change (lower "K") with "k".
    rewrite (K "k"%char ltac:(discriminate)), (K1 "k"%char "l"%char ltac:(discriminate)).
    rewrite (endswith_app D "k"). f_equal; apply (drop_last_app D "K").
  - change (lower "l") with "l".
    rewrite (K "l"%char ltac:(discriminate)).
    rewrite (endswith_app D "l"). f_equal; apply (drop_last_app D "l").
  - change (lower "L") with "l".
    rewrite (K "l"%char ltac:(discriminate)).
    rewrite (endswith_app D "l"). f_equal; apply (drop_last_app D "L").
  - change (lower "cr") with "cr".
    rewrite (endswith_app D "cr"). f_equal; apply (drop_last_app D "cr").
  - change (lower "Cr") with "cr".
    rewrite (endswith_app D "cr"). f_equal; apply (drop_last_app D "Cr").
  - change (lower "CR") with "cr".
    rewrite (endswith_app D "cr"). f_equal; apply (drop_last_app D "CR").
  - change (lower "cR") with "cr".
    rewrite (endswith_app D "cr"). f_equal; apply (drop_last_app D "cR").
Qed.

Lemma grouped_digits_parts (body : string) :
  grouped_digits body = true ->
  forallb is_grouping (list_ascii_of_string body) = true /\
  digits_of body <> [] /\ forallb is_digit (digits_of body) = true /\
  exists c r, body = String c r /\ is_grouping c = true.
Proof.
  unfold grouped_digits, digits_of. intros H.
  apply andb_true_iff in H. destruct H as [Hg He].
  split; [exact Hg|]. split; [|split].
  - apply existsb_exists in He. destruct He as (c & Hc & Dc).
    intros E. assert (Hin : In c (filter is_digit (list_ascii_of_string body)))
      by (apply filter_In; auto).
    rewrite E in Hin. destruct Hin.
  - apply forallb_forall. intros c Hc. apply filter_In in Hc. apply Hc.
  - destruct body as [|c r]; [discriminate He|].
    exists c, r. split; [reflexivity|]. simpl in Hg.
    apply andb_true_iff in Hg. apply Hg.
Qed.

Lemma no_space_grouped (l : list ascii) :
  forallb is_grouping l = true -> forallb (fun c => negb (is_space c)) l = true.
Proof.
  induction l as [|c r IH]; simpl; [reflexivity|]. intros H.
  apply andb_true_iff in H. destruct H as [Hc Hr].
  destruct (grouping_class c Hc) as (S & _). rewrite S. simpl. now apply IH.
Qed.

(** X6.  An amount written as an optional currency sign, digits with or
    without commas, and an optional [k], [L] or [Cr] in either case, is the
    integer the digits spell times 1, 1e3, 1e5 or 1e7: the commas, wherever
    they stand, and the sign change nothing. *)
Theorem revenue_shorthand `{L : PyRuntime} (sign body suffix : string) (mult : float) :
  In sign CURRENCY_SIGNS ->
  In (suffix, mult) SHORTHANDS ->
  grouped_digits body = true ->
  normalize_revenue (VStr (sign ++ body ++ suffix))
  = Ok (fmul (float_of_Z (grouped_value body)) mult).
Proof.
  intros Hsign Hsuf Hbody.
  destruct (grouped_digits_parts body Hbody) as (Hg & Hne & Hd & c & r & Eb & Hc).
  assert (Sfx : forallb (fun c => negb (is_space c)) (list_ascii_of_string suffix) = true
                /\ sub_currency 0 suffix = suffix /\ sub_separators suffix = suffix).
  { simpl in Hsuf.
    destruct Hsuf as [E|[E|[E|[E|[E|[E|[E|[E|[E|[]]]]]]]]]]; inversion E; subst;
      repeat split; reflexivity. }
  destruct Sfx as (Sp & Sc & Ss).
  assert (Sgn : forallb (fun c => negb (is_space c)) (list_ascii_of_string sign) = true).
  { simpl in Hsign. repeat destruct Hsign as [<-|Hsign]; try contradiction; reflexivity. }
  assert (Hstrip : strip (sign ++ body ++ suffix) = sign ++ body ++ suffix).
  { apply strip_no_space. rewrite !list_ascii_app, !forallb_app, Sgn, Sp.
    now rewrite (no_space_grouped _ Hg). }
  assert (Hstart : String.eqb (sign ++ body ++ suffix) "" = false /\
                   startswith (sign ++ body ++ suffix) "{" = false /\
                   startswith (sign ++ body ++ suffix) dquote = false).
  { destruct (grouping_class c Hc) as (_ & _ & _ & _ & N1 & N2 & _).
    assert (B : String.eqb (body ++ suffix) "" = false /\
                startswith (body ++ suffix) "{" = false /\
                startswith (body ++ suffix) dquote = false).
    { rewrite Eb. unfold startswith, dquote. cbn [append String.eqb String.prefix].
      split; [reflexivity|]. split.
      - destruct (ascii_dec "{" c) as [E|_]; [now elim N1 | reflexivity].
      - destruct (ascii_dec (ascii_of_nat 34) c) as [E|_]; [now elim N2 | reflexivity]. }
    simpl in Hsign.
    destruct Hsign as [<-|Hsign]; [exact B|].
    repeat destruct Hsign as [<-|Hsign]; try contradiction; repeat split; reflexivity. }
  destruct Hstart as (H0 & H1 & H2).
  unfold normalize_revenue. rewrite H0, Hstrip, H1, H2. cbn [orb].
  rewrite (sub_currency_sign sign (body ++ suffix) Hsign).
  rewrite (sub_currency_grouped body suffix Hg Sc).
  rewrite (sub_separators_grouped body suffix Hg Ss).
  pose proof (shorthand_suffix (digits_of body) suffix mult Hne Hd Hsuf) as Hx.
  cbv zeta in Hx. rewrite Hx.
  now rewrite (py_float_digits (digits_of body) Hne Hd).
Qed.

Lemma revenue_shorthand_witness :
  grouped_digits "1,20,000" = true /\
  @normalize_revenue ref_runtime (VStr "₹1,20,000") = Ok (float_of_Z 120000) /\
  @normalize_revenue ref_runtime (VStr "Rs.45Cr") = Ok (float_of_Z 450000000).
Proof.
  split; [reflexivity|]. split.
  - refine (eq_trans (@revenue_shorthand ref_runtime "₹" "1,20,000" "" f1 _ _ _) _);
      [simpl; auto | simpl; auto | reflexivity | vm_compute; reflexivity].
  - refine (eq_trans (@revenue_shorthand ref_runtime "Rs." "45" "Cr" f1e7 _ _ _) _);
      [simpl; auto 10 | simpl; auto 10 | reflexivity | vm_compute; reflexivity].
Defined.

(** ** What the builders keep in every record *)

Lemma Forall2_In_right {A B : Type} (R : A -> B -> Prop) (l1 : list A) (l2 : list B) :
  Forall2 R l1 l2 -> forall y, In y l2 -> exists x, In x l1 /\ R x y.
Proof.
  induction 1 as [|a b l1 l2 Hab F IH]; intros y Hy; [destruct Hy|].
  destruct Hy as [<-|Hy].
  - exists a. split; [now left | assumption].
  - destruct (IH y Hy) as (x & Hx & Hr). exists x. split; [now right | assumption].
Qed.

Section BuiltRows.
Context {L : PyRuntime}.

Lemma deal_row_fields (cols : dict ColMeta) (item : RawItem) (row : Deal string) :
  deal_row cols item = Ok (Some row) ->
  status row = map_deal_status (find_column item cols ["status"; "deal status"])
                               (find_column item cols ["stage"; "deal stage"]) /\
  stage row = normalize_text (find_column item cols ["stage"; "deal stage"]) /\
  sector row = match normalize_text (find_column item cols ["sector"; "service"]) with
               | EmptyString => "unknown"
               | s => s
               end /\
  probability row
    = get_or PROBABILITY_MAP
        (normalize_text (find_column item cols ["probability"; "closure"])) f0 /\
  or_else (normalize_date (close_date_cell cols item))
          (normalize_date (tentative_date_cell cols item)) = Ok (close_date row) /\
  normalize_date (created_date_cell cols item) = Ok (created_date row).
Proof.
  unfold deal_row, close_date_cell, tentative_date_cell, created_date_cell.
  set (name := strip (get_or item "_item_name" "")).
  destruct (String.eqb name "" || in_strs (lower name) ["deal name"; ""]); [discriminate|].
  destruct (normalize_revenue _) as [revenue|]; [|discriminate]. simpl bind.
  destruct (or_else _ _) as [cd|]; [|discriminate]. simpl bind.
  destruct (normalize_date _) as [cr|]; [|discriminate]. simpl bind.
  intros H. inversion H; subst; clear H. simpl. auto 10.
Qed.

Lemma workorder_row_fields (cols : dict ColMeta) (item : RawItem)
  (row : WorkOrder string) :
  workorder_row cols item = Ok (Some row) ->
  exec_status row = exec_category (normalize_text (exec_status_cell cols item)) /\
  is_active row = in_strs (exec_status row) ACTIVE_CATEGORIES /\
  wo_sector row = match normalize_text (find_column item cols ["sector"]) with
                  | EmptyString => "unknown"
                  | s => s
                  end /\
  unbilled_amount row = max0 (fsub (amount_excl_gst row) (billed_excl_gst row)).
Proof.
  unfold workorder_row, exec_status_cell.
  set (name := strip (get_or item "_item_name" "")).
  destruct (String.eqb name ""); [discriminate|].
  destruct (normalize_revenue _) as [excl|]; [|discriminate]. simpl bind.
  destruct (if feqb excl f0 then _ else _) as [amount|]; [|discriminate]. simpl bind.
  destruct (normalize_revenue _) as [billed|]; [|discriminate]. simpl bind.
  destruct (normalize_date _) as [sd|]; [|discriminate]. simpl bind.
  destruct (normalize_date _) as [ed|]; [|discriminate]. simpl bind.
  intros H. inversion H; subst; clear H. cbn [exec_status is_active wo_sector
    unbilled_amount amount_excl_gst billed_excl_gst]. auto.
Qed.

(** Each item kept has its record in the frame. *)
Lemma clean_deals_df_item (raw_items : list RawItem) (schema : Schema)
  (df : list DealRecord) (item : RawItem) :
  clean_deals_df raw_items schema = Ok df ->
  In item raw_items -> deal_item_dropped item = false ->
  exists row,
    deal_row (schema_columns schema) item = Ok (Some row) /\ In (deal_dates row) df.
Proof.
  intros H Hin Hkeep.
  destruct (clean_deals_df_rows _ _ _ H) as (rows & -> & F).
  assert (Hf : In item (filter (fun i => negb (deal_item_dropped i)) raw_items)).
  { apply filter_In. split; [assumption | now rewrite Hkeep]. }
  destruct (Forall2_In_left _ _ _ F item Hf) as (row & Hrow & Hbody).
  exists row. split; [assumption | now apply in_map].
Qed.

Lemma clean_workorders_df_item (raw_items : list RawItem) (schema : Schema)
  (df : list WorkOrderRecord) (item : RawItem) :
  clean_workorders_df raw_items schema = Ok df ->
  In item raw_items -> workorder_item_dropped item = false ->
  exists row,
    workorder_row (schema_columns schema) item = Ok (Some row) /\
    In (workorder_dates row) df.
Proof.
  intros H Hin Hkeep.
  destruct (clean_workorders_df_rows _ _ _ H) as (rows & -> & F).
  assert (Hf : In item (filter (fun i => negb (workorder_item_dropped i)) raw_items)).
  { apply filter_In. split; [assumption | now rewrite Hkeep]. }
  destruct (Forall2_In_left _ _ _ F item Hf) as (row & Hrow & Hbody).
  exists row. split; [assumption | now apply in_map].
Qed.

(** Each record of the frame is the row of some item kept. *)
Lemma clean_deals_df_record (raw_items : list RawItem) (schema : Schema)
  (df : list DealRecord) (r : DealRecord) :
  clean_deals_df raw_items schema = Ok df -> In r df ->
  exists item row,
    In item raw_items /\ deal_row (schema_columns schema) item = Ok (Some row) /\
    r = deal_dates row.
Proof.
  intros H Hr.
  destruct (clean_deals_df_rows _ _ _ H) as (rows & -> & F).
  apply in_map_iff in Hr. destruct Hr as (row & <- & Hrow).
  destruct (Forall2_In_right _ _ _ F row Hrow) as (item & Hi & Hb).
  apply filter_In in Hi. exists item, row. repeat split; tauto.
Qed.

Lemma clean_workorders_df_record (raw_items : list RawItem) (schema : Schema)
  (df : list WorkOrderRecord) (w : WorkOrderRecord) :
  clean_workorders_df raw_items schema = Ok df -> In w df ->
  exists item row,
    In item raw_items /\ workorder_row (schema_columns schema) item = Ok (Some row) /\
    w = workorder_dates row.
Proof.
  intros H Hr.
  destruct (clean_workorders_df_rows _ _ _ H) as (rows & -> & F).
  apply in_map_iff in Hr. destruct Hr as (row & <- & Hrow).
  destruct (Forall2_In_right _ _ _ F row Hrow) as (item & Hi & Hb).
  apply filter_In in Hi. exists item, row. repeat split; tauto.
Qed.

End BuiltRows.

Lemma max0_not_negative (x : float) : fleb f0 (max0 x) = true.
Proof.
  unfold max0. destruct (fltb f0 x) eqn:E; [|reflexivity].
  destruct x as [s|s| |s m e]; try destruct s; try discriminate E; reflexivity.
Qed.

Lemma probability_in_map (k : string) : In (get_or PROBABILITY_MAP k f0) PROBABILITIES.
Proof.
  unfold get_or, PROBABILITY_MAP, PROBABILITIES. simpl.
  repeat match goal with |- context [if ?b then _ else _] => destruct b end;
    simpl; auto.
Qed.

Lemma sector_or_unknown (cell : string) :
  let s := match normalize_text cell with
           | EmptyString => "unknown"
           | s => s
           end in
  s <> "" /\ normalize_text s = s.
Proof.
  simpl. destruct (normalize_text cell) as [|c r] eqn:E.
  - split; [discriminate | reflexivity].
  - split; [discriminate|]. rewrite <- E. apply normalize_text_idem.
Qed.

Lemma exec_category_range (s : string) : In (exec_category s) EXEC_CATEGORIES.
Proof.
  unfold exec_category, EXEC_CATEGORIES.
  repeat match goal with |- context [if ?b then _ else _] => destruct b end;
    simpl; auto 10.
Qed.

(** X7.  Every record of a deals frame has one of the four canonical
    statuses, a probability from [PROBABILITY_MAP], a normalized stage, a
    normalized sector that is never empty, and a trimmed name that is
    neither empty nor the header text. *)
Theorem deals_frame_invariants `{L : PyRuntime}
  (raw_items : list RawItem) (schema : Schema) (df : list DealRecord) :
  clean_deals_df raw_items schema = Ok df ->
  Forall (fun r =>
            In (status r) DEAL_STATUSES /\
            In (probability r) PROBABILITIES /\
            normalize_text (stage r) = stage r /\
            sector r <> "" /\ normalize_text (sector r) = sector r /\
            strip (deal_name r) = deal_name r /\
            name_norm (deal_name r) <> "" /\
            name_norm (deal_name r) <> "deal name") df.
Proof.
  intros H. apply Forall_forall. intros r Hr.
  destruct (clean_deals_df_record _ _ _ _ H Hr) as (item & row & Hi & Hb & ->).
  destruct (deal_row_fields _ _ _ Hb) as (St & Sg & Se & Pr & _).
  destruct (deal_row_appends _ _ _ Hb) as (Dr & Nm & _).
  cbn [deal_dates status probability stage sector deal_name].
  rewrite St, Sg, Se, Pr, Nm.
  split; [apply map_deal_status_values|].
  split; [apply probability_in_map|].
  split; [apply normalize_text_idem|].
  split; [apply sector_or_unknown|].
  split; [apply sector_or_unknown|].
  unfold deal_item_dropped in Dr. apply orb_false_iff in Dr. destruct Dr as [D1 D2].
  apply String.eqb_neq in D1, D2.
  assert (S : strip (item_name item) = item_name item) by apply strip_idem.
  split; [exact S|]. unfold name_norm. rewrite S.
  split; [|exact D2]. intros E. apply lower_empty in E. contradiction.
Qed.

Lemma deals_frame_invariants_witness :
  exists df,
    @clean_deals_df ref_runtime sample_deal_items sample_deals_schema = Ok df /\
    map status df = ["Won"; "Open"] /\
    map sector df = ["mining"; "unknown"] /\
    Forall (fun r => In (status r) DEAL_STATUSES /\ sector r <> "") df.
Proof.
  eexists. split; [vm_compute; reflexivity|].
  split; [reflexivity|]. split; [reflexivity|].
  eapply Forall_impl;
    [| apply (@deals_frame_invariants ref_runtime sample_deal_items sample_deals_schema);
       vm_compute; reflexivity].
  intros r H. split; [apply H | apply H].
Defined.

(** X8.  Every record of a work-orders frame has one of the seven execution
    categories, is active exactly when its category is one of the five
    active ones (so never when ["Completed"] or ["Unknown"]), has a sector
    and a name that are never empty, and an unbilled amount that is
    [max(0.0, amount - billed)]: at least 0 and never [NaN], whatever the
    two amounts are. *)
Theorem workorders_frame_invariants `{L : PyRuntime}
  (raw_items : list RawItem) (schema : Schema) (df : list WorkOrderRecord) :
  clean_workorders_df raw_items schema = Ok df ->
  Forall (fun w =>
            In (exec_status w) EXEC_CATEGORIES /\
            is_active w = in_strs (exec_status w) ACTIVE_CATEGORIES /\
            (is_active w = true ->
             exec_status w <> "Completed" /\ exec_status w <> "Unknown") /\
            wo_sector w <> "" /\
            wo_name w <> "" /\
            unbilled_amount w = max0 (fsub (amount_excl_gst w) (billed_excl_gst w)) /\
            fleb f0 (unbilled_amount w) = true) df.
Proof.
  intros H. apply Forall_forall. intros w Hw.
  destruct (clean_workorders_df_record _ _ _ _ H Hw) as (item & row & Hi & Hb & ->).
  destruct (workorder_row_fields _ _ _ Hb) as (Ex & Ac & Se & Un).
  destruct (workorder_row_appends _ _ _ Hb) as (Dr & Nm & _).
  cbn [workorder_dates exec_status is_active wo_sector wo_name unbilled_amount
       amount_excl_gst billed_excl_gst].
  split; [rewrite Ex; apply exec_category_range|].
  split; [exact Ac|].
  split.
  { rewrite Ac. intros A. split; intros E; rewrite E in A; discriminate A. }
  split; [rewrite Se; apply sector_or_unknown|].
  split.
  { rewrite Nm. unfold workorder_item_dropped in Dr. now apply String.eqb_neq in Dr. }
  split; [exact Un|]. rewrite Un. apply max0_not_negative.
Qed.

Lemma workorders_frame_invariants_witness :
  exists w,
    @clean_workorders_df ref_runtime negative_workorder_batch sample_workorders_schema
      = Ok [w] /\
    fltb (amount_excl_gst w) f0 = true /\
    exec_status w = "Unknown" /\ is_active w = false /\
    fleb f0 (unbilled_amount w) = true.
Proof.
  destruct (@clean_workorders_df ref_runtime negative_workorder_batch
              sample_workorders_schema) as [df|e] eqn:E;
    [| vm_compute in E; discriminate E].
  pose proof (workorders_frame_invariants _ _ _ E) as F.
  vm_compute in E. injection E as <-.
  eexists. split; [reflexivity|].
  apply Forall_inv in F. destruct F as (_ & _ & _ & _ & _ & _ & U).
  split; [reflexivity|]. split; [reflexivity|]. split; [reflexivity|]. exact U.
Defined.

(** ** Edges of the work-orders builder *)

(** X9.  The test for [completed] comes first, so a work order whose
    execution status mentions it is ["Completed"] and not active even when
    the text also names another category, as [Partially Completed] does. *)
Theorem completed_status_wins `{L : PyRuntime}
  (raw_items : list RawItem) (schema : Schema) (df : list WorkOrderRecord)
  (item : RawItem) :
  clean_workorders_df raw_items schema = Ok df ->
  In item raw_items ->
  workorder_item_dropped item = false ->
  contains (normalize_text (exec_status_cell (schema_columns schema) item)) "completed"
    = true ->
  exists w,
    In w df /\ wo_name w = item_name item /\
    exec_status w = "Completed" /\ is_active w = false.
Proof.
  intros H Hin Hkeep Hc.
  destruct (clean_workorders_df_item _ _ _ _ H Hin Hkeep) as (row & Hb & Hw).
  destruct (workorder_row_fields _ _ _ Hb) as (Ex & Ac & _).
  destruct (workorder_row_appends _ _ _ Hb) as (_ & Nm & _).
  exists (workorder_dates row). split; [assumption|].
  cbn [workorder_dates wo_name exec_status is_active].
  assert (E : exec_status row = "Completed").
  { rewrite Ex. unfold exec_category. now rewrite Hc. }
  split; [exact Nm|]. split; [exact E|]. rewrite Ac, E. reflexivity.
Qed.

Lemma completed_status_wins_witness :
  exists w,
    @clean_workorders_df ref_runtime partial_workorder_batch sample_workorders_schema
      = Ok [w] /\
    exec_status w = "Completed" /\ is_active w = false.
Proof.
  destruct (@clean_workorders_df ref_runtime partial_workorder_batch
              sample_workorders_schema) as [df|e] eqn:E;
    [| vm_compute in E; discriminate E].
  destruct (completed_status_wins _ _ _ (hd [] partial_workorder_batch) E)
    as (w & Hw & _ & Ex & Ac).
  - simpl. auto.
  - reflexivity.
  - reflexivity.
  - vm_compute in E. injection E as <-.
    destruct Hw as [<-|[]].
    eexists. split; [reflexivity|]. split; [exact Ex | exact Ac].
Defined.

(** X10.  The fallback of [deal_name_linked] to the item's own name is taken
    only for an empty link cell: a cell of blanks is truthy, so the record
    is linked to the empty name, which no deal of a built frame has. *)
Theorem blank_link_cell_links_nothing `{L : PyRuntime}
  (raw_items : list RawItem) (schema : Schema) (df : list WorkOrderRecord)
  (item : RawItem) :
  clean_workorders_df raw_items schema = Ok df ->
  In item raw_items ->
  workorder_item_dropped item = false ->
  linked_deal_cell (schema_columns schema) item <> "" ->
  strip (linked_deal_cell (schema_columns schema) item) = "" ->
  exists w,
    In w df /\ wo_name w = item_name item /\ wo_name w <> "" /\
    deal_name_linked w = "" /\
    forall deal_items deal_schema deals_df,
      clean_deals_df deal_items deal_schema = Ok deals_df ->
      ~ In (name_norm (deal_name_linked w))
           (map (fun d => name_norm (deal_name d)) deals_df).
Proof.
  intros H Hin Hkeep Hne Hblank.
  destruct (clean_workorders_df_item _ _ _ _ H Hin Hkeep) as (row & Hb & Hw).
  destruct (workorder_row_appends _ _ _ Hb) as (_ & Nm & Lk & _).
  exists (workorder_dates row). split; [assumption|].
  cbn [workorder_dates wo_name deal_name_linked].
  unfold linked_deal_cell in Hne, Hblank.
  apply String.eqb_neq in Hne. rewrite Hne, Hblank in Lk.
  split; [exact Nm|]. split.
  { rewrite Nm. unfold workorder_item_dropped in Hkeep. now apply String.eqb_neq. }
  split; [exact Lk|].
  intros deal_items deal_schema deals_df Hd Hm. rewrite Lk in Hm.
  apply in_map_iff in Hm. destruct Hm as (d & Hn & Hd').
  destruct (clean_deals_df_record _ _ _ _ Hd Hd') as (it & drow & Hi & Hdb & ->).
  destruct (deal_row_appends _ _ _ Hdb) as (Dr & Dn & _).
  cbn [deal_dates deal_name] in Hn. rewrite Dn in Hn.
  unfold name_norm in Hn. change (lower (strip "")) with "" in Hn.
  unfold item_name in Hn. rewrite strip_idem in Hn.
  apply lower_empty in Hn.
  unfold deal_item_dropped, item_name in Dr. rewrite Hn in Dr. discriminate Dr.
Qed.

Lemma blank_link_cell_links_nothing_witness :
  exists w,
    @clean_workorders_df ref_runtime blank_link_batch sample_workorders_schema = Ok [w] /\
    wo_name w = "Survey" /\ deal_name_linked w = "".
Proof.
  destruct (@clean_workorders_df ref_runtime blank_link_batch
              sample_workorders_schema) as [df|e] eqn:E;
    [| vm_compute in E; discriminate E].
  destruct (blank_link_cell_links_nothing _ _ _ (hd [] blank_link_batch) E)
    as (w & Hw & Hn & _ & Hl & _).
  - simpl. auto.
  - reflexivity.
  - discriminate.
  - reflexivity.
  - vm_compute in E. injection E as <-.
    destruct Hw as [<-|[]].
    eexists. split; [reflexivity|]. split; [exact Hn | exact Hl].
Defined.

(** ** A date that is not text *)

Lemma for_each_item_raises {R : Type} (body : RawItem -> res (option R)) (e0 : exn)
  (raw_items : list RawItem) (item : RawItem) :
  (forall i e, body i = Raise e -> e = e0) ->
  In item raw_items -> body item = Raise e0 ->
  forall records, for_each_item body raw_items records = Raise e0.
Proof.
  intros Hall. induction raw_items as [|i rest IH]; intros Hin Hb records; [destruct Hin|].
  simpl. destruct (body i) as [[r|]|e] eqn:E; simpl.
  - destruct Hin as [->|Hin]; [congruence | now apply IH].
  - destruct Hin as [->|Hin]; [congruence | now apply IH].
  - now rewrite (Hall i e E).
Qed.

Section BadDates.
Context {L : PyRuntime}.

Lemma normalize_date_raises (v : string) (e : exn) :
  normalize_date v = Raise e -> e = TypeError.
Proof.
  unfold normalize_date. destruct (String.eqb v ""); [discriminate|].
  destruct (if startswith (strip v) "{" then _ else _) as [[]|]; try discriminate;
    intros H; now inversion H.
Qed.

Lemma normalize_date_type_error (cell : string) (kv : list (string * json)) :
  startswith (strip cell) "{" = true ->
  json_loads (strip cell) = Some (JDict kv) ->
  truthy (get_or kv "date" (JStr "")) = true ->
  (forall s, get_or kv "date" (JStr "") <> JStr s) ->
  normalize_date cell = Raise TypeError.
Proof.
  intros Hs Hj Ht Hn. unfold normalize_date.
  destruct (String.eqb cell "") eqn:E.
  { apply String.eqb_eq in E. subst. discriminate Hs. }
  rewrite Hs, Hj, Ht.
  destruct (get_or kv "date" (JStr "")) eqn:G; try reflexivity.
  now elim (Hn s).
Qed.

Lemma deal_row_raises (cols : dict ColMeta) (item : RawItem) (e : exn) :
  deal_row cols item = Raise e -> e = TypeError.
Proof.
  unfold deal_row.
  destruct (String.eqb _ "" || in_strs _ _); [discriminate|].
  destruct (normalize_revenue_text_returns
              (find_column item cols ["value"; "deal value"; "masked"])) as [f ->].
  simpl bind.
  destruct (or_else _ _) as [cd|e1] eqn:E1; simpl bind.
  - destruct (normalize_date (find_column item cols ["created"; "creation"]))
      as [cr|e2] eqn:E2; simpl bind; [discriminate|].
    intros H; inversion H; subst. exact (normalize_date_raises _ _ E2).
  - intros H; inversion H; subst. unfold or_else, bind in E1.
    destruct (normalize_date
                (find_column item cols ["close date"; "actual close"; "close date (a)"]))
      as [[d|]|e3] eqn:E3.
    + discriminate E1.
    + exact (normalize_date_raises _ _ E1).
    + inversion E1; subst. exact (normalize_date_raises _ _ E3).
Qed.

Lemma deal_row_bad_close_date (cols : dict ColMeta) (item : RawItem) :
  deal_item_dropped item = false ->
  normalize_date (close_date_cell cols item) = Raise TypeError ->
  deal_row cols item = Raise TypeError.
Proof.
  intros Hk Hd. unfold deal_item_dropped, item_name in Hk. unfold deal_row.
  simpl in_strs. rewrite eqb_lower_empty.
  apply orb_false_iff in Hk. destruct Hk as [K1 K2]. rewrite K1, K2. simpl orb.
  destruct (normalize_revenue_text_returns
              (find_column item cols ["value"; "deal value"; "masked"])) as [f ->].
  simpl bind. unfold close_date_cell in Hd. rewrite Hd. reflexivity.
Qed.

End BadDates.

(** X11.  A date cell is handed to [strptime] as the JSON decoder gives it: a
    cell holding a JSON object whose [date] is truthy and not text makes
    [normalize_date] raise [TypeError], and one such close-date cell in one
    kept item makes the whole deals build raise it: no frame is returned,
    whatever the other items hold. *)
Theorem json_date_not_text_aborts_build `{L : PyRuntime}
  (raw_items : list RawItem) (schema : Schema) (item : RawItem)
  (kv : list (string * json)) :
  In item raw_items ->
  deal_item_dropped item = false ->
  startswith (strip (close_date_cell (schema_columns schema) item)) "{" = true ->
  json_loads (strip (close_date_cell (schema_columns schema) item)) = Some (JDict kv) ->
  truthy (get_or kv "date" (JStr "")) = true ->
  (forall s, get_or kv "date" (JStr "") <> JStr s) ->
  normalize_date (close_date_cell (schema_columns schema) item) = Raise TypeError /\
  clean_deals_df raw_items schema = Raise TypeError.
Proof.
  intros Hin Hk Hs Hj Ht Hn.
  pose proof (normalize_date_type_error _ _ Hs Hj Ht Hn) as Hd.
  split; [exact Hd|].
  unfold clean_deals_df. destruct raw_items as [|i rest]; [destruct Hin|].
  rewrite (for_each_item_raises (deal_row (schema_columns schema)) TypeError
             (i :: rest) item).
  - reflexivity.
  - intros it e. apply deal_row_raises.
  - exact Hin.
  - now apply deal_row_bad_close_date.
Qed.

Lemma json_date_not_text_aborts_build_witness :
  @normalize_date ref_runtime numeric_date_cell = Raise TypeError /\
  @clean_deals_df ref_runtime bad_date_batch scenario_schema = Raise TypeError.
Proof.
  apply (@json_date_not_text_aborts_build ref_runtime bad_date_batch scenario_schema
           (nth 1 bad_date_batch []) [("date", JInt 20260520)]).
  - simpl. auto.
  - reflexivity.
  - reflexivity.
  - vm_compute. reflexivity.
  - reflexivity.
  - intros s. discriminate.
Defined.

(** ** Dates: the order of the formats *)

Section DateFormats.
Context {L : PyRuntime}.

Lemma try_formats_first (text : string) (before : list string) (fmt : string)
  (rest : list string) (iso : string) :
  Forall (fun f => strptime_iso text f = None) before ->
  strptime_iso text fmt = Some iso ->
  try_formats text (List.app before (fmt :: rest)) = Some iso.
Proof.
  induction 1 as [|f before Hf _ IH]; intros Hs; simpl.
  - now rewrite Hs.
  - rewrite Hf. now apply IH.
Qed.

Lemma try_formats_none (text : string) (fmts : list string) :
  Forall (fun f => strptime_iso text f = None) fmts -> try_formats text fmts = None.
Proof. induction 1 as [|f fmts Hf _ IH]; simpl; [reflexivity | now rewrite Hf]. Qed.

Lemma normalize_date_of_text (v : string) :
  v <> "" -> startswith (strip v) "{" = false ->
  normalize_date v = Ok (try_formats (strip v) FORMATS).
Proof.
  intros Hv Hs. unfold normalize_date.
  apply String.eqb_neq in Hv. now rewrite Hv, Hs.
Qed.

End DateFormats.

(** X12.  On a cell that is not JSON, [normalize_date] gives what the first
    format of [FORMATS] that parses the trimmed text gives, and [None]
    when none does: a text both [%d/%m/%Y] and [%m/%d/%Y] can read is read
    day first. *)
Theorem normalize_date_first_format `{L : PyRuntime} (v : string) :
  v <> "" ->
  startswith (strip v) "{" = false ->
  (forall before fmt rest iso,
     FORMATS = List.app before (fmt :: rest) ->
     Forall (fun f => strptime_iso (strip v) f = None) before ->
     strptime_iso (strip v) fmt = Some iso ->
     normalize_date v = Ok (Some iso)) /\
  (Forall (fun f => strptime_iso (strip v) f = None) FORMATS ->
   normalize_date v = Ok None).
Proof.
  intros Hv Hs. rewrite (normalize_date_of_text v Hv Hs). split.
  - intros before fmt rest iso -> Hb Hf. f_equal. now apply try_formats_first.
  - intros H. f_equal. now apply try_formats_none.
Qed.

Lemma normalize_date_first_format_witness :
  @strptime_iso ref_runtime "01/02/2025" "%m/%d/%Y" = Some "2025-01-02" /\
  @normalize_date ref_runtime " 01/02/2025 " = Ok (Some "2025-02-01").
Proof.
  split; [vm_compute; reflexivity|].
  apply (proj1 (@normalize_date_first_format ref_runtime " 01/02/2025 "
                  ltac:(discriminate) eq_refl)
           ["%Y-%m-%d"] "%d/%m/%Y"
           ["%m/%d/%Y"; "%d-%m-%Y"; "%d %b %Y"; "%B %d, %Y"; "%d %B %Y"; "%Y/%m/%d"]).
  - reflexivity.
  - repeat constructor.
  - vm_compute. reflexivity.
Defined.

(** ** Fallbacks of the builders *)

(** X13.  The close date of a deal record is the actual close date when its
    cell gives a date, whatever the tentative-date cell holds, and only
    otherwise what the tentative-date cell gives. *)
Theorem close_date_prefers_actual `{L : PyRuntime}
  (raw_items : list RawItem) (schema : Schema) (df : list DealRecord) (item : RawItem) :
  clean_deals_df raw_items schema = Ok df ->
  In item raw_items ->
  deal_item_dropped item = false ->
  exists r,
    In r df /\ deal_name r = item_name item /\
    (forall d,
       normalize_date (close_date_cell (schema_columns schema) item) = Ok (Some d) ->
       close_date r = to_datetime (Some d)) /\
    (normalize_date (close_date_cell (schema_columns schema) item) = Ok None ->
     exists t,
       normalize_date (tentative_date_cell (schema_columns schema) item) = Ok t /\
       close_date r = to_datetime t).
Proof.
  intros H Hin Hkeep.
  destruct (clean_deals_df_item _ _ _ _ H Hin Hkeep) as (row & Hb & Hr).
  destruct (deal_row_fields _ _ _ Hb) as (_ & _ & _ & _ & Cd & _).
  destruct (deal_row_appends _ _ _ Hb) as (_ & Nm & _).
  exists (deal_dates row). split; [assumption|]. split; [exact Nm|].
  cbn [deal_dates close_date]. unfold or_else, bind in Cd. split.
  - intros d Hd. rewrite Hd in Cd. now inversion Cd.
  - intros Hn. rewrite Hn in Cd. exists (close_date row). split; [exact Cd | reflexivity].
Qed.

Lemma close_date_prefers_actual_witness :
  exists r,
    @clean_deals_df ref_runtime tentative_batch tentative_schema = Ok [r] /\
    close_date r = Some (ts_of_date 2026 12 15).
Proof.
  destruct (@clean_deals_df ref_runtime tentative_batch tentative_schema)
    as [df|e] eqn:E; [| vm_compute in E; discriminate E].
  destruct (close_date_prefers_actual _ _ _ (hd [] tentative_batch) E)
    as (r & Hr & _ & _ & Ht).
  - simpl. auto.
  - reflexivity.
  - destruct Ht as (t & Et & Ec); [vm_compute; reflexivity|].
    vm_compute in E. injection E as <-. destruct Hr as [<-|[]].
    eexists. split; [reflexivity|]. vm_compute in Et. injection Et as <-.
    exact Ec.
Defined.

(** X14.  The amount of a work-order record is the amount without GST unless
    that cell normalizes to 0, as a blank or unreadable one does: then it is
    what the cell with GST normalizes to, under the same field. *)
Theorem amount_falls_back_to_incl `{L : PyRuntime}
  (raw_items : list RawItem) (schema : Schema) (df : list WorkOrderRecord)
  (item : RawItem) :
  clean_workorders_df raw_items schema = Ok df ->
  In item raw_items ->
  workorder_item_dropped item = false ->
  exists w excl,
    In w df /\ wo_name w = item_name item /\
    normalize_revenue (VStr (amount_excl_cell (schema_columns schema) item)) = Ok excl /\
    (feqb excl f0 = false -> amount_excl_gst w = excl) /\
    (feqb excl f0 = true ->
     normalize_revenue (VStr (amount_incl_cell (schema_columns schema) item))
       = Ok (amount_excl_gst w)).
Proof.
  intros H Hin Hkeep.
  destruct (clean_workorders_df_item _ _ _ _ H Hin Hkeep) as (row & Hb & Hw).
  destruct (workorder_row_appends _ _ _ Hb) as (_ & Nm & _ & (excl & Ex & Am) & _).
  exists (workorder_dates row), excl. split; [assumption|]. split; [exact Nm|].
  split; [exact Ex|]. cbn [workorder_dates amount_excl_gst].
  destruct (feqb excl f0); split; intros E; try discriminate E; exact Am.
Qed.

Lemma amount_falls_back_to_incl_witness :
  exists w,
    @clean_workorders_df ref_runtime incl_only_batch incl_only_schema = Ok [w] /\
    amount_excl_gst w = float_of_Z 118000.
Proof.
  destruct (@clean_workorders_df ref_runtime incl_only_batch incl_only_schema)
    as [df|e] eqn:E; [| vm_compute in E; discriminate E].
  destruct (amount_falls_back_to_incl _ _ _ (hd [] incl_only_batch) E)
    as (w & excl & Hw & _ & Ex & _ & Hi).
  - simpl. auto.
  - reflexivity.
  - vm_compute in E. injection E as <-. destruct Hw as [<-|[]].
    vm_compute in Ex. injection Ex as <-. specialize (Hi eq_refl).
    eexists. split; [reflexivity|].
    match type of Hi with
    | _ = Ok ?a =>
        assert (G : Ok a = Ok (float_of_Z 118000))
          by (rewrite <- Hi; vm_compute; reflexivity)
    end.
    exact (f_equal (fun x => match x with Ok a => a | Raise _ => f0 end) G).
Defined.


(** ** Floats of positive integers *)

Lemma Zdigits2_lower (m : Z) : 0 < m -> 2 ^ (Zdigits2 m - 1) <= m.
Proof.
  intros Hm. destruct m as [|p|p]; try lia.
  rewrite Zdigits2_log2. replace (Z.log2 (Zpos p) + 1 - 1) with (Z.log2 (Zpos p)) by lia.
  apply Z.log2_spec. lia.
Qed.

Lemma shifted_stays_positive (m k : Z) :
  0 < m -> 0 <= k -> k <= Z.max 0 (Zdigits2 m - 53) -> 0 < m / 2 ^ k.
Proof.
  intros Hm Hk Hle.
  assert (D : 1 <= Zdigits2 m).
  { destruct m as [|p|p]; try lia. rewrite Zdigits2_log2.
    pose proof (Z.log2_nonneg (Zpos p)). lia. }
  apply Z.div_str_pos. split; [apply Z.pow_pos_nonneg; lia|].
  apply Z.le_trans with (2 ^ (Zdigits2 m - 1)); [|now apply Zdigits2_lower].
  apply Z.pow_le_mono_r; lia.
Qed.

Lemma binary_round_aux_positive (m e : Z) (l : location) :
  0 < m -> -1074 <= e ->
  positive_float (binary_round_aux 53 1024 false m e l) = true.
Proof.
  intros Hm He. unfold binary_round_aux.
  pose proof (shr_fexp_bounds m e l (Z.lt_le_incl _ _ Hm)) as B1.
  destruct (shr_fexp 53 1024 m e l) as [mrs1 e1].
  destruct B1 as (M1 & E1lo & E1hi & V1).
  assert (P1 : 0 < shr_m mrs1).
  { rewrite V1. apply shifted_stays_positive; lia. }
  set (m1 := round_nearest_even (shr_m mrs1) (loc_of_shr_record mrs1)).
  pose proof (round_nearest_even_bounds (shr_m mrs1) (loc_of_shr_record mrs1) M1) as R1.
  fold m1 in R1.
  assert (Hm1 : 0 < m1) by lia.
  pose proof (shr_fexp_bounds m1 e1 loc_Exact (Z.lt_le_incl _ _ Hm1)) as B2.
  destruct (shr_fexp 53 1024 m1 e1 loc_Exact) as [mrs2 e2].
  destruct B2 as (M2 & E2lo & E2hi & V2).
  assert (P2 : 0 < shr_m mrs2).
  { rewrite V2. apply shifted_stays_positive; lia. }
  destruct (shr_m mrs2); try lia.
  destruct (Z.leb e2 (1024 - 53)); reflexivity.
Qed.

Lemma float_of_Z_positive (z : Z) : 0 < z -> positive_float (float_of_Z z) = true.
Proof.
  intros Hz. destruct z as [|p|p]; try lia.
  unfold float_of_Z, binary_normalize, binary_round, shl_align.
  set (ex' := fexp 53 1024 (Zpos (digits2_pos p) + 0)).
  assert (E : -1074 <= ex') by (unfold ex', fexp, emin; lia).
  destruct (ex' - 0) as [|d|d] eqn:Ed;
    apply binary_round_aux_positive; lia.
Qed.

(** ** Timestamps *)

Lemma ts_leb_spec (a b : Timestamp) :
  ts_leb a b = true <->
  ts_year a < ts_year b \/
  (ts_year a = ts_year b /\
   (ts_month a < ts_month b \/
    (ts_month a = ts_month b /\
     (ts_day a < ts_day b \/
      (ts_day a = ts_day b /\ ts_nanos a <= ts_nanos b))))).
Proof.
  unfold ts_leb, ts_compare.
  destruct (Z.compare_spec (ts_year a) (ts_year b));
    [| split; [lia | reflexivity] | split; [discriminate | lia]].
  destruct (Z.compare_spec (ts_month a) (ts_month b));
    [| split; [lia | reflexivity] | split; [discriminate | lia]].
  destruct (Z.compare_spec (ts_day a) (ts_day b));
    [| split; [lia | reflexivity] | split; [discriminate | lia]].
  destruct (Z.compare_spec (ts_nanos a) (ts_nanos b));
    [split; [lia | reflexivity] | split; [lia | reflexivity] | split; [discriminate | lia]].
Qed.

Ltac ts_order :=
  apply ts_leb_spec; cbn [ts_year ts_month ts_day ts_nanos ts_of_date fst snd]; lia.

Lemma ts_leb_trans (a b c : Timestamp) :
  ts_leb a b = true -> ts_leb b c = true -> ts_leb a c = true.
Proof. rewrite !ts_leb_spec. lia. Qed.

(** ** The period filter *)

Lemma fy_start_code (now : Timestamp) :
  ts_of_date (if 4 <=? ts_month now then ts_year now else ts_year now - 1) 4 1
  = fy_start now.
Proof.
  unfold fy_start. destruct (Z.leb_spec 4 (ts_month now)), (Z.ltb_spec (ts_month now) 4);
    try lia; reflexivity.
Qed.

Lemma filter_true {A : Type} (l : list A) : filter (fun _ => true) l = l.
Proof. induction l as [|a l IH]; simpl; [reflexivity | now rewrite IH]. Qed.

Lemma filter_by_period_mask {A : Type} (now : Timestamp) (df : list A)
  (date_col : A -> option Timestamp) (period : string) :
  _filter_by_period now df date_col (Some period)
  = filter (fun row => period_mask now period (date_col row)) df.
Proof.
  unfold _filter_by_period, period_mask.
  destruct df as [|row df]; [reflexivity|].
  set (rows := row :: df).
  destruct (String.eqb period "this_month"); [reflexivity|].
  destruct (String.eqb period "this_quarter").
  { destruct (_current_quarter_bounds now) as [q_start q_end]. reflexivity. }
  destruct (String.eqb period "ytd").
  { rewrite fy_start_code. reflexivity. }
  symmetry. apply filter_true.
Qed.

Lemma filter_idem {A : Type} (f : A -> bool) (l : list A) :
  filter f (filter f l) = filter f l.
Proof.
  induction l as [|a l IH]; simpl; [reflexivity|].
  destruct (f a) eqn:E; simpl; [rewrite E, IH|]; auto.
Qed.

Lemma quarter_after_fy_start (now : Timestamp) :
  1 <= ts_month now <= 12 ->
  ts_leb (fy_start now) (fst (_current_quarter_bounds now)) = true.
Proof.
  intros Hm. unfold fy_start, _current_quarter_bounds.
  assert (C : ts_month now = 1 \/ ts_month now = 2 \/ ts_month now = 3 \/
              ts_month now = 4 \/ ts_month now = 5 \/ ts_month now = 6 \/
              ts_month now = 7 \/ ts_month now = 8 \/ ts_month now = 9 \/
              ts_month now = 10 \/ ts_month now = 11 \/ ts_month now = 12) by lia.
  repeat destruct C as [C|C]; rewrite C; cbn [Z.eqb Pos.eqb Z.ltb Z.compare Pos.compare Pos.compare_cont orb fst snd]; ts_order.
Qed.

Lemma filter_by_period_unknown {A : Type} (now : Timestamp) (df : list A)
  (date_col : A -> option Timestamp) (p : string) :
  ~ In p PERIODS -> _filter_by_period now df date_col (Some p) = df.
Proof.
  intros Hp. rewrite filter_by_period_mask.
  rewrite (filter_ext _ (fun _ => true)); [apply filter_true|].
  intros row. unfold period_mask.
  destruct (String.eqb_spec p "this_month") as [->|_].
  { elim Hp. simpl. auto. }
  destruct (String.eqb_spec p "this_quarter") as [->|_].
  { elim Hp. simpl. auto. }
  destruct (String.eqb_spec p "ytd") as [->|_].
  { elim Hp. simpl. auto. }
  reflexivity.
Qed.

Lemma filter_by_period_idem {A : Type} (now : Timestamp) (df : list A)
  (date_col : A -> option Timestamp) (period : option string) :
  _filter_by_period now (_filter_by_period now df date_col period) date_col period
  = _filter_by_period now df date_col period.
Proof.
  destruct period as [p|]; [|reflexivity].
  rewrite !filter_by_period_mask. apply filter_idem.
Qed.

(** X15.  A period filter only drops rows: what it keeps is in the frame, in
    the frame's order, and filtering again changes nothing; under each of
    the three known tokens a row without a date is dropped; any other token,
    like no token, keeps the frame as it is; and whatever [this_quarter]
    keeps, [ytd] keeps too. *)
Theorem period_filter_only_drops {A : Type} (now : Timestamp) (df : list A)
  (date_col : A -> option Timestamp) (period : option string) :
  (exists keep, _filter_by_period now df date_col period = filter keep df) /\
  _filter_by_period now (_filter_by_period now df date_col period) date_col period
    = _filter_by_period now df date_col period /\
  (forall p row,
     period = Some p -> In p PERIODS ->
     In row (_filter_by_period now df date_col period) -> date_col row <> None) /\
  (forall p, period = Some p -> ~ In p PERIODS ->
     _filter_by_period now df date_col period = df) /\
  (period = None -> _filter_by_period now df date_col period = df) /\
  (1 <= ts_month now <= 12 ->
   forall row,
     In row (_filter_by_period now df date_col (Some "this_quarter")) ->
     In row (_filter_by_period now df date_col (Some "ytd"))).
Proof.
  split; [|split; [|split; [|split; [|split]]]].
  - destruct period as [p|].
    + eexists. apply filter_by_period_mask.
    + exists (fun _ => true). now rewrite filter_true.
  - apply filter_by_period_idem.
  - intros p row -> Hp Hin. rewrite filter_by_period_mask in Hin.
    apply filter_In in Hin. destruct Hin as [_ Hm].
    intros E. rewrite E in Hm. unfold period_mask in Hm.
    destruct Hp as [<-|[<-|[<-|[]]]]; discriminate Hm.
  - intros p -> Hp. now apply filter_by_period_unknown.
  - intros ->. reflexivity.
  - intros Hm row. rewrite !filter_by_period_mask, !filter_In.
    intros [Hin Hq]. split; [assumption|].
    unfold period_mask in *. simpl in *.
    destruct (date_col row) as [d|]; [|discriminate].
    apply andb_true_iff in Hq. destruct Hq as [Hq _].
    exact (ts_leb_trans _ _ _ (quarter_after_fy_start now Hm) Hq).
Qed.

Lemma period_filter_only_drops_witness :
  1 <= ts_month (ts_of_date 2026 5 25) <= 12 /\
  In closed_deal
     (_filter_by_period (ts_of_date 2026 5 25) [closed_deal; future_deal; open_deal]
        close_date (Some "this_quarter")) /\
  In closed_deal
     (_filter_by_period (ts_of_date 2026 5 25) [closed_deal; future_deal; open_deal]
        close_date (Some "ytd")).
Proof.
  assert (M : 1 <= ts_month (ts_of_date 2026 5 25) <= 12) by (simpl; lia).
  assert (Q : In closed_deal
                (_filter_by_period (ts_of_date 2026 5 25)
                   [closed_deal; future_deal; open_deal] close_date
                   (Some "this_quarter"))) by (vm_compute; auto).
  split; [exact M|]. split; [exact Q|].
  exact (proj2 (proj2 (proj2 (proj2 (proj2
           (period_filter_only_drops (ts_of_date 2026 5 25)
              [closed_deal; future_deal; open_deal] close_date None))))) M _ Q).
Defined.

Lemma month_cases (m : Z) :
  1 <= m <= 12 ->
  m = 1 \/ m = 2 \/ m = 3 \/ m = 4 \/ m = 5 \/ m = 6 \/
  m = 7 \/ m = 8 \/ m = 9 \/ m = 10 \/ m = 11 \/ m = 12.
Proof. lia. Qed.

Lemma is_date_bounds (t : Timestamp) :
  is_date t = true ->
  1 <= ts_month t <= 12 /\ 1 <= ts_day t <= 31 /\
  (ts_month t = 6 \/ ts_month t = 9 -> ts_day t <= 30) /\
  ts_nanos t = 0.
Proof.
  unfold is_date. rewrite !andb_true_iff, !Z.leb_le, Z.eqb_eq.
  intros ((((M1 & M2) & D1) & D2) & N).
  unfold days_in_month in D2.
  repeat split; try lia.
  - destruct (ts_month t =? 2); [destruct (is_leap (ts_year t)); lia|].
    destruct (_ || _); lia.
  - intros [E|E]; rewrite E in D2; simpl in D2; lia.
Qed.

(** X16.  A row dated today is kept under each of the three period tokens:
    the quarter bounds are dates of the clock's calendar year three months
    apart, and today lies between them. *)
Theorem row_dated_today_is_kept {A : Type} (now : Timestamp) (df : list A)
  (date_col : A -> option Timestamp) (row : A) :
  is_date (today_of now) = true ->
  In row df ->
  date_col row = Some (today_of now) ->
  (forall p, In p PERIODS -> In row (_filter_by_period now df date_col (Some p))) /\
  ts_leb (fst (_current_quarter_bounds now)) (today_of now) = true /\
  ts_leb (today_of now) (snd (_current_quarter_bounds now)) = true /\
  is_date (fst (_current_quarter_bounds now)) = true /\
  is_date (snd (_current_quarter_bounds now)) = true /\
  ts_year (fst (_current_quarter_bounds now)) = ts_year now /\
  ts_year (snd (_current_quarter_bounds now)) = ts_year now /\
  ts_month (snd (_current_quarter_bounds now))
    = ts_month (fst (_current_quarter_bounds now)) + 2.
Proof.
  intros Hd Hin Hrow.
  destruct (is_date_bounds _ Hd) as (Hm & Hday & H30 & _).
  unfold today_of in *. simpl in Hm, Hday, H30.
  assert (Q : ts_leb (fst (_current_quarter_bounds now))
                (ts_of_date (ts_year now) (ts_month now) (ts_day now)) = true /\
              ts_leb (ts_of_date (ts_year now) (ts_month now) (ts_day now))
                (snd (_current_quarter_bounds now)) = true /\
              is_date (fst (_current_quarter_bounds now)) = true /\
              is_date (snd (_current_quarter_bounds now)) = true /\
              ts_year (fst (_current_quarter_bounds now)) = ts_year now /\
              ts_year (snd (_current_quarter_bounds now)) = ts_year now /\
              ts_month (snd (_current_quarter_bounds now))
                = ts_month (fst (_current_quarter_bounds now)) + 2).
  { unfold _current_quarter_bounds.
    destruct (month_cases _ Hm) as [C|[C|[C|[C|[C|[C|[C|[C|[C|[C|[C|C]]]]]]]]]]];
      rewrite C in *; cbn [Z.eqb Pos.eqb orb fst snd];
      (split; [ts_order|]); (split; [ts_order|]);
      repeat split; reflexivity. }
  split; [|exact Q]. destruct Q as (Q1 & Q2 & _).
  intros p Hp. rewrite filter_by_period_mask. apply filter_In.
  split; [assumption|]. rewrite Hrow. unfold period_mask.
  destruct Hp as [<-|[<-|[<-|[]]]]; simpl.
  - now rewrite !Z.eqb_refl.
  - now rewrite Q1, Q2.
  - exact (ts_leb_trans _ _ _ (quarter_after_fy_start now Hm) Q1).
Qed.

Lemma row_dated_today_is_kept_witness :
  is_date (today_of clock) = true /\
  _current_quarter_bounds clock = (ts_of_date 2026 10 1, ts_of_date 2026 12 31) /\
  In (deal_of "Today" "Won" "rail" 100 (Some (today_of clock)))
     (_filter_by_period clock
        [closed_deal; deal_of "Today" "Won" "rail" 100 (Some (today_of clock))]
        close_date (Some "this_quarter")).
Proof.
  split; [reflexivity|]. split; [reflexivity|].
  apply (proj1 (row_dated_today_is_kept clock
           [closed_deal; deal_of "Today" "Won" "rail" 100 (Some (today_of clock))]
           close_date (deal_of "Today" "Won" "rail" 100 (Some (today_of clock)))
           eq_refl (or_intror (or_introl eq_refl)) eq_refl)).
  simpl. auto.
Defined.

(** ** The revenue rollup: periods and the top sector *)

Section RevenuePeriods.
Context {L : PyRuntime}.

Lemma revenue_analytics_unfold (now : Timestamp) (deals_df : list DealRecord)
  (period : option string) :
  deals_df <> [] ->
  revenue_rows now deals_df period <> [] ->
  revenue_analytics now deals_df period =
  let won := revenue_rows now deals_df period in
  let total := series_sum (map deal_value won) in
  let sectors := sector_totals won in
  Result {|
    closed_total := NFloat total;
    closed_total_fmt := _fmt_inr total;
    count := Z.of_nat (List.length won);
    by_sector := map (fun kv => (fst kv, _fmt_inr (snd kv))) sectors;
    by_month :=
      match filter (fun r => is_some (close_date r)) won with
      | [] => []
      | _ =>
          map (fun kv => (fst kv, _fmt_inr (snd kv)))
            (sort_index
               (groupby_sum
                  (map (fun r => (match close_date r with
                                  | Some d => month_key d
                                  | None => ""
                                  end, deal_value r))
                       (filter (fun r => is_some (close_date r)) won))))
      end;
    summary := None;
    top_sector := Some match sectors with
                       | [] => "N/A"
                       | kv :: r => max_by_value r kv
                       end;
    top_sector_pct :=
      Some (if fltb f0 total
            then NFloat (np_round1
                           (fmul (fdiv (get_or sectors
                                          match sectors with
                                          | [] => "N/A"
                                          | kv :: r => max_by_value r kv
                                          end f0) total) f100))
            else NInt 0);
    period_label := Some match period with
                         | None | Some EmptyString => "all time"
                         | Some p => p
                         end |}.
Proof.
  intros Hd Hw. unfold revenue_analytics.
  destruct deals_df as [|d rest]; [contradiction|].
  set (df := d :: rest) in *.
  rewrite revenue_won_subset. fold (revenue_rows now df period).
  destruct (revenue_rows now df period) as [|w won] eqn:E; [contradiction|].
  reflexivity.
Qed.

Lemma revenue_analytics_zero (now : Timestamp) (deals_df : list DealRecord)
  (period : option string) :
  deals_df <> [] ->
  revenue_rows now deals_df period = [] ->
  revenue_analytics now deals_df period =
  Result {|
    closed_total := NInt 0;
    closed_total_fmt := "₹0";
    by_sector := [];
    by_month := [];
    count := 0;
    summary := Some "No Won deals found for the selected period.";
    top_sector := None;
    top_sector_pct := None;
    period_label := None |}.
Proof.
  intros Hd Hw. unfold revenue_analytics.
  destruct deals_df as [|d rest]; [contradiction|].
  set (df := d :: rest) in *.
  rewrite revenue_won_subset. fold (revenue_rows now df period).
  now rewrite Hw.
Qed.

Lemma revenue_rows_unknown (now : Timestamp) (deals_df : list DealRecord) (p : string) :
  ~ In p PERIODS ->
  revenue_rows now deals_df (Some p) = revenue_rows now deals_df None.
Proof. intros Hp. unfold revenue_rows. now apply filter_by_period_unknown. Qed.

End RevenuePeriods.

(** X17.  A period token the filter does not know is no error: the revenue
    rollup then gives the all-time figures, under the token as its period
    label (the empty token gives the label [all time]). *)
Theorem unknown_period_is_all_time `{L : PyRuntime} (now : Timestamp)
  (deals_df : list DealRecord) (p : string) :
  ~ In p PERIODS ->
  revenue_analytics now deals_df (Some p) =
  match revenue_analytics now deals_df None with
  | Error msg => Error msg
  | Result r =>
      Result (with_period_label r
                match period_label r with
                | None => None
                | Some _ => Some (if String.eqb p "" then "all time" else p)
                end)
  end.
Proof.
  intros Hp.
  destruct (list_is_empty deals_df) as [->|Hd]; [reflexivity|].
  pose proof (revenue_rows_unknown now deals_df p Hp) as E.
  destruct (list_is_empty (revenue_rows now deals_df None)) as [Hw|Hw].
  - rewrite (revenue_analytics_zero now deals_df None Hd Hw).
    rewrite <- E in Hw.
    rewrite (revenue_analytics_zero now deals_df (Some p) Hd Hw). reflexivity.
  - rewrite (revenue_analytics_unfold now deals_df None Hd Hw).
    rewrite <- E in Hw.
    rewrite (revenue_analytics_unfold now deals_df (Some p) Hd Hw).
    rewrite E. unfold with_period_label. cbn.
    destruct p as [|c p]; reflexivity.
Qed.

Lemma unknown_period_is_all_time_witness :
  exists r,
    @revenue_analytics ref_runtime clock [closed_deal; future_deal; open_deal]
      (Some "last_year") = Result r /\
    count r = 2 /\ period_label r = Some "last_year".
Proof.
  assert (Hp : ~ In "last_year" PERIODS).
  { simpl. intros [H|[H|[H|[]]]]; discriminate H. }
  rewrite (@unknown_period_is_all_time ref_runtime clock
             [closed_deal; future_deal; open_deal] "last_year" Hp).
  eexists. split; [vm_compute; reflexivity|]. split; reflexivity.
Defined.

(** ** The order of floats *)

Ltac cmp_cases :=
  repeat match goal with
         | H : context [(?x ?= ?y)%Z] |- _ => destruct (Z.compare_spec x y)
         | |- context [(?x ?= ?y)%Z] => destruct (Z.compare_spec x y)
         | H : context [PosDef.Pos.compare_cont Eq ?x ?y] |- _ =>
             change (PosDef.Pos.compare_cont Eq x y) with (Pos.compare x y) in *;
             destruct (Pos.compare_spec x y)
         | |- context [PosDef.Pos.compare_cont Eq ?x ?y] =>
             change (PosDef.Pos.compare_cont Eq x y) with (Pos.compare x y) in *;
             destruct (Pos.compare_spec x y)
         end.

Lemma fltb_chain (a b c : float) :
  fltb a b = true -> fltb a c = false -> fltb b c = false.
Proof.
  unfold fltb, SFltb.
  destruct a as [sa|sa| |sa ma ea], b as [sb|sb| |sb mb eb], c as [sc|sc| |sc mc ec];
    try destruct sa; try destruct sb; try destruct sc; cbn;
    try discriminate; try reflexivity;
    intros H1 H2; cmp_cases; cbn in *;
    try discriminate; try reflexivity; try lia.
Qed.

Lemma fltb_trans (a b c : float) :
  fltb a b = true -> fltb b c = true -> fltb a c = true.
Proof.
  unfold fltb, SFltb.
  destruct a as [sa|sa| |sa ma ea], b as [sb|sb| |sb mb eb], c as [sc|sc| |sc mc ec];
    try destruct sa; try destruct sb; try destruct sc; cbn;
    try discriminate; try reflexivity;
    intros H1 H2; cmp_cases; cbn in *;
    try discriminate; try reflexivity; try lia.
Qed.

Lemma fltb_asym (a b : float) : fltb a b = true -> fltb b a = false.
Proof.
  unfold fltb, SFltb.
  destruct a as [sa|sa| |sa ma ea], b as [sb|sb| |sb mb eb];
    try destruct sa; try destruct sb; cbn;
    try discriminate; try reflexivity;
    intros H1; cmp_cases; cbn in *;
    try discriminate; try reflexivity; try lia.
Qed.

Lemma fltb_irrefl (a : float) : fltb a a = false.
Proof.
  unfold fltb, SFltb.
  destruct a as [sa|sa| |sa ma ea]; try destruct sa; cbn; try reflexivity;
    rewrite Z.compare_refl;
    change (PosDef.Pos.compare_cont Eq ma ma) with (Pos.compare ma ma);
    rewrite Pos.compare_refl; reflexivity.
Qed.

Lemma fleb_total (a b : float) :
  is_nan a = false -> is_nan b = false -> fleb a b = negb (fltb b a).
Proof.
  unfold fleb, fltb, SFleb, SFltb.
  destruct a as [sa|sa| |sa ma ea], b as [sb|sb| |sb mb eb];
    try destruct sa; try destruct sb; cbn; try discriminate; try reflexivity;
    intros _ _; cmp_cases; cbn in *; try reflexivity; try lia.
Qed.

(** [max(d, key=d.get)] on the entries [best :: d]. *)
Lemma max_by_value_spec (d : dict float) :
  forall best : string * float,
  exists v,
    In (max_by_value d best, v) (best :: d) /\
    ((max_by_value d best, v) = best \/ fltb (snd best) v = true) /\
    forall kv, In kv d -> fltb v (snd kv) = false.
Proof.
  induction d as [|[k x] d IH]; intros best.
  - exists (snd best). destruct best as [k0 v0]. simpl.
    split; [now left|]. split; [now left|]. intros kv [].
  - simpl max_by_value.
    destruct (fltb (snd best) x) eqn:E.
    + destruct (IH (k, x)) as (v & Hin & Hv & Hall). exists v.
      split; [now right|]. simpl snd in Hv.
      assert (Hb : fltb (snd best) v = true).
      { destruct Hv as [Hv|Hv]; [inversion Hv; subst; exact E|].
        exact (fltb_trans _ _ _ E Hv). }
      split; [now right|].
      intros kv [<-|Hkv]; [|now apply Hall]. simpl.
      destruct Hv as [Hv|Hv]; [inversion Hv; apply fltb_irrefl|].
      now apply fltb_asym.
    + destruct (IH best) as (v & Hin & Hv & Hall). exists v.
      split; [destruct Hin as [Hin|Hin]; [now left | now right; right]|].
      split; [exact Hv|].
      intros kv [<-|Hkv]; [|now apply Hall]. simpl.
      destruct Hv as [Hv|Hv].
      * rewrite <- Hv in E. exact E.
      * exact (fltb_chain _ _ _ Hv E).
Qed.

(** X18.  The top sector of a revenue rollup is a sector of [by_sector] whose
    total no sector's total exceeds; [by_sector] lists the sectors of the
    Won rows kept by the period, and the count is the number of those
    rows. *)
Theorem top_sector_is_maximal `{L : PyRuntime} (now : Timestamp)
  (deals_df : list DealRecord) (period : option string) :
  deals_df <> [] ->
  revenue_rows now deals_df period <> [] ->
  exists r,
    revenue_analytics now deals_df period = Result r /\
    count r = Z.of_nat (List.length (revenue_rows now deals_df period)) /\
    by_sector r
      = map (fun kv => (fst kv, _fmt_inr (snd kv)))
            (sector_totals (revenue_rows now deals_df period)) /\
    (sector_totals (revenue_rows now deals_df period) = [] ->
     top_sector r = Some "N/A") /\
    (sector_totals (revenue_rows now deals_df period) <> [] ->
     exists top v,
       top_sector r = Some top /\
       In (top, v) (sector_totals (revenue_rows now deals_df period)) /\
       forall kv, In kv (sector_totals (revenue_rows now deals_df period)) ->
                  fltb v (snd kv) = false).
Proof.
  intros Hd Hw. eexists. split; [apply (revenue_analytics_unfold now deals_df period Hd Hw)|].
  cbn [count by_sector top_sector].
  split; [reflexivity|]. split; [reflexivity|].
  split; [intros ->; reflexivity|].
  intros Hs. destruct (sector_totals (revenue_rows now deals_df period)) as [|kv r];
    [contradiction|].
  destruct (max_by_value_spec r kv) as (v & Hin & Hv & Hall).
  exists (max_by_value r kv), v. split; [reflexivity|]. split; [exact Hin|].
  intros kv' [<-|Hkv]; [|now apply Hall].
  destruct Hv as [Hv|Hv]; [rewrite <- Hv; apply fltb_irrefl | now apply fltb_asym].
Qed.

Lemma top_sector_is_maximal_witness :
  exists r,
    @revenue_analytics ref_runtime clock
      [closed_deal; deal_of "Metro" "Won" "rail" 2000000 None] None = Result r /\
    top_sector r = Some "rail" /\ count r = 2.
Proof.
  destruct (@top_sector_is_maximal ref_runtime clock
              [closed_deal; deal_of "Metro" "Won" "rail" 2000000 None] None)
    as (r & Hr & Hc & _).
  - discriminate.
  - discriminate.
  - exists r. split; [exact Hr|].
    vm_compute in Hr. injection Hr as <-. split; [reflexivity | exact Hc].
Defined.

(** ** Rupee formatting *)

Lemma fltb_le_trans (a b c : float) :
  fltb a b = true -> fltb c b = false -> is_nan c = false -> fltb a c = true.
Proof.
  unfold fltb, SFltb.
  destruct a as [sa|sa| |sa ma ea], b as [sb|sb| |sb mb eb], c as [sc|sc| |sc mc ec];
    try destruct sa; try destruct sb; try destruct sc; cbn;
    try discriminate; try reflexivity;
    intros H1 H2 _; cmp_cases; cbn in *;
    try discriminate; try reflexivity; try lia.
Qed.

(** X19.  [_fmt_inr] abbreviates by magnitude from the top: [Cr] from 1e7,
    [L] from 1e5, [K] from 1e3, each bound included; a zero of either sign
    is [₹0]; an amount below 1e3, any negative amount and [NaN] are printed
    in full with digit grouping, never abbreviated. *)
Theorem fmt_inr_bands `{L : PyRuntime} (v : float) :
  (feqb v f0 = true -> _fmt_inr v = "₹0") /\
  (fleb f1e7 v = true -> _fmt_inr v = "₹" ++ format_fixed 2 (fdiv v f1e7) ++ " Cr") /\
  (fleb f1e5 v = true -> fltb v f1e7 = true ->
   _fmt_inr v = "₹" ++ format_fixed 2 (fdiv v f1e5) ++ " L") /\
  (fleb f1e3 v = true -> fltb v f1e5 = true ->
   _fmt_inr v = "₹" ++ format_fixed 1 (fdiv v f1e3) ++ "K") /\
  (fltb v f1e3 = true -> feqb v f0 = false -> _fmt_inr v = "₹" ++ format_grouped v) /\
  (fltb v f0 = true -> _fmt_inr v = "₹" ++ format_grouped v) /\
  (is_nan v = true -> _fmt_inr v = "₹" ++ format_grouped v).
Proof.
  unfold _fmt_inr.
  assert (T : forall a b : float, fltb a b = true -> fleb b a = false).
  { intros a b H. destruct (fleb b a) eqn:E; [|reflexivity].
    assert (Na : is_nan a = false) by (destruct a; try reflexivity; discriminate H).
    assert (Nb : is_nan b = false)
      by (destruct b; try reflexivity; destruct a; discriminate H).
    rewrite (fleb_total b a Nb Na), H in E. discriminate E. }
  assert (E0 : forall a : float, fleb f1e3 a = true -> feqb a f0 = false)
    by (intros [s|s| |s m e] H; try destruct s; try discriminate H; reflexivity).
  assert (U : forall a b c : float,
            fltb a b = true -> fltb b c = true -> fleb c a = false).
  { intros a b c H1 H2. apply T. exact (fltb_trans _ _ _ H1 H2). }
  assert (W : forall a b c : float,
            fleb a b = true -> fltb a c = false -> is_nan c = false ->
            fleb c b = true).
  { intros a b c H1 H2 Nc.
    assert (Na : is_nan a = false) by (destruct a; try reflexivity; discriminate H1).
    assert (Nb : is_nan b = false)
      by (destruct b; try reflexivity; destruct a; discriminate H1).
    rewrite (fleb_total c b Nc Nb).
    rewrite (fleb_total a b Na Nb) in H1. apply negb_true_iff in H1.
    apply negb_true_iff. destruct (fltb b c) eqn:E; [|reflexivity].
    rewrite (fltb_le_trans b c a E H2 Na) in H1. discriminate H1. }
  repeat split.
  - now intros ->.
  - intros H. rewrite H.
    assert (H5 : fleb f1e5 v = true) by (apply (W f1e7 v f1e5 H); reflexivity).
    assert (H3 : fleb f1e3 v = true) by (apply (W f1e7 v f1e3 H); reflexivity).
    now rewrite (E0 v H3).
  - intros H5 H7. rewrite H5, (T v f1e7 H7).
    assert (H3 : fleb f1e3 v = true) by (apply (W f1e5 v f1e3 H5); reflexivity).
    now rewrite (E0 v H3).
  - intros H3 H5. rewrite H3, (T v f1e5 H5), (E0 v H3).
    now rewrite (U v f1e5 f1e7 H5 eq_refl).
  - intros H3 N0. rewrite N0, (T v f1e3 H3).
    now rewrite (U v f1e3 f1e5 H3 eq_refl), (U v f1e3 f1e7 H3 eq_refl).
  - intros H0.
    assert (N0 : feqb v f0 = false)
      by (destruct v as [s|s| |s m e]; try destruct s; try discriminate H0; reflexivity).
    rewrite N0, (U v f0 f1e3 H0 eq_refl), (U v f0 f1e5 H0 eq_refl),
      (U v f0 f1e7 H0 eq_refl). reflexivity.
  - intros Hn. destruct v; try discriminate Hn. reflexivity.
Qed.

Lemma fmt_inr_bands_witness :
  @_fmt_inr ref_runtime (float_of_Z 100000) = "₹1.00 L" /\
  @_fmt_inr ref_runtime (SFopp (float_of_Z 500000)) = "₹-500,000".
Proof.
  split.
  - rewrite (proj1 (proj2 (proj2 (@fmt_inr_bands ref_runtime (float_of_Z 100000))))
               eq_refl eq_refl).
    vm_compute. reflexivity.
  - rewrite (proj1 (proj2 (proj2 (proj2 (proj2 (proj2
               (@fmt_inr_bands ref_runtime (SFopp (float_of_Z 500000))))))))
               eq_refl).
    vm_compute. reflexivity.
Defined.

(** ** Pipeline health *)

Section PipelineRollup.
Context {L : PyRuntime}.

Lemma pipeline_open_subset (now : Timestamp) (deals_df : list DealRecord)
  (period : option string) :
  match period with
  | None | Some EmptyString => open_rows deals_df
  | Some _ => _filter_by_period now (open_rows deals_df) close_date period
  end = pipeline_rows now deals_df period.
Proof.
  unfold pipeline_rows. destruct period as [[|c p]|]; try reflexivity.
  symmetry. apply filter_by_period_unknown. simpl.
  intros [H|[H|[H|[]]]]; discriminate H.
Qed.

Lemma pipeline_health_zero (now : Timestamp) (deals_df : list DealRecord)
  (period : option string) :
  deals_df <> [] ->
  pipeline_rows now deals_df period = [] ->
  pipeline_health now deals_df period =
  Result {|
    pipeline_total := NInt 0;
    pipeline_total_fmt := "₹0";
    weighted_pipeline_value := NInt 0;
    weighted_pipeline_fmt := "₹0";
    open_count := 0;
    open_by_sector := [];
    closing_this_quarter_zero := Some 0;
    pipeline_summary := Some "No open deals found.";
    closing_this_quarter_value := None;
    closing_this_quarter_count := None;
    high_prob_pipeline := None;
    mid_prob_pipeline := None;
    low_prob_pipeline := None;
    pipeline_period := None |}.
Proof.
  intros Hd Hw. unfold pipeline_health.
  destruct deals_df as [|d rest]; [contradiction|].
  set (df := d :: rest) in *.
  rewrite pipeline_open_subset. now rewrite Hw.
Qed.

Lemma pipeline_health_unfold (now : Timestamp) (deals_df : list DealRecord)
  (period : option string) :
  deals_df <> [] ->
  pipeline_rows now deals_df period <> [] ->
  pipeline_health now deals_df period =
  let open_deals := pipeline_rows now deals_df period in
  let closing_q :=
    filter (fun r => period_mask now "this_quarter" (close_date r))
      (filter (fun r => is_some (close_date r)) open_deals) in
  Result {|
    pipeline_total := NFloat (series_sum (map deal_value open_deals));
    pipeline_total_fmt := _fmt_inr (series_sum (map deal_value open_deals));
    weighted_pipeline_value := NFloat (series_sum (map weighted_value open_deals));
    weighted_pipeline_fmt := _fmt_inr (series_sum (map weighted_value open_deals));
    open_count := Z.of_nat (List.length open_deals);
    open_by_sector :=
      map (fun kv => (fst kv, _fmt_inr (snd kv)))
        (sort_values_desc
           (groupby_sum (map (fun r => (sector r, deal_value r)) open_deals)));
    closing_this_quarter_zero := None;
    pipeline_summary := None;
    closing_this_quarter_value := Some (_fmt_inr (series_sum (map deal_value closing_q)));
    closing_this_quarter_count := Some (Z.of_nat (List.length closing_q));
    high_prob_pipeline :=
      Some (_fmt_inr (series_sum (map deal_value (filter high_band open_deals))));
    mid_prob_pipeline :=
      Some (_fmt_inr (series_sum (map deal_value (filter mid_band open_deals))));
    low_prob_pipeline :=
      Some (_fmt_inr (series_sum (map deal_value (filter low_band open_deals))));
    pipeline_period := Some match period with
                            | None | Some EmptyString => "all time"
                            | Some p => p
                            end |}.
Proof.
  intros Hd Hw. unfold pipeline_health.
  destruct deals_df as [|d rest]; [contradiction|].
  set (df := d :: rest) in *.
  rewrite pipeline_open_subset.
  destruct (pipeline_rows now df period) as [|w rows] eqn:E; [contradiction|].
  unfold period_mask. simpl String.eqb.
  destruct (_current_quarter_bounds now) as [q_start q_end]. reflexivity.
Qed.

(** The rows closing this quarter, among rows already filtered to it. *)
Lemma closing_rows_of_quarter (now : Timestamp) (deals_df : list DealRecord) :
  filter (fun r => period_mask now "this_quarter" (close_date r))
    (filter (fun r => is_some (close_date r))
       (pipeline_rows now deals_df (Some "this_quarter")))
  = pipeline_rows now deals_df (Some "this_quarter").
Proof.
  unfold pipeline_rows. rewrite filter_by_period_mask.
  set (rows := open_rows deals_df).
  rewrite (filter_ext_in (fun r : DealRecord => is_some (close_date r)) (fun _ => true)).
  - rewrite filter_true. apply filter_idem.
  - intros r Hr. apply filter_In in Hr. destruct Hr as [_ Hm].
    unfold period_mask in Hm. simpl in Hm. now destruct (close_date r).
Qed.

End PipelineRollup.

Lemma pipeline_of_quarter_rows `{L : PyRuntime} (now : Timestamp)
  (deals_df : list DealRecord) :
  deals_df <> [] ->
  exists p,
    pipeline_health now deals_df (Some "this_quarter") = Result p /\
    (open_count p = 0 ->
     pipeline_total_fmt p = "₹0" /\ closing_this_quarter_value p = None) /\
    (open_count p <> 0 ->
     closing_this_quarter_value p = Some (pipeline_total_fmt p)).
Proof.
  intros Hd.
  destruct (list_is_empty (pipeline_rows now deals_df (Some "this_quarter"))) as [Hw|Hw].
  - eexists. split; [apply (pipeline_health_zero now deals_df _ Hd Hw)|].
    cbn [open_count pipeline_total_fmt closing_this_quarter_value].
    split; [auto|]. intros H. now elim H.
  - eexists. split; [apply (pipeline_health_unfold now deals_df _ Hd Hw)|].
    cbn [open_count pipeline_total_fmt closing_this_quarter_value].
    rewrite closing_rows_of_quarter. split; [|auto].
    intros H. exfalso.
    destruct (pipeline_rows now deals_df (Some "this_quarter")); [now elim Hw|].
    discriminate H.
Qed.

(** X20.  The pipeline rollup over [this_quarter], the call the leadership
    update makes, has every Open row it keeps closing this quarter: the
    closing count is the row count and the closing value is the pipeline
    total; with no Open row kept it returns the zero dictionary, which has
    no [closing_this_quarter_value] key. *)
Theorem pipeline_of_quarter_closes_in_quarter `{L : PyRuntime} (now : Timestamp)
  (deals_df : list DealRecord) :
  deals_df <> [] ->
  exists p,
    pipeline_health now deals_df (Some "this_quarter") = Result p /\
    open_count p
      = Z.of_nat (List.length (pipeline_rows now deals_df (Some "this_quarter"))) /\
    (open_count p = 0 ->
     pipeline_total_fmt p = "₹0" /\ closing_this_quarter_value p = None /\
     closing_this_quarter_count p = None) /\
    (open_count p <> 0 ->
     closing_this_quarter_value p = Some (pipeline_total_fmt p) /\
     closing_this_quarter_count p = Some (open_count p)).
Proof.
  intros Hd.
  destruct (list_is_empty (pipeline_rows now deals_df (Some "this_quarter"))) as [Hw|Hw].
  - eexists. split; [apply (pipeline_health_zero now deals_df _ Hd Hw)|].
    cbn [open_count pipeline_total_fmt closing_this_quarter_value
         closing_this_quarter_count]. rewrite Hw. split; [reflexivity|]. split; [auto|]. intros H. now elim H.
  - eexists. split; [apply (pipeline_health_unfold now deals_df _ Hd Hw)|].
    cbn [open_count pipeline_total_fmt closing_this_quarter_value
         closing_this_quarter_count]. rewrite closing_rows_of_quarter.
    split; [reflexivity|]. split; [|auto].
    intros H. exfalso.
    destruct (pipeline_rows now deals_df (Some "this_quarter")); [now elim Hw|].
    discriminate H.
Qed.

Lemma pipeline_of_quarter_closes_in_quarter_witness :
  exists p,
    @pipeline_health ref_runtime clock
      [open_deal; deal_of "Gamma" "Open" "rail" 300000 (Some (ts_of_date 2026 12 15))]
      (Some "this_quarter") = Result p /\
    open_count p = 1 /\
    closing_this_quarter_value p = Some "₹3.00 L" /\
    pipeline_total_fmt p = "₹3.00 L".
Proof.
  destruct (@pipeline_of_quarter_closes_in_quarter ref_runtime clock
              [open_deal; deal_of "Gamma" "Open" "rail" 300000
                            (Some (ts_of_date 2026 12 15))])
    as (p & Hp & Hc & _ & Hq).
  - discriminate.
  - assert (Hp' := Hp). vm_compute in Hp'. injection Hp' as <-.
    eexists. split; [exact Hp|]. split; [reflexivity|].
    destruct Hq as [Hv _]; [discriminate|].
    split; [exact Hv | reflexivity].
Defined.

(** ** Probability bands *)

Lemma bands_of_number (r : DealRecord) :
  is_nan (probability r) = false -> bands_holding r = 1%nat.
Proof.
  intros Hn. unfold bands_holding, high_band, mid_band, low_band.
  rewrite (fleb_total f0_75 (probability r) eq_refl Hn).
  rewrite (fleb_total f0_4 (probability r) eq_refl Hn).
  destruct (fltb (probability r) f0_4) eqn:E4.
  - assert (E75 : fltb (probability r) f0_75 = true).
    { apply (fltb_trans _ f0_4); [exact E4 | reflexivity]. }
    rewrite E75. reflexivity.
  - destruct (fltb (probability r) f0_75); reflexivity.
Qed.

(** X21.  The three probability bands of the pipeline rollup split the Open
    rows: a row whose probability is a number is in exactly one band, a
    row whose probability is [NaN] in none; in a built frame every row is
    in exactly one, [high] in the high band, [medium] in the middle one,
    [low] and blank in the low one. *)
Theorem probability_bands_partition `{L : PyRuntime}
  (raw_items : list RawItem) (schema : Schema) (df : list DealRecord) :
  (forall r : DealRecord,
     (is_nan (probability r) = false -> bands_holding r = 1%nat) /\
     (is_nan (probability r) = true -> bands_holding r = 0%nat)) /\
  (clean_deals_df raw_items schema = Ok df ->
   Forall (fun r =>
             bands_holding r = 1%nat /\
             (high_band r = true <-> probability r = f0_80) /\
             (mid_band r = true <-> probability r = f0_50) /\
             (low_band r = true <-> probability r = f0_25 \/ probability r = f0)) df).
Proof.
  split.
  - intros r. split; [apply bands_of_number|].
    unfold bands_holding, high_band, mid_band, low_band.
    destruct (probability r); try discriminate. reflexivity.
  - intros H. apply Forall_forall. intros r Hr.
    destruct (clean_deals_df_record _ _ _ _ H Hr) as (item & row & _ & Hb & ->).
    destruct (deal_row_fields _ _ _ Hb) as (_ & _ & _ & Pr & _).
    unfold bands_holding, high_band, mid_band, low_band.
    cbn [deal_dates probability]. rewrite Pr.
    pose proof (probability_in_map
                  (normalize_text
                     (find_column item (schema_columns schema)
                        ["probability"; "closure"]))) as Hin.
    destruct Hin as [<-|[<-|[<-|[<-|[]]]]];
      (split; [reflexivity|]);
      repeat split; intros H0; try discriminate H0; try reflexivity;
        try (destruct H0 as [H0|H0]; discriminate H0); auto.
Qed.

Lemma probability_bands_partition_witness :
  exists df,
    @clean_deals_df ref_runtime sample_deal_items sample_deals_schema = Ok df /\
    map high_band df = [true; false] /\
    Forall (fun r => bands_holding r = 1%nat) df.
Proof.
  eexists. split; [vm_compute; reflexivity|]. split; [reflexivity|].
  eapply Forall_impl;
    [| apply (proj2 (@probability_bands_partition ref_runtime sample_deal_items
                       sample_deals_schema _));
       vm_compute; reflexivity].
  intros r H. apply H.
Defined.

(** ** Operational metrics *)

Lemma filter_disjoint_length {A : Type} (f g : A -> bool) (l : list A) :
  (forall x, In x l -> f x = true -> g x = false) ->
  (List.length (filter f l) + List.length (filter g l) <= List.length l)%nat.
Proof.
  induction l as [|a l IH]; intros H; simpl; [lia|].
  assert (IH' := IH (fun x Hx => H x (or_intror Hx))).
  pose proof (H a (or_introl eq_refl)) as Ha.
  destruct (f a) eqn:Ef; simpl.
  - rewrite (Ha eq_refl). simpl. lia.
  - destruct (g a); simpl; lia.
Qed.

Lemma filter_length_mono_in {A : Type} (f g : A -> bool) (l : list A) :
  (forall x, In x l -> f x = true -> g x = true) ->
  (List.length (filter f l) <= List.length (filter g l))%nat.
Proof.
  induction l as [|a l IH]; intros H; simpl; [lia|].
  assert (IH' := IH (fun x Hx => H x (or_intror Hx))).
  pose proof (H a (or_introl eq_refl)) as Ha.
  destruct (f a) eqn:Ef; simpl.
  - rewrite (Ha eq_refl). simpl. lia.
  - destruct (g a); simpl; lia.
Qed.

Section OperationsRollup.
Context {L : PyRuntime} {F : FrameRuntime}.

Lemma built_workorder_active (raw_items : list RawItem) (schema : Schema)
  (df : list WorkOrderRecord) (w : WorkOrderRecord) :
  clean_workorders_df raw_items schema = Ok df -> In w df ->
  is_active w = in_strs (exec_status w) ACTIVE_CATEGORIES.
Proof.
  intros H Hw.
  destruct (clean_workorders_df_record _ _ _ _ H Hw) as (item & row & _ & Hb & ->).
  now destruct (workorder_row_fields _ _ _ Hb) as (_ & Ac & _).
Qed.

Lemma operational_metrics_unfold (workorders_df : list WorkOrderRecord) :
  workorders_df <> [] ->
  exists o,
    operational_metrics workorders_df = Result o /\
    total_work_orders o = Z.of_nat (List.length workorders_df) /\
    active_count o
      = Z.of_nat (List.length (filter (fun w => is_active w) workorders_df)) /\
    completed_count o
      = Z.of_nat (List.length
          (filter (fun w => String.eqb (exec_status w) "Completed") workorders_df)) /\
    paused_count o
      = Z.of_nat (List.length
          (filter (fun w => String.eqb (exec_status w) "Paused") workorders_df)) /\
    ops_operational_risk o
      = (if 30 <? active_count o then "High"
         else if 15 <? active_count o then "Medium" else "Low") /\
    ops_backlog_value o = _fmt_inr (backlog_raw o) /\
    backlog_raw o
      = series_sum (map (fun w => unbilled_amount w)
                        (filter (fun w => is_active w) workorders_df)).
Proof.
  intros Hw. unfold operational_metrics.
  destruct workorders_df as [|w rest]; [contradiction|].
  set (df := w :: rest) in *.
  destruct (30 <? Z.of_nat (List.length (filter (fun w0 => is_active w0) df))) eqn:E30;
    [|destruct (15 <? Z.of_nat (List.length (filter (fun w0 => is_active w0) df)))
        eqn:E15];
    eexists; (split; [reflexivity|]);
    cbn [total_work_orders active_count completed_count paused_count
         ops_operational_risk ops_backlog_value backlog_raw];
    rewrite ?E30, ?E15; repeat split; reflexivity.
Qed.

End OperationsRollup.

(** X22.  The operations rollup returns its error exactly for an empty frame;
    otherwise the risk is [High] above 30 active work orders, [Medium]
    from 16 to 30 and [Low] up to 15; and on a built frame the paused work
    orders are among the active ones and no completed one is active, so
    active and completed together are at most the total. *)
Theorem operations_counts_and_risk `{L : PyRuntime} `{F : FrameRuntime}
  (raw_items : list RawItem) (schema : Schema) (workorders_df : list WorkOrderRecord) :
  ((exists msg, operational_metrics workorders_df = Error msg) <-> workorders_df = []) /\
  (workorders_df <> [] ->
   exists o,
     operational_metrics workorders_df = Result o /\
     total_work_orders o = Z.of_nat (List.length workorders_df) /\
     0 <= active_count o <= total_work_orders o /\
     (ops_operational_risk o = "High" <-> 30 < active_count o) /\
     (ops_operational_risk o = "Medium" <-> 15 < active_count o <= 30) /\
     (ops_operational_risk o = "Low" <-> active_count o <= 15) /\
     (clean_workorders_df raw_items schema = Ok workorders_df ->
      0 <= paused_count o <= active_count o /\
      active_count o + completed_count o <= total_work_orders o)).
Proof.
  split.
  - split.
    + intros [msg H]. destruct workorders_df as [|w rest]; [reflexivity|].
      destruct (operational_metrics_unfold (w :: rest)) as (o & Ho & _);
        [discriminate|]. rewrite Ho in H. discriminate H.
    + intros ->. simpl. eauto.
  - intros Hw.
    destruct (operational_metrics_unfold workorders_df Hw)
      as (o & Ho & Ht & Ha & Hc & Hp & Hr & _).
    exists o. split; [exact Ho|]. split; [exact Ht|].
    assert (Hb : 0 <= active_count o <= total_work_orders o).
    { rewrite Ha, Ht. split; [apply Nat2Z.is_nonneg|].
      apply inj_le, filter_length_bound. }
    split; [exact Hb|].
    split; [|split; [|split]].
    + rewrite Hr. destruct (Z.ltb_spec 30 (active_count o)).
      * split; [intros _; assumption | reflexivity].
      * destruct (15 <? active_count o); split; try discriminate; lia.
    + rewrite Hr. destruct (Z.ltb_spec 30 (active_count o)).
      * split; [discriminate | lia].
      * destruct (Z.ltb_spec 15 (active_count o)); split;
          try discriminate; try lia; reflexivity.
    + rewrite Hr. destruct (Z.ltb_spec 30 (active_count o)).
      * split; [discriminate | lia].
      * destruct (Z.ltb_spec 15 (active_count o)); split;
          try discriminate; try lia; reflexivity.
    + intros Hbuilt.
      rewrite Hp, Ha, Hc, Ht. split.
      * split; [apply Nat2Z.is_nonneg|]. apply inj_le. apply filter_length_mono_in.
        intros w Hin Hs. rewrite (built_workorder_active _ _ _ _ Hbuilt Hin).
        apply String.eqb_eq in Hs. rewrite Hs. reflexivity.
      * rewrite <- Nat2Z.inj_add. apply inj_le. apply filter_disjoint_length.
        intros w Hin Hact. rewrite (built_workorder_active _ _ _ _ Hbuilt Hin) in Hact.
        apply String.eqb_neq. intros E. rewrite E in Hact. discriminate Hact.
Qed.

Lemma operations_counts_and_risk_witness :
  sample_workorders_df <> [] /\
  exists o,
    @operational_metrics ref_runtime ref_frame_runtime sample_workorders_df = Result o /\
    active_count o = 1 /\ completed_count o = 1 /\ total_work_orders o = 2 /\
    ops_operational_risk o = "Low".
Proof.
  assert (Hn : sample_workorders_df <> []) by discriminate.
  split; [exact Hn|].
  destruct (proj2 (@operations_counts_and_risk ref_runtime ref_frame_runtime
                     sample_workorder_items sample_workorders_schema
                     sample_workorders_df) Hn)
    as (o & Ho & Ht & _ & _ & _ & Hl & _).
  assert (Ho' := Ho). vm_compute in Ho'. injection Ho' as <-.
  eexists. split; [exact Ho|]. split; [reflexivity|]. split; [reflexivity|].
  split; [exact Ht|]. apply Hl. vm_compute. discriminate.
Defined.

(** ** The leadership update *)

Section Leadership.
Context {L : PyRuntime} {F : FrameRuntime}.

Lemma cross_board_returns (deals_df : list DealRecord)
  (workorders_df : list WorkOrderRecord) :
  exists out, cross_board_analysis deals_df workorders_df = Ok out /\
              (deals_df = [] \/ workorders_df = [] -> exists msg, out = Error msg).
Proof.
  destruct (list_is_empty deals_df) as [Hd|Hd];
    [|destruct (list_is_empty workorders_df) as [Hw|Hw]].
  - subst. simpl. eexists. split; [reflexivity | eauto].
  - subst. destruct deals_df; simpl; eexists; (split; [reflexivity | eauto]).
  - rewrite (cross_board_unfold deals_df workorders_df Hd Hw).
    destruct (percentage_returns _ _ (won_count_bound deals_df)) as [c E1].
    destruct (percentage_returns _ _ (covered_won_names_bound deals_df workorders_df))
      as [v E2].
    rewrite E1, E2. unfold bind. eexists. split; [reflexivity|].
    intros [H|H]; contradiction.
Qed.

Lemma revenue_analytics_empty (now : Timestamp) (period : option string) :
  revenue_analytics now [] period = Error "No deals data available.".
Proof. reflexivity. Qed.

End Leadership.

(** X23.  The leadership update is built for any two frames and raises
    nothing.  Its pipeline is the rollup over this quarter, so its closing
    line repeats its total line, or reads [N/A] next to a total of [₹0]
    when no Open deal closes this quarter; with an empty deals frame its
    pipeline and revenue read [N/A] and its win rate 0, with an empty
    work-orders frame its backlog reads [N/A]; it carries the caveats it is
    given, so the rendered report has a caveats section exactly when one
    of the three report signals is over 10. *)
Theorem leadership_update_is_total `{L : PyRuntime} `{F : FrameRuntime}
  (now : Timestamp) (deals_df : list DealRecord)
  (workorders_df : list WorkOrderRecord) (caveats : Caveats) :
  exists u,
    generate_leadership_update now deals_df workorders_df caveats = Ok u /\
    data_quality u = Some caveats /\
    (closing_this_quarter (pipeline u) = total_open_pipeline (pipeline u) \/
     (total_open_pipeline (pipeline u) = "₹0" /\
      closing_this_quarter (pipeline u) = "N/A")) /\
    (deals_df = [] ->
     total_open_pipeline (pipeline u) = "N/A" /\
     closed_ytd (revenue u) = "N/A" /\
     revenue_top_sector (revenue u) = "N/A" /\
     won_to_total_rate_pct (conversion u) = NInt 0 /\
     coverage_rate_pct (conversion u) = NInt 0) /\
    (workorders_df = [] ->
     active_work_orders (operations u) = NInt 0 /\
     backlog_value (operations u) = "N/A" /\
     operational_risk (operations u) = "N/A" /\
     coverage_rate_pct (conversion u) = NInt 0) /\
    (In caveats_heading (leadership_lines u) <-> report_signal_over caveats = true).
Proof.
  unfold generate_leadership_update.
  destruct (_current_quarter_bounds now) as [q_start q_end].
  destruct (cross_board_returns deals_df workorders_df) as (out & Hout & Herr).
  rewrite Hout. unfold bind. eexists. split; [reflexivity|].
  cbn [data_quality pipeline revenue operations conversion total_open_pipeline
       closing_this_quarter closed_ytd revenue_top_sector won_to_total_rate_pct
       coverage_rate_pct active_work_orders backlog_value operational_risk].
  split; [reflexivity|]. split; [|split; [|split]].
  - destruct (list_is_empty deals_df) as [->|Hd]; [now left|].
    destruct (pipeline_of_quarter_rows now deals_df Hd) as (p & Hp & Hz & Hnz).
    rewrite Hp. unfold result_get.
    destruct (Z.eq_dec (open_count p) 0) as [Z0|Z0].
    + destruct (Hz Z0) as (T & V). rewrite T, V. now right.
    + rewrite (Hnz Z0). now left.
  - intros ->. destruct (Herr (or_introl eq_refl)) as [msg ->].
    repeat split; reflexivity.
  - intros ->. destruct (Herr (or_intror eq_refl)) as [msg ->].
    repeat split; reflexivity.
  - rewrite leadership_heading_iff. cbn [data_quality]. split.
    + intros (dq & E & H). now inversion E.
    + intros H. eauto.
Qed.

(** ** Caveats computed from the frames *)

Lemma missing_pct_none (n : nat) : (0 < n)%nat -> missing_pct 0 n = NFloat f0.
Proof.
  intros Hn. unfold missing_pct. change (int64 (100 * Z.of_nat 0)) with 0.
  change (float_of_Z 0) with (S754_zero false).
  pose proof (float_of_Z_positive (Z.of_nat n) ltac:(lia)) as P.
  destruct (float_of_Z (Z.of_nat n)) as [s|[]| |[] m e]; try discriminate P;
    reflexivity.
Qed.

Lemma filter_none {A : Type} (f : A -> bool) (l : list A) :
  (forall x, In x l -> f x = false) -> filter f l = [].
Proof.
  induction l as [|a l IH]; intros H; simpl; [reflexivity|].
  rewrite (H a (or_introl eq_refl)). apply IH. intros x Hx. apply H. now right.
Qed.

Section ComputedCaveats.
Context {L : PyRuntime}.

Lemma format_caveats_text_quiet (caveats : Caveats) :
  num_gt (get_or caveats "deals_missing_revenue_pct" (NInt 0)) 10 = false ->
  num_gt (get_or caveats "deals_missing_sector_pct" (NInt 0)) 10 = false ->
  num_gt (get_or caveats "deals_missing_close_date_pct" (NInt 0)) 20 = false ->
  num_gt (get_or caveats "wo_missing_amount_pct" (NInt 0)) 10 = false ->
  format_caveats_text caveats = "".
Proof.
  intros H1 H2 H3 H4. unfold format_caveats_text. now rewrite H1, H2, H3, H4.
Qed.

Lemma format_caveats_text_reads (c c' : Caveats) :
  (forall k, In k SIGNAL_KEYS -> dict_get c k = dict_get c' k) ->
  format_caveats_text c = format_caveats_text c'.
Proof.
  intros H. unfold format_caveats_text, get_or.
  rewrite !(H "deals_missing_revenue_pct"), !(H "deals_missing_sector_pct"),
          !(H "deals_missing_close_date_pct"), !(H "wo_missing_amount_pct");
    try reflexivity; simpl; auto.
Qed.

End ComputedCaveats.

(** X24.  [compute_caveats] writes only its seven keys, [deals_total] exactly
    for a deals frame that is not empty and [wo_total] exactly for a
    work-orders frame that is not empty, each being the row count; two empty
    frames give the empty dictionary, for which there is no warning text;
    and of the keys it writes the warning text reads four: the work-orders
    sector percentage and the totals change no warning. *)
Theorem caveats_keys_and_totals `{L : PyRuntime} (deals_df : list DealRecord)
  (workorders_df : list WorkOrderRecord) :
  (forall k, dict_get (compute_caveats deals_df workorders_df) k <> None ->
             In k CAVEAT_KEYS) /\
  dict_get (compute_caveats deals_df workorders_df) "deals_total"
    = match deals_df with
      | [] => None
      | _ => Some (NInt (Z.of_nat (List.length deals_df)))
      end /\
  dict_get (compute_caveats deals_df workorders_df) "wo_total"
    = match workorders_df with
      | [] => None
      | _ => Some (NInt (Z.of_nat (List.length workorders_df)))
      end /\
  (compute_caveats deals_df workorders_df = [] <-> deals_df = [] /\ workorders_df = []) /\
  format_caveats_text (compute_caveats [] []) = "" /\
  (forall other : Caveats,
     (forall k, In k SIGNAL_KEYS ->
        dict_get other k = dict_get (compute_caveats deals_df workorders_df) k) ->
     format_caveats_text other
       = format_caveats_text (compute_caveats deals_df workorders_df)).
Proof.
  split; [|split; [|split; [|split; [|split]]]].
  - intros k. unfold compute_caveats, CAVEAT_KEYS.
    destruct deals_df as [|d ds], workorders_df as [|w ws];
      cbn [dict_get List.app];
      repeat match goal with
             | |- context [String.eqb ?a k] =>
                 destruct (String.eqb_spec a k); [subst; intros _; simpl; tauto|]
             end; intros H; now elim H.
  - destruct deals_df as [|d ds], workorders_df as [|w ws]; reflexivity.
  - destruct deals_df as [|d ds], workorders_df as [|w ws]; reflexivity.
  - destruct deals_df as [|d ds], workorders_df as [|w ws]; simpl; split;
      try discriminate; try tauto; intros [H1 H2]; discriminate.
  - reflexivity.
  - intros other H. now apply format_caveats_text_reads.
Qed.

(** X25.  A frame in which no deal lacks a value, a sector or a close date
    and no work order lacks an amount gives percentages of 0 for the four
    signals, whatever its size: no warning text, and no caveats section in
    the leadership report. *)
Theorem complete_data_raises_no_caveat `{L : PyRuntime} (deals_df : list DealRecord)
  (workorders_df : list WorkOrderRecord) :
  (forall r, In r deals_df ->
     feqb (deal_value r) f0 = false /\ sector r <> "unknown" /\ close_date r <> None) ->
  (forall w, In w workorders_df -> feqb (amount_excl_gst w) f0 = false) ->
  (deals_df <> [] ->
   Forall (fun k => dict_get (compute_caveats deals_df workorders_df) k
                    = Some (NFloat f0))
          ["deals_missing_revenue_pct"; "deals_missing_sector_pct";
           "deals_missing_close_date_pct"]) /\
  (workorders_df <> [] ->
   dict_get (compute_caveats deals_df workorders_df) "wo_missing_amount_pct"
     = Some (NFloat f0)) /\
  format_caveats_text (compute_caveats deals_df workorders_df) = "" /\
  caveat_notes (compute_caveats deals_df workorders_df) = [].
Proof.
  intros Hd Hw.
  assert (D1 : filter (fun r => feqb (deal_value r) f0) deals_df = []).
  { apply filter_none. intros r Hr. apply (Hd r Hr). }
  assert (D2 : filter (fun r => String.eqb (sector r) "unknown") deals_df = []).
  { apply filter_none. intros r Hr. apply String.eqb_neq. apply (Hd r Hr). }
  assert (D3 : filter (fun r => match close_date r with
                                             | None => true
                                             | Some _ => false
                                             end) deals_df = []).
  { apply filter_none. intros r Hr. destruct (Hd r Hr) as (_ & _ & C).
    destruct (close_date r); [reflexivity | now elim C]. }
  assert (W1 : filter (fun w => feqb (amount_excl_gst w) f0)
                 workorders_df = []).
  { apply filter_none. intros w Hin. apply (Hw w Hin). }
  assert (E : compute_caveats deals_df workorders_df
              = List.app
                  match deals_df with
                  | [] => []
                  | _ => [("deals_missing_revenue_pct", NFloat f0);
                          ("deals_missing_sector_pct", NFloat f0);
                          ("deals_missing_close_date_pct", NFloat f0);
                          ("deals_total", NInt (Z.of_nat (List.length deals_df)))]
                  end
                  match workorders_df with
                  | [] => []
                  | _ => [("wo_missing_amount_pct", NFloat f0);
                          ("wo_missing_sector_pct",
                           missing_pct
                             (List.length
                                (filter (fun w =>
                                           String.eqb (wo_sector w) "unknown")
                                        workorders_df))
                             (List.length workorders_df));
                          ("wo_total", NInt (Z.of_nat (List.length workorders_df)))]
                  end).
  { unfold compute_caveats. rewrite D1, D2, D3, W1.
    destruct deals_df as [|d ds], workorders_df as [|w ws]; try reflexivity;
      cbn [List.length List.app]; rewrite ?missing_pct_none by (simpl; lia);
      reflexivity. }
  rewrite E.
  split; [|split; [|split]].
  - intros Hn. destruct deals_df as [|d ds]; [contradiction|].
    repeat constructor.
  - intros Hn. destruct deals_df as [|d ds], workorders_df as [|w ws];
      try contradiction; reflexivity.
  - apply format_caveats_text_quiet;
      destruct deals_df as [|d ds], workorders_df as [|w ws]; reflexivity.
  - apply caveat_notes_empty_iff. unfold report_signal_over.
    destruct deals_df as [|d ds], workorders_df as [|w ws]; reflexivity.
Qed.

Lemma complete_data_raises_no_caveat_witness :
  @format_caveats_text ref_runtime (compute_caveats complete_deals complete_workorders) = "" /\
  dict_get (compute_caveats complete_deals complete_workorders) "deals_total"
    = Some (NInt 2).
Proof.
  split; [|reflexivity].
  apply (@complete_data_raises_no_caveat ref_runtime complete_deals complete_workorders).
  - intros r [<-|[<-|[]]]; (split; [reflexivity|]); split; discriminate.
  - intros w [<-|[]]. reflexivity.
Defined.

(** ** The agent's quarter label *)

(** X26.  For every month the agent's quarter label is defined, but its
    quarter number is never 4 and never the calendar quarter the title of
    the leadership update prints: from April on it names the quarter whose
    months [_current_quarter_bounds] gives, in the financial year after the
    calendar year; from January to March it names quarter 3, October to
    December, while the bounds are January 1 to March 31. *)
Theorem quarter_label_months `{L : PyRuntime} (today : Timestamp) :
  1 <= ts_month today <= 12 ->
  (exists label, _get_current_quarter_label today = Some label) /\
  snd (fiscal_year_quarter today) <> 4 /\
  snd (fiscal_year_quarter today) <> ts_quarter today /\
  (4 <= ts_month today ->
   fst (fiscal_year_quarter today) = ts_year today + 1 /\
   int_key_get quarter_months (snd (fiscal_year_quarter today))
     = Some (ts_month (fst (_current_quarter_bounds today)),
             ts_month (snd (_current_quarter_bounds today)))) /\
  (ts_month today <= 3 ->
   fiscal_year_quarter today = (ts_year today, 3) /\
   int_key_get q_names (snd (fiscal_year_quarter today)) = Some "Oct–Dec" /\
   _current_quarter_bounds today
     = (ts_of_date (ts_year today) 1 1, ts_of_date (ts_year today) 3 31)).
Proof.
  intros Hm.
  unfold _get_current_quarter_label, fiscal_year_quarter, ts_quarter,
    _current_quarter_bounds.
  destruct (month_cases _ Hm) as [C|[C|[C|[C|[C|[C|[C|[C|[C|[C|[C|C]]]]]]]]]]];
    rewrite C; cbn;
    (split; [eexists; reflexivity|]);
    (split; [discriminate|]); (split; [discriminate|]);
    split; intros H; try lia; repeat split; reflexivity.
Qed.

Lemma quarter_label_months_witness :
  1 <= ts_month (ts_of_date 2026 2 10) <= 12 /\
  @_get_current_quarter_label ref_runtime (ts_of_date 2026 2 10)
    = Some "Q3 FY2026 (Oct–Dec 2026)" /\
  fiscal_year_quarter (ts_of_date 2026 2 10) = (2026, 3).
Proof.
  assert (M : 1 <= ts_month (ts_of_date 2026 2 10) <= 12) by (simpl; lia).
  split; [exact M|]. split; [vm_compute; reflexivity|].
  apply (@quarter_label_months ref_runtime (ts_of_date 2026 2 10) M).
  simpl. lia.
Defined.

(** ** The conversation helpers *)

Lemma any_in_cons (q w : string) (ws : list string) :
  any_in q (w :: ws) = contains q w || any_in q ws.
Proof. reflexivity. Qed.

Lemma infer_loop_range (msgs : list Message) :
  In (infer_from_user_messages msgs) INFERRED_INTENTS.
Proof.
  induction msgs as [|msg rest IH]; [simpl; auto|].
  cbn [infer_from_user_messages].
  repeat match goal with |- context [if ?b then _ else _] => destruct b end;
    try exact IH; simpl; auto.
Qed.

Lemma infer_loop_pipeline (msgs : list Message) :
  infer_from_user_messages msgs = "pipeline" ->
  exists msg,
    In msg msgs /\ has_role msg "user" = true /\
    contains (lower (get_or msg "content" "")) "pipeline" = false /\
    (contains (lower (get_or msg "content" "")) "open deal" = true \/
     contains (lower (get_or msg "content" "")) "stage" = true).
Proof.
  induction msgs as [|msg rest IH]; [discriminate|].
  cbn [infer_from_user_messages].
  destruct (has_role msg "user") eqn:R.
  - destruct (any_in _ ["revenue"; "income"; "billed"; "closed"; "pipeline"]) eqn:A1;
      [discriminate|].
    destruct (any_in _ ["work order"; "operation"; "execution"; "active"; "backlog"]);
      [discriminate|].
    destruct (any_in _ ["convert"; "conversion"; "win rate"; "cross"]); [discriminate|].
    destruct (any_in _ ["pipeline"; "open deal"; "stage"]) eqn:A4.
    + intros _. exists msg. split; [now left|]. split; [exact R|].
      rewrite !any_in_cons in A1, A4.
      apply orb_false_iff in A1. destruct A1 as [_ A1].
      apply orb_false_iff in A1. destruct A1 as [_ A1].
      apply orb_false_iff in A1. destruct A1 as [_ A1].
      apply orb_false_iff in A1. destruct A1 as [_ A1].
      apply orb_false_iff in A1. destruct A1 as [P _].
      split; [exact P|]. rewrite P in A4. simpl in A4.
      apply orb_true_iff in A4. destruct A4 as [A4|A4]; [now left|].
      apply orb_true_iff in A4. destruct A4 as [A4|A4]; [now right | discriminate].
    + intros H. destruct (IH H) as (m & Hin & Hm). exists m. split; [now right | exact Hm].
  - intros H. destruct (IH H) as (m & Hin & Hm). exists m. split; [now right | exact Hm].
Qed.

(** X27.  The intent inferred after a clarification is one of [revenue],
    [operations], [crossboard] and [pipeline], never [ambiguous]; it is
    [revenue] when the history has no user message; and since [pipeline] is
    among the revenue keywords, a latest user message that mentions the
    pipeline gives [revenue]: [pipeline] comes only from a user message
    that has [open deal] or [stage] and does not have [pipeline]. *)
Theorem inferred_intent_range (history : list Message) :
  In (_infer_intent_from_clarification_context history) INFERRED_INTENTS /\
  _infer_intent_from_clarification_context history <> "ambiguous" /\
  (forallb (fun msg => negb (has_role msg "user")) history = true ->
   _infer_intent_from_clarification_context history = "revenue") /\
  (forall content,
     contains (lower content) "pipeline" = true ->
     _infer_intent_from_clarification_context
       (List.app history [chat "user" content]) = "revenue") /\
  (_infer_intent_from_clarification_context history = "pipeline" ->
   exists msg,
     In msg history /\ has_role msg "user" = true /\
     contains (lower (get_or msg "content" "")) "pipeline" = false /\
     (contains (lower (get_or msg "content" "")) "open deal" = true \/
      contains (lower (get_or msg "content" "")) "stage" = true)).
Proof.
  unfold _infer_intent_from_clarification_context.
  split; [apply infer_loop_range|]. split; [|split; [|split]].
  - pose proof (infer_loop_range (rev history)) as H. intros E. rewrite E in H.
    simpl in H. repeat destruct H as [H|H]; try discriminate H. exact H.
  - intros H.
    assert (G : forall msgs,
              forallb (fun msg => negb (has_role msg "user")) msgs = true ->
              infer_from_user_messages msgs = "revenue").
    { induction msgs as [|m r IH]; [reflexivity|]. simpl. intros Hm.
      apply andb_true_iff in Hm. destruct Hm as [Hm Hr].
      apply negb_true_iff in Hm. rewrite Hm. now apply IH. }
    apply G. rewrite forallb_forall in *. intros m Hm. apply H. now apply in_rev.
  - intros content Hc. rewrite rev_app_distr. cbn [rev List.app infer_from_user_messages].
    change (has_role (chat "user" content) "user") with true. cbv iota.
    change (get_or (chat "user" content) "content" "") with content.
    rewrite !any_in_cons, Hc. rewrite !orb_true_r. reflexivity.
  - intros H. destruct (infer_loop_pipeline _ H) as (m & Hin & Hm).
    exists m. split; [now apply in_rev | exact Hm].
Qed.

Lemma inferred_intent_range_witness :
  contains (lower "How is the pipeline by stage?") "pipeline" = true /\
  _infer_intent_from_clarification_context
    (List.app [chat "user" "What about revenue?"; chat "assistant" "Do you mean: closed?"]
              [chat "user" "How is the pipeline by stage?"])
  = "revenue".
Proof.
  assert (C : contains (lower "How is the pipeline by stage?") "pipeline" = true)
    by reflexivity.
  split; [exact C|].
  exact (proj1 (proj2 (proj2 (proj2 (inferred_intent_range
           [chat "user" "What about revenue?"; chat "assistant" "Do you mean: closed?"]))))
           "How is the pipeline by stage?" C).
Defined.

(** X28.  Whether the last turn was a clarification is read off the most
    recent message of the assistant alone: an empty history has none,
    messages of other roles after it change nothing, and one of the four
    phrases in it, in any case, decides. *)
Theorem last_clarification_by_last_assistant (history : list Message) (msg : Message) :
  _was_last_clarification [] = false /\
  (has_role msg "assistant" = false -> has_role msg "model" = false ->
   _was_last_clarification (List.app history [msg]) = _was_last_clarification history) /\
  (has_role msg "assistant" = true \/ has_role msg "model" = true ->
   _was_last_clarification (List.app history [msg])
   = any_in (lower (get_or msg "content" ""))
       ["do you mean:"; "could you clarify"; "when you say"; "are you asking"]) /\
  (forallb (fun m => negb (has_role m "assistant" || has_role m "model")) history = true ->
   _was_last_clarification history = false).
Proof.
  unfold _was_last_clarification.
  split; [reflexivity|]. split; [|split].
  - intros H1 H2. rewrite rev_app_distr. cbn [rev List.app last_assistant_clarifies].
    now rewrite H1, H2.
  - intros H. rewrite rev_app_distr. cbn [rev List.app last_assistant_clarifies].
    assert (E : has_role msg "assistant" || has_role msg "model" = true).
    { destruct H as [-> | ->]; [reflexivity | apply orb_true_r]. }
    rewrite E. cbn [any_in existsb]. now rewrite orb_false_r, !orb_assoc.
  - intros H.
    assert (G : forall msgs,
              forallb (fun m => negb (has_role m "assistant" || has_role m "model")) msgs
                = true ->
              last_assistant_clarifies msgs = false).
    { induction msgs as [|m r IH]; [reflexivity|]. cbn [forallb last_assistant_clarifies].
      intros Hm. apply andb_true_iff in Hm. destruct Hm as [Hm Hr].
      apply negb_true_iff in Hm. rewrite Hm. now apply IH. }
    apply G. rewrite forallb_forall in *. intros m Hm. apply H. now apply in_rev.
Qed.

Lemma last_clarification_by_last_assistant_witness :
  _was_last_clarification
    (List.app [chat "user" "How are we doing?"; chat "assistant" "Could you clarify the period?"]
              [chat "user" "This quarter"]) = true.
Proof.
  rewrite (proj1 (proj2 (last_clarification_by_last_assistant
             [chat "user" "How are we doing?";
              chat "assistant" "Could you clarify the period?"]
             (chat "user" "This quarter"))) eq_refl eq_refl).
  reflexivity.
Defined.

(** ** The history handed to the language model *)

Lemma format_messages_app (msgs formatted : list Message) :
  format_messages msgs formatted = List.app formatted (format_messages msgs []).
Proof.
  revert formatted. induction msgs as [|m r IH]; intros formatted;
    cbn [format_messages].
  - now rewrite app_nil_r.
  - destruct (String.eqb (get_or m "content" "") ""); [apply IH|].
    rewrite IH. rewrite (IH (List.app [] _)). now rewrite <- app_assoc.
Qed.

Lemma format_messages_shape (msgs : list Message) :
  (List.length (format_messages msgs []) <= List.length msgs)%nat /\
  Forall (fun m => is_formatted m = true) (format_messages msgs []) /\
  map (fun m => get_or m "content" "") (format_messages msgs [])
  = filter (fun c => negb (String.eqb c ""))
           (map (fun m => get_or m "content" "") msgs).
Proof.
  induction msgs as [|m r (IH1 & IH2 & IH3)]; [simpl; auto|].
  cbn [format_messages map filter].
  destruct (String.eqb (get_or m "content" "") "") eqn:E; cbn [negb].
  - split; [simpl; lia|]. split; assumption.
  - rewrite format_messages_app. cbn [List.app List.length map].
    split; [simpl; lia|]. split.
    + constructor; [|exact IH2]. unfold is_formatted.
      rewrite E. destruct (String.eqb (get_or m "role" "user") "user"); reflexivity.
    + f_equal. exact IH3.
Qed.

Lemma last_n_length {A : Type} (n : nat) (l : list A) :
  (List.length (last_n n l) <= n)%nat.
Proof. unfold last_n. rewrite length_skipn. lia. Qed.

(** X29.  The history handed to the language model has at most ten messages,
    each with exactly a role, [user] or [assistant], and a content that is
    not empty: the contents, in order, of the last ten messages of the
    conversation that have one. *)
Theorem format_history_shape (history : list Message) :
  (List.length (_format_history history) <= 10)%nat /\
  Forall (fun m => is_formatted m = true) (_format_history history) /\
  map (fun m => get_or m "content" "") (_format_history history)
  = filter (fun c => negb (String.eqb c ""))
           (map (fun m => get_or m "content" "") (last_n 10 history)) /\
  (forall m, In m (_format_history history) ->
     has_role m "user" = true \/ has_role m "assistant" = true).
Proof.
  unfold _format_history.
  destruct (format_messages_shape (last_n 10 history)) as (H1 & H2 & H3).
  split; [pose proof (last_n_length 10 history); lia|].
  split; [exact H2|]. split; [exact H3|].
  intros m Hm. rewrite Forall_forall in H2. specialize (H2 m Hm).
  unfold is_formatted in H2.
  destruct m as [|[k1 role] [|[k2 content] [|x r]]]; try discriminate H2.
  apply andb_true_iff in H2. destruct H2 as [H2 _].
  apply andb_true_iff in H2. destruct H2 as [H2 Hr].
  apply andb_true_iff in H2. destruct H2 as [K1 _].
  apply String.eqb_eq in K1. subst k1. unfold has_role. simpl.
  apply orb_true_iff in Hr. exact Hr.
Qed.
